(** * The WASM proxy worker (cloudflare/wasm-proxy-worker.js)

    A shallow embedding of the edge worker that proxies WebAssembly asset
    bundles: the origin guard, the method gate, the sliding-window rate
    limiter, the file-type gate, the cache-aware fetcher [proxyRequest], the
    compression-preserving fetcher [proxyLibreOfficeGz] and the handler
    [fetch] with its dispatcher.

    State is passed explicitly: the handler takes the world (rate-limit
    store, edge cache, log of upstream fetches) and returns the response
    together with the new world.  The body of a [try] block runs in a small
    monad [Eff] of state, exceptions and early [return]; its [catch] turns a
    thrown exception into the 500 response.

    What the platform decides is a parameter ([Platform]): the upstream's
    answer or the exception of [fetch], the refusal of [cache.put], the
    host name of a URL.  The cache is keyed by the target URL;
    [cache.match], [response.arrayBuffer()] and the two calls on the
    rate-limit store, which the handler does not guard, are taken not to
    throw; upstream base URLs are taken to be absolute URLs, so that
    [new Request] and [new URL] accept the target URL. *)

From Stdlib Require Import ZArith Lia Bool List Ascii String.
From Stdlib.Init Require Import Byte.
From stdpp Require Import base option list gmap strings pretty.

Local Open Scope string_scope.
Local Open Scope Z_scope.

(** ** JavaScript string primitives used by the worker

    Request paths come out of [new URL(...).pathname], which is ASCII
    (anything else is percent-encoded), and header values are byte strings,
    so [string] over [ascii] represents them exactly. *)
Module JS.

(** [s.startsWith(p)] *)
Definition startsWith (s p : string) : bool := String.prefix p s.

(** [s.endsWith(p)] *)
Fixpoint endsWith (s p : string) : bool :=
  String.eqb s p ||
  match s with
  | EmptyString => false
  | String _ s' => endsWith s' p
  end.

(** [s.includes(p)] *)
Fixpoint includes (s p : string) : bool :=
  String.prefix p s ||
  match s with
  | EmptyString => false
  | String _ s' => includes s' p
  end.

(** Scan for [s.lastIndexOf(c)]: [i] is the index of the head of [s],
    [found] the last index seen so far. *)
Fixpoint lastIndexOf_from (s : string) (c : ascii) (i found : Z) : Z :=
  match s with
  | EmptyString => found
  | String a s' =>
      lastIndexOf_from s' c (i + 1) (if Ascii.eqb a c then i else found)
  end.

(** [s.lastIndexOf(c)] for a one-character pattern; -1 when absent. *)
Definition lastIndexOf (s : string) (c : ascii) : Z :=
  lastIndexOf_from s c 0 (-1).

Fixpoint drop (n : nat) (s : string) : string :=
  match n, s with
  | O, _ => s
  | S n', String _ s' => drop n' s'
  | S _, EmptyString => EmptyString
  end.

(** [s.substring(start)]: a negative start counts as 0, a start past the
    end gives the empty string. *)
Definition substring (s : string) (start : Z) : string :=
  drop (Z.to_nat (Z.max 0 start)) s.

Definition lower_ascii (a : ascii) : ascii :=
  let n := nat_of_ascii a in
  if (Nat.leb 65 n && Nat.leb n 90)%bool then ascii_of_nat (n + 32) else a.

(** [s.toLowerCase()] on an ASCII string *)
Fixpoint toLowerCase (s : string) : string :=
  match s with
  | EmptyString => EmptyString
  | String a s' => String (lower_ascii a) (toLowerCase s')
  end.

(** [s.slice(0, -1)] *)
Fixpoint slice_0_minus1 (s : string) : string :=
  match s with
  | EmptyString => EmptyString
  | String _ EmptyString => EmptyString
  | String a s' => String a (slice_0_minus1 s')
  end.

(** [s.replace(pat, rep)] with a string pattern: the first occurrence
    only. *)
Fixpoint replace (s pat rep : string) : string :=
  if String.prefix pat s then rep +:+ drop (String.length pat) s
  else match s with
       | EmptyString => EmptyString
       | String a s' => String a (replace s' pat rep)
       end.

(** [s.replace(/\/$/, '')]: one slash at the very end is removed. *)
Definition strip_trailing_slash (s : string) : string :=
  if endsWith s "/" then slice_0_minus1 s else s.

(** A header or environment value read as a condition: [undefined] and
    the empty string are falsy. *)
Definition truthy (v : option string) : bool :=
  match v with
  | Some s => negb (String.eqb s "")
  | None => false
  end.

(** [v || d] on an optional string *)
Definition or_else (v : option string) (d : string) : string :=
  match v with
  | Some s => if String.eqb s "" then d else s
  | None => d
  end.

(** *** [parseInt(s, 10)]

    Leading white space is skipped, one sign is read, then the longest
    run of decimal digits; no digit at all gives NaN ([None]).  The worker
    only compares the result with an exactly representable bound, and
    rounding to a double is monotone, so the exact integer stands for the
    double. *)
Definition is_white_space (a : ascii) : bool :=
  let n := nat_of_ascii a in
  (Nat.eqb n 9 || Nat.eqb n 10 || Nat.eqb n 11 || Nat.eqb n 12
   || Nat.eqb n 13 || Nat.eqb n 32 || Nat.eqb n 160)%bool.

Definition digit_value (a : ascii) : option Z :=
  let n := nat_of_ascii a in
  if (Nat.leb 48 n && Nat.leb n 57)%bool then Some (Z.of_nat (n - 48)) else None.

Fixpoint skip_white_space (s : string) : string :=
  match s with
  | String a s' => if is_white_space a then skip_white_space s' else s
  | EmptyString => EmptyString
  end.

(** Digits of [s] read from the left; [acc] is the value read so far,
    [None] while no digit has been seen. *)
Fixpoint read_digits (s : string) (acc : option Z) : option Z :=
  match s with
  | String a s' =>
      match digit_value a with
      | Some d => read_digits s' (Some (10 * default 0 acc + d))
      | None => acc
      end
  | EmptyString => acc
  end.

Definition parseInt (s : string) : option Z :=
  match skip_white_space s with
  | String "-" s' => Z.opp <$> read_digits s' None
  | String "+" s' => read_digits s' None
  | s' => read_digits s' None
  end.

(** [x > bound] where [x] may be NaN: a comparison with NaN is false. *)
Definition gt_number (x : option Z) (bound : Z) : bool :=
  match x with
  | Some n => bound <? n
  | None => false
  end.

End JS.

(** ** Constants of the worker *)

Definition ALLOWED_ORIGINS : list string :=
  ["https://www.bentopdf.com"; "https://bentopdf.com"; "https://bentopdf-32l.pages.dev"].

Definition MAX_FILE_SIZE_BYTES : Z := 100 * 1024 * 1024.

Definition RATE_LIMIT_MAX_REQUESTS : Z := 100.
Definition RATE_LIMIT_WINDOW_MS : Z := 60 * 1000.

Definition CACHE_TTL_SECONDS : Z := 604800.

Definition ALLOWED_EXTENSIONS : list string :=
  [".js"; ".mjs"; ".wasm"; ".data"; ".py"; ".so"; ".zip"; ".json"; ".mem";
   ".asm.js"; ".worker.js"; ".html"; ".gz"].

(** [list.includes(x)] for a list of strings *)
Definition list_includes (l : list string) (x : string) : bool :=
  existsb (String.eqb x) l.

(** ** Origin guard and file-type gate *)

Definition isAllowedOrigin (origin : option string) : bool :=
  if negb (JS.truthy origin) then true
  else
    let o := JS.or_else origin "" in
    existsb (fun allowed => JS.startsWith o (JS.strip_trailing_slash allowed))
            ALLOWED_ORIGINS.

Definition isAllowedFile (pathname : string) : bool :=
  let ext := JS.toLowerCase (JS.substring pathname (JS.lastIndexOf pathname ".")) in
  if list_includes ALLOWED_EXTENSIONS ext then true
  else if (negb (JS.includes pathname ".") || JS.endsWith pathname "/")%bool then true
  else false.

(** ** Requests, responses and the environment *)

(** A [Headers] object: names are case-insensitive, so they are kept in
    lower case and [get] lowers the name it is asked for. *)
Definition headers_get (h : gmap string string) (name : string) : option string :=
  h !! JS.toLowerCase name.

Record Request := {
  method : string;
  pathname : string;               (* new URL(request.url).pathname *)
  req_headers : gmap string string;
}.

(** The bindings of the worker: [RATE_LIMIT_KV] tells whether the durable
    store is bound (its content lives in the world), the four sources are
    the configured upstream base URLs. *)
Record Env := {
  RATE_LIMIT_KV : bool;
  LIBREOFFICE_SOURCE : option string;
  PYMUPDF_SOURCE : option string;
  GS_SOURCE : option string;
  CPDF_SOURCE : option string;
}.

(** The argument of [JSON.stringify]: the object literals of the worker. *)
#[warnings="-register-all"] Inductive Json :=
| JString (s : string)
| JNumber (n : Z)
| JBool (b : bool)
| JObject (fields : list (string * Json)).

Inductive Body :=
| BodyNull
| BodyText (s : string)            (* a plain string body *)
| BodyJSON (j : Json)              (* the string JSON.stringify(j) *)
| BodyBytes (bytes : list byte).   (* an ArrayBuffer *)

(** A response built by the worker: the status, the headers and the
    [encodeBody] option it hands to [new Response]. *)
Record Response := {
  status : Z;
  headers : gmap string string;
  body : Body;
  encodeBody : option string;
}.

(** What [fetch(targetUrl, ...)] resolves to, as far as the worker looks at
    it: [up_content_length] is [response.headers.get('Content-Length')]. *)
Record UpstreamResponse := {
  up_status : Z;
  up_statusText : string;
  up_content_length : option string;
  up_body : list byte;
}.

(** [response.ok] *)
Definition ok (r : UpstreamResponse) : bool :=
  (200 <=? up_status r) && (up_status r <=? 299).

(** The copy of an upstream response that line 190-194 builds and the cache
    stores: the upstream response with its Cache-Control header replaced. *)
Record CachedResponse := {
  cached_from : UpstreamResponse;
  cached_cache_control : string;
}.

(** One record of the rate-limit store: the value
    [{ requests: [...] }] and the [expirationTtl] it was written with. *)
Record RateLimitRecord := {
  requests : list Z;
  expirationTtl : Z;
}.

(** The state the worker reads and writes. *)
Record World := {
  kv : gmap string RateLimitRecord;      (* env.RATE_LIMIT_KV *)
  cache : gmap string CachedResponse;    (* caches.default, keyed by target URL *)
  fetched : list string;                 (* upstream URLs fetched so far *)
}.

Definition set_kv (w : World) (k : gmap string RateLimitRecord) : World :=
  {| kv := k; cache := cache w; fetched := fetched w |}.
Definition set_cache (w : World) (c : gmap string CachedResponse) : World :=
  {| kv := kv w; cache := c; fetched := fetched w |}.
Definition log_fetch (w : World) (url : string) : World :=
  {| kv := kv w; cache := cache w; fetched := fetched w ++ [url] |}.

(** ** The platform

    What the runtime decides and the worker cannot: the answer of the
    upstream (or the exception [fetch] throws), the host name [new URL]
    parses out of a target URL, whether [cache.put] refuses a request and
    response (it throws then), and the message of the error that
    [new Response] throws for a status it does not accept. *)
Inductive Outcome (A : Type) : Type :=
| Returns (a : A)
| Throws (message : string).
Arguments Returns {A} a.
Arguments Throws {A} message.

Record Platform := {
  net_fetch : string -> Outcome UpstreamResponse;
  url_hostname : string -> string;
  cache_put_error : Request -> CachedResponse -> option string;
  response_init_error : Z -> string;
}.

(** ** Effects of a [try] block: state, exceptions and early return

    A step of the block completes normally with a value, leaves the
    function with a response ([return] in the middle of the block), or
    throws. *)
Inductive Completion (A : Type) : Type :=
| Normal (a : A)
| Return (r : Response)
| Throw (message : string).
Arguments Normal {A} a.
Arguments Return {A} r.
Arguments Throw {A} message.

Definition Eff (A : Type) : Type := World -> Completion A * World.

Definition ret {A} (a : A) : Eff A := fun w => (Normal a, w).
Definition leave {A} (r : Response) : Eff A := fun w => (Return r, w).
Definition throw {A} (message : string) : Eff A := fun w => (Throw message, w).
Definition bind {A B} (m : Eff A) (k : A -> Eff B) : Eff B :=
  fun w =>
    match m w with
    | (Normal a, w') => k a w'
    | (Return r, w') => (Return r, w')
    | (Throw message, w') => (Throw message, w')
    end.

Notation "'let*' x ':=' m 'in' k" := (bind m (fun x => k))
  (at level 10, x name, m at level 100, k at level 200).

(** [try { body } catch (error) { return handler(error.message) }], the
    block ending in a [return]. *)
Definition try_catch (body : Eff Response) (handler : string -> Response)
  (w : World) : Response * World :=
  match body w with
  | (Normal r, w') => (r, w')
  | (Return r, w') => (r, w')
  | (Throw message, w') => (handler message, w')
  end.

(** [await cache.match(cacheKey)], looked up by the target URL.  The key
    of line 140 is [new Request(targetUrl, request)]: it also carries the
    method and the headers of the inbound request, which the platform may
    take into account (a [HEAD], a [Range] or a conditional request).  A
    property that rests on a hit is stated for the plain [GET] that stored
    the entry, repeated. *)
Definition cache_match (url : string) : Eff (option CachedResponse) :=
  fun w => (Normal (cache w !! url), w).

(** [await cache.put(cacheKey, response.clone())] *)
Definition cache_put (pf : Platform) (request : Request) (url : string)
  (r : CachedResponse) : Eff unit :=
  fun w =>
    match cache_put_error pf request r with
    | Some message => (Throw message, w)
    | None => (Normal tt, set_cache w (<[url := r]> (cache w)))
    end.

(** [await fetch(targetUrl, { headers: ... })] *)
Definition upstream_fetch (pf : Platform) (url : string) : Eff UpstreamResponse :=
  fun w =>
    (match net_fetch pf url with
     | Returns response => Normal response
     | Throws message => Throw message
     end,
     log_fetch w url).

(** A status that allows no body (Fetch standard, "null body status"). *)
Definition null_body_status (s : Z) : bool :=
  (s =? 101) || (s =? 103) || (s =? 204) || (s =? 205) || (s =? 304).

(** [new Response(body, { status, headers })] with a non-null body and a
    status that is not a constant of the program: the constructor throws a
    RangeError outside 200..599 and a TypeError for a null body status. *)
Definition new_Response (pf : Platform) (s : Z) (h : gmap string string)
  (b : Body) : Eff Response :=
  if (200 <=? s) && (s <=? 599) && negb (null_body_status s)
  then ret {| status := s; headers := h; body := b; encodeBody := None |}
  else throw (response_init_error pf s).

(** ** Response builders *)

Definition corsHeaders (origin : option string) : gmap string string :=
  <["Access-Control-Max-Age" := "86400"]>
  (<["Access-Control-Expose-Headers" := "Content-Length, Content-Range, Content-Type"]>
  (<["Access-Control-Allow-Headers" := "Content-Type, Range, Cache-Control"]>
  (<["Access-Control-Allow-Methods" := "GET, HEAD, OPTIONS"]>
  (<["Access-Control-Allow-Origin" := JS.or_else origin "*"]> ∅)))).

Definition handleOptions (request : Request) : Response :=
  let origin := headers_get (req_headers request) "Origin" in
  {| status := 204; headers := corsHeaders origin; body := BodyNull;
     encodeBody := None |}.

(** The header object [{ ...corsHeaders(origin), 'Content-Type':
    'application/json' }] of the JSON responses. *)
Definition json_headers (origin : option string) : gmap string string :=
  <["Content-Type" := "application/json"]> (corsHeaders origin).

(** [new Response(JSON.stringify({...}), { status, headers: {
    ...corsHeaders(origin), 'Content-Type': 'application/json' } })] with a
    status written in the program. *)
Definition json_response (s : Z) (origin : option string)
  (fields : list (string * Json)) : Response :=
  {| status := s; headers := json_headers origin;
     body := BodyJSON (JObject fields); encodeBody := None |}.

Definition contentTypes : list (string * string) :=
  [(".js", "application/javascript");
   (".mjs", "application/javascript");
   (".wasm", "application/wasm");
   (".json", "application/json");
   (".data", "application/octet-stream");
   (".py", "text/x-python");
   (".so", "application/octet-stream");
   (".zip", "application/zip");
   (".mem", "application/octet-stream");
   (".html", "text/html")].

(** [table[key]] on an object literal with string values, for the keys
    the literal writes.  An object literal also answers the names it
    inherits ([constructor], [__proto__], ...); the extension looked up
    begins with a dot or, for a path without dot, with the slash every path
    of the fetchers begins with, so no inherited name is ever looked up. *)
Fixpoint assoc (table : list (string * string)) (key : string) : option string :=
  match table with
  | [] => None
  | (k, v) :: rest => if String.eqb k key then Some v else assoc rest key
  end.

Definition getContentType (pathname : string) : string :=
  let ext := JS.toLowerCase (JS.substring pathname (JS.lastIndexOf pathname ".")) in
  JS.or_else (assoc contentTypes ext) "application/octet-stream".

(** [`public, max-age=${CACHE_TTL_SECONDS}`] *)
Definition cache_control_value : string :=
  "public, max-age=" +:+ pretty CACHE_TTL_SECONDS.

(** [n.toString()] of a byte length *)
Definition byteLength_toString (bytes : list byte) : string :=
  pretty (Z.of_nat (length bytes)).

Definition normalizeBase (sourceBaseUrl : string) : string :=
  if JS.endsWith sourceBaseUrl "/" then JS.slice_0_minus1 sourceBaseUrl
  else sourceBaseUrl.

Definition normalizePath (subpath : string) : string :=
  if JS.startsWith subpath "/" then subpath else "/" +:+ subpath.

(** [`${normalizedBase}${normalizedPath}`] *)
Definition targetUrl_of (sourceBaseUrl : option string) (subpath : string) : string :=
  normalizeBase (JS.or_else sourceBaseUrl "") +:+ normalizePath subpath.

(** ** The cache-aware fetcher *)

(** Lines 201-212: the body is read in full and sent with status 200. *)
Definition forward (pf : Platform) (origin : option string)
  (targetUrl normalizedPath : string) (response : CachedResponse) : Response :=
  let bodyData := up_body (cached_from response) in
  {| status := 200;
     headers :=
       <["X-Proxied-From" := url_hostname pf targetUrl]>
       (<["Cache-Control" := cache_control_value]>
       (<["Content-Length" := byteLength_toString bodyData]>
       (<["Content-Type" := getContentType normalizedPath]>
       (corsHeaders origin))));
     body := BodyBytes bodyData;
     encodeBody := None |}.

(** [parseInt(response.headers.get('Content-Length') || '0', 10)] *)
Definition contentLength_of (response : UpstreamResponse) : option Z :=
  JS.parseInt (JS.or_else (up_content_length response) "0").

Definition proxyRequest (pf : Platform) (request : Request)
  (sourceBaseUrl : option string) (subpath : string) (origin : option string)
  (w : World) : Response * World :=
  if negb (JS.truthy sourceBaseUrl) then
    (json_response 503 origin
       [("error", JString "Source not configured");
        ("message", JString "This WASM module source URL has not been configured.")],
     w)
  else
    let normalizedPath := normalizePath subpath in
    let targetUrl := targetUrl_of sourceBaseUrl subpath in
    if negb (isAllowedFile normalizedPath) then
      (json_response 403 origin
         [("error", JString "Forbidden file type");
          ("message", JString "Only WASM-related file types are allowed.")],
       w)
    else
      try_catch
        (let* hit := cache_match targetUrl in
         let* response :=
           match hit with
           | Some response => ret response
           | None =>
               let* response := upstream_fetch pf targetUrl in
               if negb (ok response) then
                 let* failure :=
                   new_Response pf (up_status response) (json_headers origin)
                     (BodyJSON (JObject
                        [("error", JString "Failed to fetch resource");
                         ("status", JNumber (up_status response));
                         ("statusText", JString (up_statusText response));
                         ("targetUrl", JString targetUrl)])) in
                 leave failure
               else
                 let contentLength := contentLength_of response in
                 if JS.gt_number contentLength MAX_FILE_SIZE_BYTES then
                   leave (json_response 413 origin
                            [("error", JString "File too large");
                             ("message",
                              JString ("File exceeds maximum size of "
                                       +:+ pretty (MAX_FILE_SIZE_BYTES / 1024 / 1024)
                                       +:+ "MB"))])
                 else
                   let response' :=
                     {| cached_from := response;
                        cached_cache_control := cache_control_value |} in
                   if up_status response =? 200 then
                     let* _ := cache_put pf request targetUrl response' in
                     ret response'
                   else ret response'
           end in
         ret (forward pf origin targetUrl normalizedPath response))
        (fun message =>
           json_response 500 origin
             [("error", JString "Proxy error"); ("message", JString message)])
        w.

(** ** The compression-preserving fetcher *)

Definition proxyLibreOfficeGz (pf : Platform) (request : Request)
  (sourceBaseUrl : option string) (subpath : string) (origin : option string)
  (w : World) : Response * World :=
  if negb (JS.truthy sourceBaseUrl) then
    (json_response 503 origin [("error", JString "Source not configured")], w)
  else
    let targetUrl := targetUrl_of sourceBaseUrl subpath in
    try_catch
      (let* response := upstream_fetch pf targetUrl in
       let* _ :=
         if negb (ok response) then
           let* failure :=
             new_Response pf (up_status response) (json_headers origin)
               (BodyJSON (JObject
                  [("error", JString "Failed to fetch");
                   ("status", JNumber (up_status response));
                   ("targetUrl", JString targetUrl)])) in
           leave failure
         else ret tt in
       let gzipBody := up_body response in
       let contentType :=
         if JS.includes subpath "soffice.wasm" then "application/wasm"
         else "application/octet-stream" in
       ret {| status := 200;
              headers :=
                <["Cache-Control" := cache_control_value]>
                (<["Content-Length" := byteLength_toString gzipBody]>
                (<["Content-Encoding" := "gzip"]>
                (<["Content-Type" := contentType]>
                (corsHeaders origin))));
              body := BodyBytes gzipBody;
              encodeBody := Some "manual" |})
      (fun message =>
         json_response 500 origin
           [("error", JString "Proxy error"); ("message", JString message)])
      w.

(** ** The rate limiter (the [if (env.RATE_LIMIT_KV)] block of [fetch]) *)

(** [`wasm-ratelimit:${clientIP}`] with
    [clientIP = request.headers.get('CF-Connecting-IP') || 'unknown'] *)
Definition rateLimitKey (request : Request) : string :=
  let clientIP :=
    JS.or_else (headers_get (req_headers request) "CF-Connecting-IP") "unknown" in
  "wasm-ratelimit:" +:+ clientIP.

(** [rateLimitData?.requests || []] for the record stored under [key] *)
Definition stored_requests (store : gmap string RateLimitRecord) (key : string)
  : list Z :=
  match store !! key with
  | Some rateLimitData => requests rateLimitData
  | None => []
  end.

(** [requests.filter((t) => now - t < RATE_LIMIT_WINDOW_MS)] *)
Definition recent (now : Z) (timestamps : list Z) : list Z :=
  filter (fun t => now - t < RATE_LIMIT_WINDOW_MS) timestamps.

(** The block returns a response (the 429) or falls through with the
    store updated. *)
Definition rateLimiter (request : Request) (origin : option string) (now : Z)
  (w : World) : option Response * World :=
  let rateLimitKey := rateLimitKey request in
  let requests := stored_requests (kv w) rateLimitKey in
  let recentRequests := recent now requests in
  if RATE_LIMIT_MAX_REQUESTS <=? Z.of_nat (length recentRequests) then
    (Some {| status := 429;
             headers := <["Retry-After" := "60"]> (json_headers origin);
             body := BodyJSON (JObject
               [("error", JString "Rate limit exceeded");
                ("message",
                 JString ("Maximum " +:+ pretty RATE_LIMIT_MAX_REQUESTS
                          +:+ " requests per minute."))]);
             encodeBody := None |},
     w)
  else
    (None,
     set_kv w (<[rateLimitKey := {| requests := recentRequests ++ [now];
                                    expirationTtl := 120 |}]> (kv w))).

(** ** The route dispatcher (the rest of [fetch] after the rate limiter) *)

Definition route (pf : Platform) (env : Env) (request : Request)
  (origin : option string) (w : World) : Response * World :=
  let pathname := pathname request in
  if JS.startsWith pathname "/libreoffice/" then
    let subpath := JS.replace pathname "/libreoffice" "" in
    if JS.endsWith subpath ".wasm" || JS.endsWith subpath ".data" then
      proxyLibreOfficeGz pf request (LIBREOFFICE_SOURCE env) (subpath +:+ ".gz") origin w
    else if JS.endsWith subpath ".gz" then
      proxyLibreOfficeGz pf request (LIBREOFFICE_SOURCE env) subpath origin w
    else
      proxyRequest pf request (LIBREOFFICE_SOURCE env) subpath origin w
  else if JS.startsWith pathname "/pymupdf/" then
    let subpath := JS.replace pathname "/pymupdf" "" in
    proxyRequest pf request (PYMUPDF_SOURCE env) subpath origin w
  else if JS.startsWith pathname "/gs/" then
    let subpath := JS.replace pathname "/gs" "" in
    proxyRequest pf request (GS_SOURCE env) subpath origin w
  else if JS.startsWith pathname "/cpdf/" then
    let subpath := JS.replace pathname "/cpdf" "" in
    proxyRequest pf request (CPDF_SOURCE env) subpath origin w
  else if String.eqb pathname "/" || String.eqb pathname "/health" then
    (json_response 200 origin
       [("service", JString "BentoPDF WASM Proxy");
        ("version", JString "2.0.0");
        ("endpoints", JObject
           [("libreoffice", JString "/libreoffice/*");
            ("pymupdf", JString "/pymupdf/*");
            ("gs", JString "/gs/*");
            ("cpdf", JString "/cpdf/*")]);
        ("configured", JObject
           [("libreoffice", JBool (JS.truthy (LIBREOFFICE_SOURCE env)));
            ("pymupdf", JBool (JS.truthy (PYMUPDF_SOURCE env)));
            ("gs", JBool (JS.truthy (GS_SOURCE env)));
            ("cpdf", JBool (JS.truthy (CPDF_SOURCE env)))])],
     w)
  else
    (json_response 404 origin
       [("error", JString "Not Found");
        ("message",
         JString "Use /libreoffice/*, /pymupdf/*, /gs/*, or /cpdf/* endpoints")],
     w).

(** ** The handler: [fetch(request, env, ctx)]

    [now] is the value [Date.now()] returns during the request. *)
Definition fetch (pf : Platform) (env : Env) (now : Z) (request : Request)
  (w : World) : Response * World :=
  let origin := headers_get (req_headers request) "Origin" in
  if String.eqb (method request) "OPTIONS" then (handleOptions request, w)
  else if negb (isAllowedOrigin origin) then
    ({| status := 403;
        headers := corsHeaders origin ∪ {["Content-Type" := "application/json"]};
        body := BodyJSON (JObject
          [("error", JString "Forbidden");
           ("message",
            JString "Origin not allowed. Add your domain to ALLOWED_ORIGINS if self-hosting.")]);
        encodeBody := None |},
     w)
  else if negb (String.eqb (method request) "GET")
          && negb (String.eqb (method request) "HEAD") then
    ({| status := 405; headers := corsHeaders origin;
        body := BodyText "Method not allowed"; encodeBody := None |},
     w)
  else if RATE_LIMIT_KV env then
    match rateLimiter request origin now w with
    | (Some limited, w') => (limited, w')
    | (None, w') => route pf env request origin w'
    end
  else route pf env request origin w.

(** A sequence of requests served one after the other, each with the
    platform behaviour and the clock value it meets; the world is threaded
    through. *)
Record Arrival := {
  arr_platform : Platform;
  arr_now : Z;
  arr_request : Request;
}.

Definition serve (env : Env) (a : Arrival) (w : World) : Response * World :=
  fetch (arr_platform a) env (arr_now a) (arr_request a) w.

Fixpoint serve_all (env : Env) (arrivals : list Arrival) (w : World) : World :=
  match arrivals with
  | [] => w
  | a :: rest => serve_all env rest (snd (serve env a w))
  end.

(** ** Observations on responses *)

(** The body is the JSON text of an object that has the field [name]. *)
Definition has_field (name : string) (b : Body) : Prop :=
  exists fields v, b = BodyJSON (JObject fields) /\ In (name, v) fields.

(** ** Words of the specification

    Prefix, suffix and substring as the specification means them,
    independent of the scanning functions above. *)
Definition has_prefix (s p : string) : Prop := exists rest, s = p +:+ rest.
Definition has_suffix (s p : string) : Prop := exists front, s = front +:+ p.
Definition contains (s p : string) : Prop :=
  exists front rest, s = front +:+ p +:+ rest.

(** ** Requests that reach the dispatcher

    The conditions under which [fetch] gets past the preflight answer, the
    origin guard, the method gate and the rate limiter. *)

Definition origin_of (request : Request) : option string :=
  headers_get (req_headers request) "Origin".

(** The rate limiter is off, or the client has requests left in the
    window. *)
Definition within_budget (env : Env) (now : Z) (request : Request) (w : World)
  : Prop :=
  RATE_LIMIT_KV env = false \/
  Z.of_nat (length (recent now (stored_requests (kv w) (rateLimitKey request))))
  < RATE_LIMIT_MAX_REQUESTS.

Definition reaches_dispatcher (env : Env) (now : Z) (request : Request)
  (w : World) : Prop :=
  (method request = "GET" \/ method request = "HEAD") /\
  isAllowedOrigin (origin_of request) = true /\
  within_budget env now request w.

(** The world the dispatcher runs in: the rate limiter, when bound, has
    recorded the request. *)
Definition counted (env : Env) (now : Z) (request : Request) (w : World) : World :=
  if RATE_LIMIT_KV env then
    set_kv w
      (<[rateLimitKey request :=
           {| requests :=
                recent now (stored_requests (kv w) (rateLimitKey request)) ++ [now];
              expirationTtl := 120 |}]> (kv w))
  else w.

(** The answer of the rate limiter to a client over its budget. *)
Definition too_many_requests (origin : option string) : Response :=
  {| status := 429;
     headers := <["Retry-After" := "60"]> (json_headers origin);
     body := BodyJSON (JObject
       [("error", JString "Rate limit exceeded");
        ("message",
         JString ("Maximum " +:+ pretty RATE_LIMIT_MAX_REQUESTS
                  +:+ " requests per minute."))]);
     encodeBody := None |}.

(** The four proxy routes: path prefix and the binding of its upstream. *)
Definition proxy_routes : list (string * (Env -> option string)) :=
  [("/libreoffice", LIBREOFFICE_SOURCE);
   ("/pymupdf", PYMUPDF_SOURCE);
   ("/gs", GS_SOURCE);
   ("/cpdf", CPDF_SOURCE)].

(** The answer of the cache-aware fetcher to a path the gate refuses. *)
Definition forbidden_file_type (origin : option string) : Response :=
  json_response 403 origin
    [("error", JString "Forbidden file type");
     ("message", JString "Only WASM-related file types are allowed.")].

(** ** Names for the answers of the two fetchers *)

Definition proxy_error (origin : option string) (message : string) : Response :=
  json_response 500 origin
    [("error", JString "Proxy error"); ("message", JString message)].

Definition file_too_large (origin : option string) : Response :=
  json_response 413 origin
    [("error", JString "File too large");
     ("message",
      JString ("File exceeds maximum size of "
               +:+ pretty (MAX_FILE_SIZE_BYTES / 1024 / 1024) +:+ "MB"))].

(** The statuses [new Response] accepts together with a body. *)
Definition mirror_accepted (s : Z) : bool :=
  (200 <=? s) && (s <=? 599) && negb (null_body_status s).

(** The answer to a failed upstream fetch: the upstream status with the
    given JSON fields, or the 500 of the [catch] when [new Response] refuses
    that status. *)
Definition mirrored (pf : Platform) (origin : option string)
  (up : UpstreamResponse) (fields : list (string * Json)) : Response :=
  if mirror_accepted (up_status up) then
    {| status := up_status up; headers := json_headers origin;
       body := BodyJSON (JObject fields); encodeBody := None |}
  else proxy_error origin (response_init_error pf (up_status up)).

Definition failure_fields (up : UpstreamResponse) (targetUrl : string)
  : list (string * Json) :=
  [("error", JString "Failed to fetch resource");
   ("status", JNumber (up_status up));
   ("statusText", JString (up_statusText up));
   ("targetUrl", JString targetUrl)].

Definition gz_failure_fields (up : UpstreamResponse) (targetUrl : string)
  : list (string * Json) :=
  [("error", JString "Failed to fetch");
   ("status", JNumber (up_status up));
   ("targetUrl", JString targetUrl)].

(** What line 190-194 makes of an upstream response. *)
Definition cacheable (up : UpstreamResponse) : CachedResponse :=
  {| cached_from := up; cached_cache_control := cache_control_value |}.

(** The 200 answer of the compression-preserving fetcher. *)
Definition gz_forward (origin : option string) (subpath : string)
  (up : UpstreamResponse) : Response :=
  {| status := 200;
     headers :=
       <["Cache-Control" := cache_control_value]>
       (<["Content-Length" := byteLength_toString (up_body up)]>
       (<["Content-Encoding" := "gzip"]>
       (<["Content-Type" :=
            if JS.includes subpath "soffice.wasm" then "application/wasm"
            else "application/octet-stream"]>
       (corsHeaders origin))));
     body := BodyBytes (up_body up);
     encodeBody := Some "manual" |}.

(** ** The ways through the two fetchers

    [ProxyPath ... url path configured admitted result]: [result] is what
    one of the nine ways through the cache-aware fetcher gives, for the
    target URL [url], the normalized path [path], a source that is
    [configured] and a path that the gate has [admitted]. *)
Inductive ProxyPath (pf : Platform) (request : Request) (origin : option string)
  (w : World) (url path : string) (configured admitted : bool)
  : Response * World -> Prop :=
| path_unconfigured :
    configured = false ->
    ProxyPath pf request origin w url path configured admitted
      (json_response 503 origin
         [("error", JString "Source not configured");
          ("message",
           JString "This WASM module source URL has not been configured.")],
       w)
| path_forbidden :
    configured = true -> admitted = false ->
    ProxyPath pf request origin w url path configured admitted
      (forbidden_file_type origin, w)
| path_hit hit :
    cache w !! url = Some hit ->
    ProxyPath pf request origin w url path configured admitted
      (forward pf origin url path hit, w)
| path_throws message :
    cache w !! url = None -> net_fetch pf url = Throws message ->
    ProxyPath pf request origin w url path configured admitted
      (proxy_error origin message, log_fetch w url)
| path_failed up :
    cache w !! url = None -> net_fetch pf url = Returns up ->
    ok up = false ->
    ProxyPath pf request origin w url path configured admitted
      (mirrored pf origin up (failure_fields up url), log_fetch w url)
| path_oversized up :
    cache w !! url = None -> net_fetch pf url = Returns up ->
    ok up = true ->
    JS.gt_number (contentLength_of up) MAX_FILE_SIZE_BYTES = true ->
    ProxyPath pf request origin w url path configured admitted
      (file_too_large origin, log_fetch w url)
| path_stored up :
    cache w !! url = None -> net_fetch pf url = Returns up ->
    ok up = true ->
    JS.gt_number (contentLength_of up) MAX_FILE_SIZE_BYTES = false ->
    up_status up = 200 ->
    cache_put_error pf request (cacheable up) = None ->
    ProxyPath pf request origin w url path configured admitted
      (forward pf origin url path (cacheable up),
       set_cache (log_fetch w url) (<[url := cacheable up]> (cache w)))
| path_put_refused up message :
    cache w !! url = None -> net_fetch pf url = Returns up ->
    ok up = true ->
    JS.gt_number (contentLength_of up) MAX_FILE_SIZE_BYTES = false ->
    up_status up = 200 ->
    cache_put_error pf request (cacheable up) = Some message ->
    ProxyPath pf request origin w url path configured admitted
      (proxy_error origin message, log_fetch w url)
| path_not_stored up :
    cache w !! url = None -> net_fetch pf url = Returns up ->
    ok up = true ->
    JS.gt_number (contentLength_of up) MAX_FILE_SIZE_BYTES = false ->
    up_status up <> 200 ->
    ProxyPath pf request origin w url path configured admitted
      (forward pf origin url path (cacheable up), log_fetch w url).

(** The four ways through the compression-preserving fetcher. *)
Inductive GzPath (pf : Platform) (origin : option string) (w : World)
  (url subpath : string) (configured : bool) : Response * World -> Prop :=
| gz_unconfigured :
    configured = false ->
    GzPath pf origin w url subpath configured
      (json_response 503 origin [("error", JString "Source not configured")], w)
| gz_throws message :
    configured = true -> net_fetch pf url = Throws message ->
    GzPath pf origin w url subpath configured
      (proxy_error origin message, log_fetch w url)
| gz_failed up :
    configured = true -> net_fetch pf url = Returns up -> ok up = false ->
    GzPath pf origin w url subpath configured
      (mirrored pf origin up (gz_failure_fields up url), log_fetch w url)
| gz_ok up :
    configured = true -> net_fetch pf url = Returns up -> ok up = true ->
    GzPath pf origin w url subpath configured
      (gz_forward origin subpath up, log_fetch w url).

(** ** Concrete platforms, environments and worlds used in examples *)

(** An upstream that answers every fetch with [up]; the cache accepts
    every entry. *)
Definition upstream_always (up : UpstreamResponse) : Platform :=
  {| net_fetch := fun _ => Returns up;
     url_hostname := fun _ => "cdn.example.com";
     cache_put_error := fun _ _ => None;
     response_init_error := fun _ => "invalid status" |}.

Definition plain_ok (content_length : option string) (bytes : list byte)
  : UpstreamResponse :=
  {| up_status := 200; up_statusText := "OK";
     up_content_length := content_length; up_body := bytes |}.

Definition env_configured (rate_limited : bool) : Env :=
  {| RATE_LIMIT_KV := rate_limited;
     LIBREOFFICE_SOURCE := Some "https://cdn.example.com/libreoffice/";
     PYMUPDF_SOURCE := Some "https://cdn.example.com/pymupdf";
     GS_SOURCE := Some "https://cdn.example.com/gs";
     CPDF_SOURCE := Some "https://cdn.example.com/cpdf" |}.

Definition env_unconfigured : Env :=
  {| RATE_LIMIT_KV := false;
     LIBREOFFICE_SOURCE := None; PYMUPDF_SOURCE := None;
     GS_SOURCE := None; CPDF_SOURCE := None |}.

Definition fresh_world : World := {| kv := ∅; cache := ∅; fetched := [] |}.

Definition get_request (path : string) (hdrs : gmap string string) : Request :=
  {| method := "GET"; pathname := path; req_headers := hdrs |}.

(** ** The allow-list as the specification words it *)

(** [stripped] is [allowed] without its trailing slash, if it has one. *)
Definition strips_to (allowed stripped : string) : Prop :=
  allowed = stripped +:+ "/" \/ (~ has_suffix allowed "/" /\ stripped = allowed).

(** Prefix match against an allow-listed origin after stripping its
    trailing slash. *)
Definition admitted_by_allow_list (o : string) : Prop :=
  exists allowed stripped,
    In allowed ALLOWED_ORIGINS /\ strips_to allowed stripped /\ has_prefix o stripped.

(** The path goes to the compression-preserving fetcher: it is under
    [/libreoffice/] and its subpath ends in [.wasm], [.data] or [.gz]. *)
Definition gz_route (request : Request) : Prop :=
  exists rest,
    pathname request = "/libreoffice/" +:+ rest /\
    (has_suffix ("/" +:+ rest) ".wasm" \/ has_suffix ("/" +:+ rest) ".data"
     \/ has_suffix ("/" +:+ rest) ".gz").

(** ** Requests used in examples *)

Definition foreign_origin : string := "https://evil.example".

Definition options_from_foreign_origin : Request :=
  {| method := "OPTIONS"; pathname := "/libreoffice/soffice.wasm";
     req_headers := {["origin" := foreign_origin]} |}.

Definition get_from_foreign_origin : Request :=
  get_request "/libreoffice/soffice.wasm" {["origin" := foreign_origin]}.

Definition post_health : Request :=
  {| method := "POST"; pathname := "/health"; req_headers := ∅ |}.

(** ** The declared payload size

    A [Content-Length] header declares [n] when its value is a non-empty
    string of decimal digits that reads [n]. *)
Fixpoint digits_value (s : string) (acc : Z) : option Z :=
  match s with
  | EmptyString => Some acc
  | String a s' =>
      match JS.digit_value a with
      | Some d => digits_value s' (10 * acc + d)
      | None => None
      end
  end.

Definition declares_length (up : UpstreamResponse) (n : Z) : Prop :=
  exists s, up_content_length up = Some s /\ s <> "" /\ digits_value s 0 = Some n.

(** Upstream answers used in examples. *)
Definition oversized_not_found : UpstreamResponse :=
  {| up_status := 404; up_statusText := "Not Found";
     up_content_length := Some "200000000"; up_body := [] |}.

Definition oversized_ok : UpstreamResponse :=
  {| up_status := 200; up_statusText := "OK";
     up_content_length := Some "200000000"; up_body := [] |}.

Definition partial_content : UpstreamResponse :=
  {| up_status := 206; up_statusText := "Partial Content";
     up_content_length := Some "2"; up_body := [x00; x61] |}.

(** ** Clients without an address *)

Definition unknown_key : string := "wasm-ratelimit:unknown".

(** The request carries no [CF-Connecting-IP] header. *)
Definition anonymous (request : Request) : Prop :=
  headers_get (req_headers request) "CF-Connecting-IP" = None.

(** The request gets past the preflight answer, the origin guard and the
    method gate. *)
Definition passes_guards (request : Request) : Prop :=
  (method request = "GET" \/ method request = "HEAD") /\
  isAllowedOrigin (origin_of request) = true.

(** A store in which the address-less clients have used their budget at
    time 1000. *)
Definition busy_record : RateLimitRecord :=
  {| requests := replicate 100 1000; expirationTtl := 120 |}.

Definition busy_world : World :=
  {| kv := {[unknown_key := busy_record]}; cache := ∅; fetched := [] |}.

(** A hundred address-less requests in one second, from varying origins
    and for varying paths. *)
Definition burst : list Arrival :=
  map (fun i : nat =>
         {| arr_platform := upstream_always (plain_ok None []);
            arr_now := 1000 + Z.of_nat i;
            arr_request :=
              get_request (if Nat.even i then "/health" else "/gs/gs.js")
                (if Nat.even i then ∅ else {["origin" := "https://bentopdf.com"]}) |})
      (seq 0 100).

Definition after_burst : Arrival :=
  {| arr_platform := upstream_always (plain_ok None []);
     arr_now := 30000;
     arr_request := get_request "/pymupdf/pymupdf.js" ∅ |}.

(** ** The original name of a compressed artifact

    The subpath handed to the compression-preserving fetcher is the
    original file name followed by [.gz]; the original indicates the
    binary-module format when it ends in [.wasm]. *)
Definition original_is_wasm (subpath : string) : Prop :=
  exists name, subpath = name +:+ ".gz" /\ has_suffix name ".wasm".

(** ** Vocabulary for properties of the whole handler *)

(** The statuses the worker writes itself. *)
Definition own_statuses : list Z := [200; 204; 403; 404; 405; 413; 429; 500; 503].

(** The values of the content-type table and its default. *)
Definition mime_types : list string :=
  ["application/javascript"; "application/wasm"; "application/json";
   "application/octet-stream"; "text/x-python"; "application/zip"; "text/html"].

(** The text both [isAllowedFile] and [getContentType] look up:
    [pathname.substring(pathname.lastIndexOf('.')).toLowerCase()]. *)
Definition extension_text (pathname : string) : string :=
  JS.toLowerCase (JS.substring pathname (JS.lastIndexOf pathname ".")).

(** The request with another path. *)
Definition with_pathname (request : Request) (path : string) : Request :=
  {| method := method request; pathname := path;
     req_headers := req_headers request |}.

(** No record of the store holds more timestamps than the budget. *)
Definition bounded_store (store : gmap string RateLimitRecord) : Prop :=
  forall key record,
    store !! key = Some record ->
    Z.of_nat (length (requests record)) <= RATE_LIMIT_MAX_REQUESTS.

(** The body of the health answer. *)
Definition health_fields (env : Env) : list (string * Json) :=
  [("service", JString "BentoPDF WASM Proxy");
   ("version", JString "2.0.0");
   ("endpoints", JObject
      [("libreoffice", JString "/libreoffice/*");
       ("pymupdf", JString "/pymupdf/*");
       ("gs", JString "/gs/*");
       ("cpdf", JString "/cpdf/*")]);
   ("configured", JObject
      [("libreoffice", JBool (JS.truthy (LIBREOFFICE_SOURCE env)));
       ("pymupdf", JBool (JS.truthy (PYMUPDF_SOURCE env)));
       ("gs", JBool (JS.truthy (GS_SOURCE env)));
       ("cpdf", JBool (JS.truthy (CPDF_SOURCE env)))])].

(** A request of a client with a known address. *)
Definition request_from (ip path : string) : Request :=
  get_request path {["cf-connecting-ip" := ip]}.

(** An upstream that cannot be reached. *)
Definition upstream_down (message : string) : Platform :=
  {| net_fetch := fun _ => Throws message;
     url_hostname := fun _ => "cdn.example.com";
     cache_put_error := fun _ _ => None;
     response_init_error := fun _ => "invalid status" |}.


(** The headers agree with the body: a JSON body is labelled
    [application/json]; a payload has a type from the table and a
    [Content-Length] that is its byte length. *)
Definition labelled (r : Response) : Prop :=
  match body r with
  | BodyJSON _ => headers r !! "Content-Type" = Some "application/json"
  | BodyBytes bytes =>
      (exists t, headers r !! "Content-Type" = Some t /\ In t mime_types) /\
      headers r !! "Content-Length" = Some (byteLength_toString bytes)
  | BodyText _ | BodyNull => True
  end.



(** [url] is where the dispatcher may send the request: the configured base
    of the route the path falls under, followed by the rest of the path, with
    [.gz] appended for the [.wasm] and [.data] files of the LibreOffice
    route. *)
Definition upstream_target (env : Env) (request : Request) (url : string) : Prop :=
  exists prefix source base rest,
    In (prefix, source) proxy_routes /\
    source env = Some base /\ base <> "" /\
    pathname request = prefix +:+ "/" +:+ rest /\
    (url = normalizeBase base +:+ "/" +:+ rest \/
     (prefix = "/libreoffice" /\
      (has_suffix (pathname request) ".wasm" \/ has_suffix (pathname request) ".data") /\
      url = normalizeBase base +:+ "/" +:+ rest +:+ ".gz")).



(** The entries of [ALLOWED_EXTENSIONS] with a single dot. *)
Definition effective_extensions : list string :=
  [".js"; ".mjs"; ".wasm"; ".data"; ".py"; ".so"; ".zip"; ".json"; ".mem";
   ".html"; ".gz"].



(** ** Dispatched requests of one client

    [dispatches] is [reaches_dispatcher] as a test; [dispatched_at] lists
    the times at which requests counted under [key] were dispatched while
    the arrivals were served one after the other. *)
Definition dispatches (env : Env) (now : Z) (request : Request) (w : World) : bool :=
  (String.eqb (method request) "GET" || String.eqb (method request) "HEAD")
  && isAllowedOrigin (origin_of request)
  && (negb (RATE_LIMIT_KV env)
      || (Z.of_nat (length (recent now (stored_requests (kv w) (rateLimitKey request))))
          <? RATE_LIMIT_MAX_REQUESTS)).

Fixpoint dispatched_at (env : Env) (key : string) (arrivals : list Arrival)
  (w : World) : list Z :=
  match arrivals with
  | [] => []
  | a :: rest =>
      (if dispatches env (arr_now a) (arr_request a) w
          && String.eqb (rateLimitKey (arr_request a)) key
       then [arr_now a] else [])
      ++ dispatched_at env key rest (snd (serve env a w))
  end.

(** The clock does not run backwards: the arrival times are nondecreasing,
    from [t] on. *)
Fixpoint clock_from (t : Z) (arrivals : list Arrival) : bool :=
  match arrivals with
  | [] => true
  | a :: rest => (t <=? arr_now a) && clock_from (arr_now a) rest
  end.

(** The timestamps of [times] within the window that ends at [T]. *)
Definition in_window (T : Z) (times : list Z) : list Z :=
  filter (fun t => T - RATE_LIMIT_WINDOW_MS < t /\ t <= T) times.



(** ** The client a request is counted under

    [ip] is the address the rate limiter counts the request under: the
    value of its [CF-Connecting-IP] header, or [unknown] when the header is
    absent or empty. *)
Definition client_address (request : Request) (ip : string) : Prop :=
  (headers_get (req_headers request) "CF-Connecting-IP" = Some ip /\ ip <> "")
  \/ ((headers_get (req_headers request) "CF-Connecting-IP" = None \/
       headers_get (req_headers request) "CF-Connecting-IP" = Some "")
      /\ ip = "unknown").

(** A store in which the client at 203.0.113.7 has used its budget at time
    1000, and no other client has a record. *)
Definition busy_client_world : World :=
  {| kv := {["wasm-ratelimit:203.0.113.7" := busy_record]};
     cache := ∅; fetched := [] |}.



(** A [GET] that asks for the whole resource unconditionally: it carries
    no [Range] and no conditional header. *)
Definition plain_get (request : Request) : Prop :=
  method request = "GET" /\
  forall name,
    In name ["Range"; "If-Range"; "If-Match"; "If-None-Match";
             "If-Modified-Since"; "If-Unmodified-Since"] ->
    headers_get (req_headers request) name = None.



(** ** Requests the rate limiter lets through *)

(** The answer is the refusal of the rate limiter: status 429 with
    [Retry-After: 60]. *)
Definition rate_limited (r : Response) : bool :=
  (status r =? 429) && bool_decide (headers r !! "Retry-After" = Some "60").

#[global] Instance client_address_dec request ip : Decision (client_address request ip).
Proof. unfold client_address. apply _. Defined.

#[global] Instance passes_guards_dec request : Decision (passes_guards request).
Proof. unfold passes_guards. apply _. Defined.

(** The times of the requests of the client at [ip] that got to the rate
    limiter (a [GET] or [HEAD] from an admitted origin) and that the handler
    did not answer with the refusal, while the arrivals were served one after
    the other. *)
Fixpoint let_through (env : Env) (ip : string) (arrivals : list Arrival)
  (w : World) : list Z :=
  match arrivals with
  | [] => []
  | a :: rest =>
      (if bool_decide (client_address (arr_request a) ip)
          && bool_decide (passes_guards (arr_request a))
          && negb (rate_limited (fst (serve env a w)))
       then [arr_now a] else [])
      ++ let_through env ip rest (snd (serve env a w))
  end.


(** * The embedding on concrete inputs *)

Example gate_examples :
  isAllowedFile "/program/soffice.js" = true /\
  isAllowedFile "/soffice.data.gz" = true /\
  isAllowedFile "/manifest" = true /\
  isAllowedFile "/release.v2/" = true /\
  isAllowedFile "/tool.EXE" = false /\
  isAllowedFile "/notes.txt" = false.
Proof. repeat split. Qed.

Example origin_examples :
  isAllowedOrigin None = true /\
  isAllowedOrigin (Some "https://bentopdf.com") = true /\
  isAllowedOrigin (Some "https://bentopdf.com/") = true /\
  isAllowedOrigin (Some "https://bentopdf.com.example.net") = true /\
  isAllowedOrigin (Some "http://bentopdf.com") = false /\
  isAllowedOrigin (Some "null") = false.
Proof. repeat split. Qed.

Example parseInt_examples :
  JS.parseInt "0" = Some 0 /\
  JS.parseInt "104857601" = Some 104857601 /\
  JS.parseInt " +42abc" = Some 42 /\
  JS.parseInt "-17" = Some (-17) /\
  JS.parseInt "1e9" = Some 1 /\
  JS.parseInt "abc" = None /\
  JS.parseInt "" = None.
Proof. repeat split. Qed.

Example content_type_examples :
  getContentType "/pymupdf.js" = "application/javascript" /\
  getContentType "/gs.wasm" = "application/wasm" /\
  getContentType "/archive.zip" = "application/zip" /\
  getContentType "/soffice.data.gz" = "application/octet-stream" /\
  getContentType "/manifest" = "application/octet-stream".
Proof. repeat split. Qed.

(** A first request for [/gs/gs.js]: one upstream fetch, the answer is
    cached under the target URL and counted by the rate limiter. *)
Example first_request :
  let r := fetch (upstream_always (plain_ok (Some "2") [x61; x62]))
             (env_configured true) 5000 (get_request "/gs/gs.js" ∅) fresh_world in
  status (fst r) = 200 /\
  body (fst r) = BodyBytes [x61; x62] /\
  headers (fst r) !! "Content-Type" = Some "application/javascript" /\
  headers (fst r) !! "Content-Length" = Some "2" /\
  headers (fst r) !! "Cache-Control" = Some "public, max-age=604800" /\
  headers (fst r) !! "Access-Control-Allow-Origin" = Some "*" /\
  fetched (snd r) = ["https://cdn.example.com/gs/gs.js"] /\
  cache (snd r) !! "https://cdn.example.com/gs/gs.js"
  = Some (cacheable (plain_ok (Some "2") [x61; x62])) /\
  kv (snd r) !! "wasm-ratelimit:unknown"
  = Some {| requests := [5000]; expirationTtl := 120 |}.
Proof. vm_compute. repeat split. Qed.

(** The same request again is served from the cache: no second fetch. *)
Example second_request :
  let pf := upstream_always (plain_ok (Some "2") [x61; x62]) in
  let w1 := snd (fetch pf (env_configured false) 5000 (get_request "/gs/gs.js" ∅)
                   fresh_world) in
  let r := fetch pf (env_configured false) 6000 (get_request "/gs/gs.js" ∅) w1 in
  status (fst r) = 200 /\
  fetched (snd r) = ["https://cdn.example.com/gs/gs.js"].
Proof. vm_compute. repeat split. Qed.

(** * Facts about the string primitives *)

Section StringFacts.

Lemma str_app_nil (s : string) : "" +:+ s = s.
Proof. reflexivity. Qed.

Lemma str_app_cons (a : ascii) (s t : string) :
  String a s +:+ t = String a (s +:+ t).
Proof. reflexivity. Qed.

Lemma str_app_assoc (a b c : string) : (a +:+ b) +:+ c = a +:+ (b +:+ c).
Proof.
  induction a as [|x a IH]; [reflexivity|]. now rewrite !str_app_cons, IH.
Qed.

Lemma str_length_app (a b : string) :
  String.length (a +:+ b) = (String.length a + String.length b)%nat.
Proof.
  induction a as [|x a IH]; [reflexivity|].
  rewrite str_app_cons. simpl. now rewrite IH.
Qed.

Lemma str_drop_app (a b : string) : JS.drop (String.length a) (a +:+ b) = b.
Proof.
  induction a as [|x a IH]; [now destruct b|].
  rewrite str_app_cons. exact IH.
Qed.

Lemma str_app_inv_tail (a b c : string) : a +:+ c = b +:+ c -> a = b.
Proof.
  revert b. induction a as [|x a IH]; intros [|y b] H.
  - reflexivity.
  - apply (f_equal String.length) in H.
    rewrite str_app_nil, str_app_cons in H. cbn [String.length] in H.
    rewrite str_length_app in H. lia.
  - apply (f_equal String.length) in H.
    rewrite str_app_nil, str_app_cons in H. cbn [String.length] in H.
    rewrite str_length_app in H. lia.
  - rewrite !str_app_cons in H. injection H as -> H. f_equal. now apply IH.
Qed.

Lemma startsWith_spec (s p : string) :
  JS.startsWith s p = true <-> has_prefix s p.
Proof.
  unfold JS.startsWith, has_prefix. revert s.
  induction p as [|a p IH]; intros s.
  - split; [intros _; now exists s | intros _; now destruct s].
  - destruct s as [|b s]; simpl.
    + split; [discriminate | intros [rest H]; discriminate].
    + destruct (ascii_dec a b) as [->|Hne].
      * rewrite IH. split; intros [rest H]; exists rest.
        -- now rewrite str_app_cons, H.
        -- rewrite str_app_cons in H. now injection H.
      * split; [discriminate|].
        intros [rest H]. rewrite str_app_cons in H. injection H. congruence.
Qed.

Lemma endsWith_intro (front p : string) : JS.endsWith (front +:+ p) p = true.
Proof.
  induction front as [|a front IH].
  - rewrite str_app_nil. destruct p; simpl; rewrite ?String.eqb_refl, ?Ascii.eqb_refl; reflexivity.
  - rewrite str_app_cons. simpl. rewrite IH. apply orb_true_r.
Qed.

Lemma endsWith_spec (s p : string) :
  JS.endsWith s p = true <-> has_suffix s p.
Proof.
  split.
  - induction s as [|a s IH]; cbn [JS.endsWith].
    + rewrite orb_false_r. intros H%String.eqb_eq. now exists "".
    + intros [H%String.eqb_eq | H]%orb_true_iff.
      * now exists "".
      * destruct (IH H) as [front ->]. now exists (String a front).
  - intros [front ->]. apply endsWith_intro.
Qed.

Lemma includes_intro (front p rest : string) :
  JS.includes (front +:+ p +:+ rest) p = true.
Proof.
  induction front as [|a front IH].
  - rewrite str_app_nil.
    assert (H : String.prefix p (p +:+ rest) = true)
      by (apply (startsWith_spec (p +:+ rest) p); now exists rest).
    destruct (p +:+ rest); cbn [JS.includes]; rewrite H; reflexivity.
  - rewrite str_app_cons. cbn [JS.includes]. rewrite IH. apply orb_true_r.
Qed.

Lemma includes_spec (s p : string) :
  JS.includes s p = true <-> contains s p.
Proof.
  split.
  - induction s as [|a s IH]; cbn [JS.includes].
    + rewrite orb_false_r. intros H.
      apply (startsWith_spec "" p) in H. destruct H as [rest H].
      now exists "", rest.
    + intros [H | H]%orb_true_iff.
      * apply (startsWith_spec (String a s) p) in H. destruct H as [rest H].
        now exists "", rest.
      * destruct (IH H) as (front & rest & ->). now exists (String a front), rest.
  - intros (front & rest & ->). apply includes_intro.
Qed.

(** Two suffixes of one string: the shorter is a suffix of the longer. *)
Lemma suffix_of_suffix (a b c d : string) :
  a +:+ b = c +:+ d -> (String.length b <= String.length d)%nat ->
  has_suffix d b.
Proof.
  revert a. induction c as [|x c IH]; intros a H Hlen.
  - exists a. now symmetry.
  - destruct a as [|y a].
    + rewrite str_app_nil in H. subst b.
      rewrite str_app_cons in Hlen. simpl in Hlen. rewrite str_length_app in Hlen. lia.
    + rewrite !str_app_cons in H. injection H as _ H. exact (IH a H Hlen).
Qed.

Lemma endsWith_two (s p q : string) :
  has_suffix s p -> JS.endsWith p q = false ->
  (String.length q <= String.length p)%nat -> JS.endsWith s q = false.
Proof.
  intros [a ->] Hpq Hlen.
  destruct (JS.endsWith (a +:+ p) q) eqn:E; [|reflexivity].
  apply endsWith_spec in E. destruct E as [c E]. symmetry in E.
  apply suffix_of_suffix in E; [|exact Hlen].
  apply endsWith_spec in E. congruence.
Qed.

Lemma endsWith_longer (s p q : string) :
  has_suffix s p -> JS.endsWith q p = false ->
  (String.length p <= String.length q)%nat -> JS.endsWith s q = false.
Proof.
  intros [a ->] Hqp Hlen.
  destruct (JS.endsWith (a +:+ p) q) eqn:E; [|reflexivity].
  apply endsWith_spec in E. destruct E as [c E].
  apply suffix_of_suffix in E; [|exact Hlen].
  apply endsWith_spec in E. congruence.
Qed.

Lemma replace_at_head (s pat rep : string) :
  String.prefix pat s = true ->
  JS.replace s pat rep = rep +:+ JS.drop (String.length pat) s.
Proof. intros H. destruct s; cbn [JS.replace]; now rewrite H. Qed.

Lemma replace_prefix (p rest : string) :
  JS.replace (p +:+ rest) p "" = rest.
Proof.
  rewrite replace_at_head.
  - rewrite str_app_nil. apply str_drop_app.
  - apply (startsWith_spec (p +:+ rest) p). now exists rest.
Qed.

End StringFacts.

(** * Fields of JSON bodies *)

Lemma has_field_here (name : string) (v : Json) (fields : list (string * Json)) :
  In (name, v) fields -> has_field name (BodyJSON (JObject fields)).
Proof. intros H. now exists fields, v. Qed.

Ltac field_present :=
  lazymatch goal with
  | |- has_field _ _ =>
      solve [eapply has_field_here; cbn [In];
             repeat first [left; reflexivity | right]]
  end.

Ltac field_absent :=
  let fields := fresh "fields" in
  let v := fresh "v" in
  let Heq := fresh "Heq" in
  let Hin := fresh "Hin" in
  intros (fields & v & Heq & Hin);
  first [ discriminate Heq
        | injection Heq as <-; cbn [In] in Hin;
          repeat (destruct Hin as [Hin | Hin]; [discriminate Hin|]);
          exact Hin ].

(** * The file-type gate *)

Section FileGate.

Lemma includes_dot_cons (a : ascii) (s : string) :
  JS.includes (String a s) "." = Ascii.eqb a "." || JS.includes s ".".
Proof.
  cbn [JS.includes String.prefix].
  destruct (ascii_dec "." a) as [<-|Hne].
  - now destruct s.
  - assert (Ascii.eqb a "." = false) as -> by (apply Ascii.eqb_neq; congruence).
    reflexivity.
Qed.

Lemma lastIndexOf_from_absent (e : string) (i found : Z) :
  JS.includes e "." = false -> JS.lastIndexOf_from e "." i found = found.
Proof.
  revert i found. induction e as [|a e IH]; intros i found H; [reflexivity|].
  rewrite includes_dot_cons in H. apply orb_false_iff in H as [Ha He].
  cbn [JS.lastIndexOf_from]. rewrite Ha. now apply IH.
Qed.

Lemma lastIndexOf_from_last (front e : string) (i found : Z) :
  JS.includes e "." = false ->
  JS.lastIndexOf_from (front +:+ "." +:+ e) "." i found
  = i + Z.of_nat (String.length front).
Proof.
  intros He. revert i found.
  induction front as [|a front IH]; intros i found.
  - rewrite str_app_nil, str_app_cons, str_app_nil. cbn [JS.lastIndexOf_from].
    rewrite Ascii.eqb_refl, lastIndexOf_from_absent by exact He.
    simpl. lia.
  - rewrite str_app_cons. cbn [JS.lastIndexOf_from]. rewrite IH.
    cbn [String.length]. lia.
Qed.

(** The text the gate and the content-type table look up: from the last
    dot to the end. *)
Lemma extension_from_last_dot (front e : string) :
  JS.includes e "." = false ->
  JS.substring (front +:+ "." +:+ e) (JS.lastIndexOf (front +:+ "." +:+ e) ".")
  = "." +:+ e.
Proof.
  intros H. unfold JS.lastIndexOf, JS.substring.
  rewrite lastIndexOf_from_last by exact H.
  replace (Z.to_nat (Z.max 0 (0 + Z.of_nat (String.length front))))
    with (String.length front) by lia.
  apply str_drop_app.
Qed.

Lemma last_dot_split (p : string) :
  JS.includes p "." = true ->
  exists front e, p = front +:+ "." +:+ e /\ JS.includes e "." = false.
Proof.
  induction p as [|a p IH]; [discriminate|].
  rewrite includes_dot_cons. intros H.
  destruct (JS.includes p ".") eqn:Hp.
  - destruct IH as (front & e & -> & He); [reflexivity|].
    now exists (String a front), e.
  - rewrite orb_false_r in H. apply Ascii.eqb_eq in H as ->.
    now exists "", p.
Qed.

Lemma not_contains_iff (s p : string) :
  JS.includes s p = false <-> ~ contains s p.
Proof.
  rewrite <- includes_spec. destruct (JS.includes s p); split; intros H; congruence.
Qed.

Lemma list_includes_spec (l : list string) (x : string) :
  list_includes l x = true <-> In x l.
Proof.
  unfold list_includes. rewrite existsb_exists. split.
  - intros (y & Hy & ->%String.eqb_eq). exact Hy.
  - intros H. exists x. split; [exact H | apply String.eqb_refl].
Qed.

Lemma toLowerCase_dot (e : string) :
  JS.toLowerCase ("." +:+ e) = "." +:+ JS.toLowerCase e.
Proof. reflexivity. Qed.

(** The decision of the gate in the words of the specification. *)
Lemma isAllowedFile_spec (p : string) :
  isAllowedFile p = true <->
  (exists front e, p = front +:+ "." +:+ e /\ ~ contains e "." /\
                   In ("." +:+ JS.toLowerCase e) ALLOWED_EXTENSIONS)
  \/ ~ contains p "." \/ has_suffix p "/".
Proof.
  unfold isAllowedFile.
  destruct (JS.includes p ".") eqn:Hdot.
  - destruct (last_dot_split p Hdot) as (front & e & -> & He).
    rewrite extension_from_last_dot, toLowerCase_dot by exact He.
    destruct (list_includes ALLOWED_EXTENSIONS ("." +:+ JS.toLowerCase e)) eqn:Hext.
    + split; [intros _ | reflexivity]. left. exists front, e.
      rewrite <- not_contains_iff, <- list_includes_spec. auto.
    + cbn [negb orb].
      destruct (JS.endsWith (front +:+ "." +:+ e) "/") eqn:Hslash.
      * split; [intros _ | reflexivity]. right. right. now apply endsWith_spec.
      * split; [discriminate|].
        intros [(front' & e' & Hsplit & He' & Hin) | [Hno | Hsuf]].
        -- apply not_contains_iff in He'.
           assert (Hsame : "." +:+ e' = "." +:+ e).
           { rewrite <- (extension_from_last_dot front' e' He'), <- Hsplit.
             now apply extension_from_last_dot. }
           rewrite !str_app_cons, !str_app_nil in Hsame. injection Hsame as ->.
           apply list_includes_spec in Hin. congruence.
        -- apply not_contains_iff in Hno. congruence.
        -- apply endsWith_spec in Hsuf. congruence.
  - assert ((if list_includes ALLOWED_EXTENSIONS
                  (JS.toLowerCase (JS.substring p (JS.lastIndexOf p ".")))
             then true else if negb false || JS.endsWith p "/" then true else false)
            = true) as -> by (now destruct (list_includes _ _)).
    split; [intros _ | reflexivity]. right. left. now apply not_contains_iff.
Qed.

End FileGate.

(** * Getting to the dispatcher *)

Section Guards.

Lemma method_get_or_head (request : Request) :
  method request = "GET" \/ method request = "HEAD" ->
  String.eqb (method request) "OPTIONS" = false /\
  negb (String.eqb (method request) "GET")
    && negb (String.eqb (method request) "HEAD") = false.
Proof. intros [-> | ->]; split; reflexivity. Qed.

(** A request that passes the guards and the rate limiter is handled by
    the dispatcher, in the world where the rate limiter has counted it. *)
Lemma fetch_reaches_dispatcher pf env now request w :
  reaches_dispatcher env now request w ->
  fetch pf env now request w
  = route pf env request (origin_of request) (counted env now request w).
Proof.
  intros (Hm & Ho & Hb). unfold fetch, counted. fold (origin_of request).
  destruct (method_get_or_head request Hm) as [-> ->]. rewrite Ho. cbn [negb].
  destruct (RATE_LIMIT_KV env) eqn:Hkv; [|reflexivity].
  destruct Hb as [Hb | Hb]; [congruence|].
  unfold rateLimiter.
  destruct (Z.leb_spec RATE_LIMIT_MAX_REQUESTS
    (Z.of_nat (length (recent now (stored_requests (kv w) (rateLimitKey request))))));
    [lia | reflexivity].
Qed.

(** A request that passes the guards while its client is over budget is
    answered 429, and nothing else happens. *)
Lemma fetch_over_budget pf env now request w :
  RATE_LIMIT_KV env = true ->
  method request = "GET" \/ method request = "HEAD" ->
  isAllowedOrigin (origin_of request) = true ->
  RATE_LIMIT_MAX_REQUESTS
  <= Z.of_nat (length (recent now (stored_requests (kv w) (rateLimitKey request)))) ->
  fetch pf env now request w = (too_many_requests (origin_of request), w).
Proof.
  intros Hkv Hm Ho Hfull. unfold fetch. fold (origin_of request).
  destruct (method_get_or_head request Hm) as [-> ->].
  rewrite Ho, Hkv. cbn [negb]. unfold rateLimiter.
  destruct (Z.leb_spec RATE_LIMIT_MAX_REQUESTS
    (Z.of_nat (length (recent now (stored_requests (kv w) (rateLimitKey request))))));
    [reflexivity | lia].
Qed.

Lemma counted_fetched env now request w :
  fetched (counted env now request w) = fetched w.
Proof. unfold counted. now destruct (RATE_LIMIT_KV env). Qed.

Lemma counted_cache env now request w :
  cache (counted env now request w) = cache w.
Proof. unfold counted. now destruct (RATE_LIMIT_KV env). Qed.

End Guards.

(** * The dispatcher, route by route *)

Section Routes.

Context (pf : Platform) (env : Env) (request : Request)
        (origin : option string) (w : World) (rest : string).

Lemma route_libreoffice :
  pathname request = "/libreoffice" +:+ "/" +:+ rest ->
  route pf env request origin w
  = if JS.endsWith ("/" +:+ rest) ".wasm" || JS.endsWith ("/" +:+ rest) ".data"
    then proxyLibreOfficeGz pf request (LIBREOFFICE_SOURCE env)
           (("/" +:+ rest) +:+ ".gz") origin w
    else if JS.endsWith ("/" +:+ rest) ".gz"
    then proxyLibreOfficeGz pf request (LIBREOFFICE_SOURCE env)
           ("/" +:+ rest) origin w
    else proxyRequest pf request (LIBREOFFICE_SOURCE env)
           ("/" +:+ rest) origin w.
Proof.
  intros H. unfold route. rewrite H, replace_prefix.
  now replace (JS.startsWith _ "/libreoffice/") with true
    by (symmetry; apply startsWith_spec; now exists rest).
Qed.

Lemma route_pymupdf :
  pathname request = "/pymupdf" +:+ "/" +:+ rest ->
  route pf env request origin w
  = proxyRequest pf request (PYMUPDF_SOURCE env) ("/" +:+ rest) origin w.
Proof.
  intros H. unfold route. rewrite H, replace_prefix.
  replace (JS.startsWith _ "/libreoffice/") with false by reflexivity.
  now replace (JS.startsWith _ "/pymupdf/") with true
    by (symmetry; apply startsWith_spec; now exists rest).
Qed.

Lemma route_gs :
  pathname request = "/gs" +:+ "/" +:+ rest ->
  route pf env request origin w
  = proxyRequest pf request (GS_SOURCE env) ("/" +:+ rest) origin w.
Proof.
  intros H. unfold route. rewrite H, replace_prefix.
  replace (JS.startsWith _ "/libreoffice/") with false by reflexivity.
  replace (JS.startsWith _ "/pymupdf/") with false by reflexivity.
  now replace (JS.startsWith _ "/gs/") with true
    by (symmetry; apply startsWith_spec; now exists rest).
Qed.

Lemma route_cpdf :
  pathname request = "/cpdf" +:+ "/" +:+ rest ->
  route pf env request origin w
  = proxyRequest pf request (CPDF_SOURCE env) ("/" +:+ rest) origin w.
Proof.
  intros H. unfold route. rewrite H, replace_prefix.
  replace (JS.startsWith _ "/libreoffice/") with false by reflexivity.
  replace (JS.startsWith _ "/pymupdf/") with false by reflexivity.
  replace (JS.startsWith _ "/gs/") with false by reflexivity.
  now replace (JS.startsWith _ "/cpdf/") with true
    by (symmetry; apply startsWith_spec; now exists rest).
Qed.

End Routes.

(** * Claim C7: the file-type gate *)

Section ForbiddenFiles.

(** The fetcher hands the gate the path with its leading slash; that
    slash does not change the decision. *)
Lemma isAllowedFile_normalizePath (subpath : string) :
  isAllowedFile (normalizePath subpath) = isAllowedFile subpath.
Proof.
  unfold normalizePath.
  destruct (JS.startsWith subpath "/") eqn:Hslash; [reflexivity|].
  apply eq_true_iff_eq. rewrite !isAllowedFile_spec.
  split.
  - intros [(front & e & Hsplit & He & Hin) | [Hno | [front Hsuf]]].
    + destruct front as [|a front]; [now rewrite !str_app_cons in Hsplit|].
      rewrite !str_app_cons, !str_app_nil in Hsplit. injection Hsplit as <- ->.
      left. exists front, e. now rewrite !str_app_cons, !str_app_nil.
    + right. left. intros (front & rest & ->).
      apply Hno. exists ("/" +:+ front), rest. now rewrite !str_app_cons.
    + destruct front as [|a front].
      * rewrite !str_app_cons, !str_app_nil in Hsuf. injection Hsuf as ->.
        right. left. intros (front & rest & H).
        destruct front; now rewrite ?str_app_cons in H.
      * rewrite !str_app_cons, !str_app_nil in Hsuf. injection Hsuf as <- ->.
        right. right. now exists front.
  - intros [(front & e & -> & He & Hin) | [Hno | [front ->]]].
    + left. exists ("/" +:+ front), e. now rewrite !str_app_cons, !str_app_nil.
    + right. left. intros (front & rest & H).
      destruct front as [|a front]; [now rewrite !str_app_cons in H|].
      rewrite !str_app_cons, !str_app_nil in H. injection H as <- ->.
      apply Hno. now exists front, rest.
    + right. right. exists ("/" +:+ front). now rewrite !str_app_cons, !str_app_nil.
Qed.

(** A path whose last dot starts an extension outside the allow-list is
    refused. *)
Lemma isAllowedFile_refuses (s e : string) :
  has_suffix s ("." +:+ e) ->
  JS.includes e "." = false ->
  JS.endsWith ("." +:+ e) "/" = false ->
  list_includes ALLOWED_EXTENSIONS ("." +:+ JS.toLowerCase e) = false ->
  isAllowedFile s = false.
Proof.
  intros [front ->] He Hslash Hext. unfold isAllowedFile.
  rewrite extension_from_last_dot, toLowerCase_dot, Hext by exact He.
  assert (JS.includes (front +:+ "." +:+ e) "." = true) as ->
    by apply includes_intro.
  assert (JS.endsWith (front +:+ "." +:+ e) "/" = false) as ->.
  { apply (endsWith_two _ ("." +:+ e)); [now exists front | exact Hslash |].
    rewrite str_app_cons. simpl. lia. }
  reflexivity.
Qed.

Lemma exe_or_bat_refused (s : string) :
  has_suffix s ".exe" \/ has_suffix s ".bat" -> isAllowedFile s = false.
Proof.
  intros [H | H].
  - now apply (isAllowedFile_refuses s "exe").
  - now apply (isAllowedFile_refuses s "bat").
Qed.

Lemma exe_or_bat_not_special (s : string) :
  has_suffix s ".exe" \/ has_suffix s ".bat" ->
  JS.endsWith s ".wasm" = false /\ JS.endsWith s ".data" = false /\
  JS.endsWith s ".gz" = false.
Proof.
  intros [H | H]; repeat split;
    first [ apply (endsWith_longer s _ _ H); [reflexivity | simpl; lia]
          | apply (endsWith_two s _ _ H); [reflexivity | simpl; lia] ].
Qed.

(** With its upstream configured, the cache-aware fetcher answers a
    refused path at once: 403, the world untouched. *)
Lemma proxyRequest_forbidden pf request source subpath origin w :
  JS.truthy source = true ->
  isAllowedFile subpath = false ->
  proxyRequest pf request source subpath origin w
  = (forbidden_file_type origin, w).
Proof.
  intros Hsrc Hgate. unfold proxyRequest.
  now rewrite Hsrc, isAllowedFile_normalizePath, Hgate.
Qed.

Lemma route_forbidden pf env request origin w prefix source rest :
  In (prefix, source) proxy_routes ->
  pathname request = prefix +:+ "/" +:+ rest ->
  has_suffix rest ".exe" \/ has_suffix rest ".bat" ->
  JS.truthy (source env) = true ->
  route pf env request origin w = (forbidden_file_type origin, w).
Proof.
  intros Hroute Hpath Hext Hsrc.
  assert (Hsub : has_suffix ("/" +:+ rest) ".exe" \/ has_suffix ("/" +:+ rest) ".bat").
  { destruct Hext as [[f ->] | [f ->]]; [left | right];
      exists ("/" +:+ f); now rewrite !str_app_cons, !str_app_nil. }
  pose proof (exe_or_bat_refused _ Hsub) as Hgate.
  destruct (exe_or_bat_not_special _ Hsub) as (Hwasm & Hdata & Hgz).
  simpl in Hroute.
  destruct Hroute as [E | [E | [E | [E | []]]]]; injection E as <- <-.
  - rewrite (route_libreoffice _ _ _ _ _ _ Hpath), Hwasm, Hdata, Hgz.
    now apply proxyRequest_forbidden.
  - rewrite (route_pymupdf _ _ _ _ _ _ Hpath). now apply proxyRequest_forbidden.
  - rewrite (route_gs _ _ _ _ _ _ Hpath). now apply proxyRequest_forbidden.
  - rewrite (route_cpdf _ _ _ _ _ _ Hpath). now apply proxyRequest_forbidden.
Qed.

End ForbiddenFiles.

(** C7, as amended: the gate admits a path exactly when the text from its
    last dot on, in lower case, is in the allow-list, or the path has no dot,
    or it ends in a slash.  A path the gate refuses that reaches the
    cache-aware fetcher with a configured upstream is answered 403 with no
    upstream fetch and no change of state; so a [.exe] or [.bat] path under
    any of the four proxy routes whose upstream is configured gets 403, for
    every request that reaches the dispatcher.  (An unconfigured upstream is
    answered 503 before the gate is asked.) *)
Theorem C7_file_type_gate :
  (forall p,
     isAllowedFile p = true <->
     (exists front e, p = front +:+ "." +:+ e /\ ~ contains e "." /\
                      In ("." +:+ JS.toLowerCase e) ALLOWED_EXTENSIONS)
     \/ ~ contains p "." \/ has_suffix p "/")
  /\
  (forall pf request source subpath origin w,
     JS.truthy source = true ->
     isAllowedFile subpath = false ->
     status (fst (proxyRequest pf request source subpath origin w)) = 403 /\
     has_field "error" (body (fst (proxyRequest pf request source subpath origin w))) /\
     snd (proxyRequest pf request source subpath origin w) = w)
  /\
  (forall pf env now request w prefix source rest,
     In (prefix, source) proxy_routes ->
     pathname request = prefix +:+ "/" +:+ rest ->
     has_suffix rest ".exe" \/ has_suffix rest ".bat" ->
     JS.truthy (source env) = true ->
     reaches_dispatcher env now request w ->
     status (fst (fetch pf env now request w)) = 403 /\
     fetched (snd (fetch pf env now request w)) = fetched w /\
     cache (snd (fetch pf env now request w)) = cache w).
Proof.
  split; [exact isAllowedFile_spec|]. split.
  - intros pf request source subpath origin w Hsrc Hgate.
    rewrite proxyRequest_forbidden by assumption.
    repeat split. unfold forbidden_file_type. field_present.
  - intros pf env now request w prefix source rest Hroute Hpath Hext Hsrc Hreach.
    rewrite (fetch_reaches_dispatcher _ _ _ _ _ Hreach).
    rewrite (route_forbidden _ _ _ _ _ _ _ _ Hroute Hpath Hext Hsrc).
    cbn [fst snd]. rewrite counted_fetched, counted_cache. now repeat split.
Qed.

Lemma C7_file_type_gate_witness :
  status (fst (fetch (upstream_always (plain_ok None [])) (env_configured true) 0
                 (get_request "/gs/tool.exe" ∅) fresh_world)) = 403.
Proof.
  apply (proj2 (proj2 C7_file_type_gate)
           (upstream_always (plain_ok None [])) (env_configured true) 0
           (get_request "/gs/tool.exe" ∅) fresh_world "/gs" GS_SOURCE "tool.exe").
  - cbn. tauto.
  - reflexivity.
  - left. now exists "tool".
  - reflexivity.
  - split; [now left|]. split; [reflexivity|]. right. vm_compute. reflexivity.
Defined.

(** C7 as stated fails when the route's upstream is not configured: the
    fetcher answers 503 before it asks the gate, so [/gs/tool.exe] gets 503
    and not 403. *)
Lemma C7_unconfigured_source_counterexample :
  isAllowedFile "/tool.exe" = false /\
  status (fst (fetch (upstream_always (plain_ok None [])) env_unconfigured 0
                 (get_request "/gs/tool.exe" ∅) fresh_world)) = 503 /\
  status (fst (proxyRequest (upstream_always (plain_ok None []))
                 (get_request "/gs/tool.exe" ∅) None "/tool.exe" None fresh_world))
  <> 403.
Proof. split; [reflexivity|]. split; [reflexivity|]. vm_compute. discriminate. Qed.

(** * The paths through the cache-aware fetcher *)

Section CacheAwarePaths.

Context (pf : Platform) (request : Request) (source : option string)
        (subpath : string) (origin : option string) (w : World).

Lemma proxyRequest_unconfigured :
  JS.truthy source = false ->
  proxyRequest pf request source subpath origin w
  = (json_response 503 origin
       [("error", JString "Source not configured");
        ("message",
         JString "This WASM module source URL has not been configured.")],
     w).
Proof. intros H. unfold proxyRequest. now rewrite H. Qed.

Hypothesis Hsource : JS.truthy source = true.
Hypothesis Hgate : isAllowedFile subpath = true.

Lemma proxyRequest_enters :
  proxyRequest pf request source subpath origin w
  = try_catch
      (let* hit := cache_match (targetUrl_of source subpath) in
       let* response :=
         match hit with
         | Some response => ret response
         | None =>
             let* response := upstream_fetch pf (targetUrl_of source subpath) in
             if negb (ok response) then
               let* failure :=
                 new_Response pf (up_status response) (json_headers origin)
                   (BodyJSON (JObject
                      (failure_fields response (targetUrl_of source subpath)))) in
               leave failure
             else
               if JS.gt_number (contentLength_of response) MAX_FILE_SIZE_BYTES
               then leave (file_too_large origin)
               else
                 if up_status response =? 200 then
                   let* _ :=
                     cache_put pf request (targetUrl_of source subpath)
                       (cacheable response) in
                   ret (cacheable response)
                 else ret (cacheable response)
         end in
       ret (forward pf origin (targetUrl_of source subpath)
              (normalizePath subpath) response))
      (proxy_error origin) w.
Proof.
  unfold proxyRequest.
  now rewrite Hsource, isAllowedFile_normalizePath, Hgate.
Qed.

Lemma proxyRequest_hit (response : CachedResponse) :
  cache w !! targetUrl_of source subpath = Some response ->
  proxyRequest pf request source subpath origin w
  = (forward pf origin (targetUrl_of source subpath) (normalizePath subpath)
       response,
     w).
Proof.
  intros H. rewrite proxyRequest_enters.
  unfold try_catch, bind, cache_match, ret. now rewrite H.
Qed.

Hypothesis Hmiss : cache w !! targetUrl_of source subpath = None.

Lemma proxyRequest_throws (message : string) :
  net_fetch pf (targetUrl_of source subpath) = Throws message ->
  proxyRequest pf request source subpath origin w
  = (proxy_error origin message, log_fetch w (targetUrl_of source subpath)).
Proof.
  intros H. rewrite proxyRequest_enters.
  unfold try_catch, bind, cache_match, upstream_fetch.
  now rewrite Hmiss, H.
Qed.

Variable up : UpstreamResponse.
Hypothesis Hfetch : net_fetch pf (targetUrl_of source subpath) = Returns up.

Lemma proxyRequest_failed :
  ok up = false ->
  proxyRequest pf request source subpath origin w
  = (mirrored pf origin up (failure_fields up (targetUrl_of source subpath)),
     log_fetch w (targetUrl_of source subpath)).
Proof.
  intros H. rewrite proxyRequest_enters.
  unfold try_catch, bind, cache_match, upstream_fetch, new_Response, mirrored,
    mirror_accepted.
  rewrite Hmiss, Hfetch, H. cbn [negb].
  now destruct ((200 <=? up_status up) && (up_status up <=? 599)
                && negb (null_body_status (up_status up))).
Qed.

Hypothesis Hok : ok up = true.

Lemma proxyRequest_oversized :
  JS.gt_number (contentLength_of up) MAX_FILE_SIZE_BYTES = true ->
  proxyRequest pf request source subpath origin w
  = (file_too_large origin, log_fetch w (targetUrl_of source subpath)).
Proof.
  intros H. rewrite proxyRequest_enters.
  unfold try_catch, bind, cache_match, upstream_fetch, leave.
  now rewrite Hmiss, Hfetch, Hok, H.
Qed.

Hypothesis Hsize : JS.gt_number (contentLength_of up) MAX_FILE_SIZE_BYTES = false.

Lemma proxyRequest_stored :
  up_status up = 200 ->
  cache_put_error pf request (cacheable up) = None ->
  proxyRequest pf request source subpath origin w
  = (forward pf origin (targetUrl_of source subpath) (normalizePath subpath)
       (cacheable up),
     set_cache (log_fetch w (targetUrl_of source subpath))
       (<[targetUrl_of source subpath := cacheable up]> (cache w))).
Proof.
  intros H200 Hput. rewrite proxyRequest_enters.
  unfold try_catch, bind, cache_match, upstream_fetch, cache_put, ret.
  rewrite Hmiss, Hfetch, Hok, Hsize, H200, Hput. reflexivity.
Qed.

Lemma proxyRequest_put_refused (message : string) :
  up_status up = 200 ->
  cache_put_error pf request (cacheable up) = Some message ->
  proxyRequest pf request source subpath origin w
  = (proxy_error origin message, log_fetch w (targetUrl_of source subpath)).
Proof.
  intros H200 Hput. rewrite proxyRequest_enters.
  unfold try_catch, bind, cache_match, upstream_fetch, cache_put, ret.
  rewrite Hmiss, Hfetch, Hok, Hsize, H200, Hput. reflexivity.
Qed.

Lemma proxyRequest_not_stored :
  up_status up <> 200 ->
  proxyRequest pf request source subpath origin w
  = (forward pf origin (targetUrl_of source subpath) (normalizePath subpath)
       (cacheable up),
     log_fetch w (targetUrl_of source subpath)).
Proof.
  intros H200. rewrite proxyRequest_enters.
  unfold try_catch, bind, cache_match, upstream_fetch, ret.
  rewrite Hmiss, Hfetch, Hok, Hsize.
  now destruct (Z.eqb_spec (up_status up) 200).
Qed.

End CacheAwarePaths.

(** * The paths through the compression-preserving fetcher *)

Section GzPaths.

Context (pf : Platform) (request : Request) (source : option string)
        (subpath : string) (origin : option string) (w : World).

Lemma proxyLibreOfficeGz_unconfigured :
  JS.truthy source = false ->
  proxyLibreOfficeGz pf request source subpath origin w
  = (json_response 503 origin [("error", JString "Source not configured")], w).
Proof. intros H. unfold proxyLibreOfficeGz. now rewrite H. Qed.

Hypothesis Hsource : JS.truthy source = true.

Lemma proxyLibreOfficeGz_throws (message : string) :
  net_fetch pf (targetUrl_of source subpath) = Throws message ->
  proxyLibreOfficeGz pf request source subpath origin w
  = (proxy_error origin message, log_fetch w (targetUrl_of source subpath)).
Proof.
  intros H.
  unfold proxyLibreOfficeGz, try_catch, bind, upstream_fetch.
  now rewrite Hsource, H.
Qed.

Variable up : UpstreamResponse.
Hypothesis Hfetch : net_fetch pf (targetUrl_of source subpath) = Returns up.

Lemma proxyLibreOfficeGz_failed :
  ok up = false ->
  proxyLibreOfficeGz pf request source subpath origin w
  = (mirrored pf origin up (gz_failure_fields up (targetUrl_of source subpath)),
     log_fetch w (targetUrl_of source subpath)).
Proof.
  intros H.
  unfold proxyLibreOfficeGz, try_catch, bind, upstream_fetch, new_Response,
    mirrored, mirror_accepted.
  rewrite Hsource, Hfetch, H. cbn [negb].
  now destruct ((200 <=? up_status up) && (up_status up <=? 599)
                && negb (null_body_status (up_status up))).
Qed.

Lemma proxyLibreOfficeGz_ok :
  ok up = true ->
  proxyLibreOfficeGz pf request source subpath origin w
  = (gz_forward origin subpath up, log_fetch w (targetUrl_of source subpath)).
Proof.
  intros H.
  unfold proxyLibreOfficeGz, try_catch, bind, upstream_fetch, ret.
  now rewrite Hsource, Hfetch, H.
Qed.

End GzPaths.

(** * Case analysis on the answers of the fetchers *)

Section FetcherCases.

Context (pf : Platform) (request : Request) (source : option string)
        (subpath : string) (origin : option string) (w : World).

(** Every run of the cache-aware fetcher takes one of the nine ways. *)
Lemma proxyRequest_path :
  ProxyPath pf request origin w (targetUrl_of source subpath)
    (normalizePath subpath) (JS.truthy source) (isAllowedFile subpath)
    (proxyRequest pf request source subpath origin w).
Proof.
  destruct (JS.truthy source) eqn:Hsrc;
    [|rewrite proxyRequest_unconfigured by exact Hsrc; now constructor].
  destruct (isAllowedFile subpath) eqn:Hgate;
    [|rewrite proxyRequest_forbidden by assumption; now constructor].
  destruct (cache w !! targetUrl_of source subpath) as [hit|] eqn:Hcache;
    [rewrite (proxyRequest_hit _ _ _ _ _ _ Hsrc Hgate _ Hcache);
     now apply path_hit|].
  destruct (net_fetch pf (targetUrl_of source subpath)) as [up|message] eqn:Hfetch;
    [|rewrite (proxyRequest_throws _ _ _ _ _ _ Hsrc Hgate Hcache _ Hfetch);
      now apply path_throws].
  destruct (ok up) eqn:Hok;
    [|rewrite (proxyRequest_failed _ _ _ _ _ _ Hsrc Hgate Hcache _ Hfetch Hok);
      now apply path_failed].
  destruct (JS.gt_number (contentLength_of up) MAX_FILE_SIZE_BYTES) eqn:Hsize;
    [rewrite (proxyRequest_oversized _ _ _ _ _ _ Hsrc Hgate Hcache _ Hfetch
                Hok Hsize);
     now apply (path_oversized _ _ _ _ _ _ _ _ up)|].
  destruct (Z.eq_dec (up_status up) 200) as [H200|H200];
    [|rewrite (proxyRequest_not_stored _ _ _ _ _ _ Hsrc Hgate Hcache _ Hfetch
                 Hok Hsize H200);
      now apply path_not_stored].
  destruct (cache_put_error pf request (cacheable up)) as [message|] eqn:Hput.
  - rewrite (proxyRequest_put_refused _ _ _ _ _ _ Hsrc Hgate Hcache _ Hfetch
               Hok Hsize _ H200 Hput).
    now apply (path_put_refused _ _ _ _ _ _ _ _ up).
  - rewrite (proxyRequest_stored _ _ _ _ _ _ Hsrc Hgate Hcache _ Hfetch
               Hok Hsize H200 Hput).
    now apply path_stored.
Qed.

(** Every run of the compression-preserving fetcher takes one of the four
    ways. *)
Lemma proxyLibreOfficeGz_path :
  GzPath pf origin w (targetUrl_of source subpath) subpath (JS.truthy source)
    (proxyLibreOfficeGz pf request source subpath origin w).
Proof.
  destruct (JS.truthy source) eqn:Hsrc;
    [|rewrite proxyLibreOfficeGz_unconfigured by exact Hsrc; now constructor].
  destruct (net_fetch pf (targetUrl_of source subpath)) as [up|message] eqn:Hfetch;
    [|rewrite (proxyLibreOfficeGz_throws _ _ _ _ _ _ Hsrc _ Hfetch);
      now apply gz_throws].
  destruct (ok up) eqn:Hok.
  - rewrite (proxyLibreOfficeGz_ok _ _ _ _ _ _ Hsrc _ Hfetch Hok).
    now apply gz_ok.
  - rewrite (proxyLibreOfficeGz_failed _ _ _ _ _ _ Hsrc _ Hfetch Hok).
    now apply gz_failed.
Qed.

End FetcherCases.

(** * Claim C1: the origin guard *)

Section OriginGuard.

Lemma slice_drops_slash (s : string) : JS.slice_0_minus1 (s +:+ "/") = s.
Proof.
  induction s as [|a s IH]; [reflexivity|].
  rewrite str_app_cons. cbn [JS.slice_0_minus1].
  destruct (s +:+ "/") eqn:E.
  - destruct s; discriminate.
  - now rewrite IH.
Qed.

Lemma strip_trailing_slash_spec (allowed stripped : string) :
  strips_to allowed stripped <-> stripped = JS.strip_trailing_slash allowed.
Proof.
  unfold strips_to, JS.strip_trailing_slash.
  destruct (JS.endsWith allowed "/") eqn:E.
  - apply endsWith_spec in E as [front ->]. rewrite slice_drops_slash. split.
    + intros [H | [H _]].
      * apply (f_equal JS.slice_0_minus1) in H.
        now rewrite !slice_drops_slash in H.
      * exfalso. apply H. now exists front.
    + intros ->. now left.
  - split.
    + now intros [-> | [_ ->]]; [rewrite endsWith_intro in E|].
    + intros ->. right. split; [|reflexivity].
      intros H%endsWith_spec. congruence.
Qed.

(** For a non-empty origin the guard decides exactly as the allow-list
    says. *)
Lemma isAllowedOrigin_spec (o : string) :
  o <> "" -> isAllowedOrigin (Some o) = true <-> admitted_by_allow_list o.
Proof.
  intros Ho%String.eqb_neq. unfold isAllowedOrigin, admitted_by_allow_list.
  cbn [JS.truthy JS.or_else]. rewrite Ho. cbn [negb].
  rewrite existsb_exists. split.
  - intros (allowed & Hin & Hpre). exists allowed, (JS.strip_trailing_slash allowed).
    split; [exact Hin|]. split; [now apply strip_trailing_slash_spec|].
    now apply startsWith_spec.
  - intros (allowed & stripped & Hin & Hstrip%strip_trailing_slash_spec & Hpre).
    subst stripped. exists allowed. split; [exact Hin|].
    now apply startsWith_spec.
Qed.

Lemma foreign_origin_not_admitted : ~ admitted_by_allow_list foreign_origin.
Proof.
  intros H. apply isAllowedOrigin_spec in H; [|discriminate].
  vm_compute in H. discriminate.
Qed.

End OriginGuard.

(** C1, as amended: a request that is not a preflight ([OPTIONS]) and
    carries a non-empty [Origin] header that the allow-list does not admit
    (prefix match against an allow-listed origin after stripping its trailing
    slash) is answered 403 with a JSON body that has an [error] field,
    whatever its path and its other methods; the world is left as it was. *)
Theorem C1_foreign_origin_forbidden pf env now request w (o : string) :
  origin_of request = Some o ->
  o <> "" ->
  ~ admitted_by_allow_list o ->
  method request <> "OPTIONS" ->
  status (fst (fetch pf env now request w)) = 403 /\
  has_field "error" (body (fst (fetch pf env now request w))) /\
  snd (fetch pf env now request w) = w.
Proof.
  intros Horigin Ho Hforeign Hmethod.
  assert (Hguard : isAllowedOrigin (Some o) = false).
  { destruct (isAllowedOrigin (Some o)) eqn:E; [|reflexivity].
    apply isAllowedOrigin_spec in E; [contradiction | exact Ho]. }
  unfold fetch. fold (origin_of request). rewrite Horigin, Hguard.
  apply String.eqb_neq in Hmethod. rewrite Hmethod. cbn [negb fst snd status body].
  repeat split. field_present.
Qed.

Lemma C1_foreign_origin_forbidden_witness :
  status (fst (fetch (upstream_always (plain_ok None [])) (env_configured true) 0
                 get_from_foreign_origin fresh_world)) = 403.
Proof.
  apply (C1_foreign_origin_forbidden _ _ _ get_from_foreign_origin _ foreign_origin).
  - reflexivity.
  - discriminate.
  - exact foreign_origin_not_admitted.
  - discriminate.
Defined.

(** C1 as stated fails for a preflight: the [OPTIONS] check comes before
    the origin guard, so a foreign origin gets the 204 preflight answer with
    no body. *)
Lemma C1_preflight_counterexample :
  origin_of options_from_foreign_origin = Some foreign_origin /\
  ~ admitted_by_allow_list foreign_origin /\
  status (fst (fetch (upstream_always (plain_ok None [])) (env_configured true) 0
                 options_from_foreign_origin fresh_world)) = 204 /\
  status (fst (fetch (upstream_always (plain_ok None [])) (env_configured true) 0
                 options_from_foreign_origin fresh_world)) <> 403 /\
  body (fst (fetch (upstream_always (plain_ok None [])) (env_configured true) 0
               options_from_foreign_origin fresh_world)) = BodyNull.
Proof.
  split; [reflexivity|]. split; [exact foreign_origin_not_admitted|].
  split; [reflexivity|]. split; [vm_compute; discriminate | reflexivity].
Qed.

(** An [Origin] header with an empty value counts as no origin at all. *)
Remark empty_origin_is_admitted : isAllowedOrigin (Some "") = true.
Proof. reflexivity. Qed.

(** * Claim C2: the shape of error bodies *)

(** C2 as stated fails at the method gate: a [POST] gets status 405 with
    the plain text "Method not allowed", which is no JSON object and has no
    [error] field. *)
Lemma C2_method_not_allowed_counterexample :
  400 <= status (fst (fetch (upstream_always (plain_ok None [])) (env_configured false) 0
                        post_health fresh_world)) /\
  body (fst (fetch (upstream_always (plain_ok None [])) (env_configured false) 0
               post_health fresh_world)) = BodyText "Method not allowed" /\
  ~ has_field "error"
      (body (fst (fetch (upstream_always (plain_ok None [])) (env_configured false) 0
                    post_health fresh_world))).
Proof.
  split; [vm_compute; discriminate|]. split; [reflexivity|].
  change (~ has_field "error" (BodyText "Method not allowed")). field_absent.
Qed.

(** The other bodies that the amended claim sets apart. *)
Remark gz_unconfigured_has_no_message pf request subpath origin w :
  ~ has_field "message"
      (body (fst (proxyLibreOfficeGz pf request None subpath origin w))).
Proof. cbn. field_absent. Qed.

Remark upstream_failure_has_no_message up url :
  ~ has_field "message" (BodyJSON (JObject (failure_fields up url))) /\
  ~ has_field "message" (BodyJSON (JObject (gz_failure_fields up url))).
Proof. split; field_absent. Qed.

Remark gz_failure_has_no_statusText up url :
  ~ has_field "statusText" (BodyJSON (JObject (gz_failure_fields up url))).
Proof. field_absent. Qed.

(** * Claim C3: what reaches the cache *)

Section CacheInvariant.

Lemma read_digits_all (s : string) (acc n : Z) :
  digits_value s acc = Some n -> JS.read_digits s (Some acc) = Some n.
Proof.
  revert acc. induction s as [|a s IH]; intros acc H; cbn in *.
  - exact H.
  - destruct (JS.digit_value a) as [d|]; [|discriminate]. now apply IH.
Qed.

(** On a string of digits [parseInt] reads the number it denotes. *)
Lemma parseInt_decimal (s : string) (n : Z) :
  s <> "" -> digits_value s 0 = Some n -> JS.parseInt s = Some n.
Proof.
  destruct s as [|a s]; [congruence|]. intros _ H.
  cbn [digits_value] in H.
  destruct (JS.digit_value a) as [d|] eqn:Hd; [|discriminate].
  apply read_digits_all in H.
  destruct a as [[] [] [] [] [] [] [] []]; try discriminate Hd;
    injection Hd as <-; exact H.
Qed.

Lemma declared_length_parsed (up : UpstreamResponse) (n : Z) :
  declares_length up n -> contentLength_of up = Some n.
Proof.
  intros (s & Hs & Hne & Hn). unfold contentLength_of. rewrite Hs.
  cbn [JS.or_else]. apply String.eqb_neq in Hne. rewrite Hne.
  now apply parseInt_decimal; [apply String.eqb_neq|].
Qed.

Lemma declared_oversized (up : UpstreamResponse) (n : Z) :
  declares_length up n -> MAX_FILE_SIZE_BYTES < n ->
  JS.gt_number (contentLength_of up) MAX_FILE_SIZE_BYTES = true.
Proof.
  intros Hn Hbig. rewrite (declared_length_parsed _ _ Hn). cbn [JS.gt_number].
  now apply Z.ltb_lt.
Qed.

(** The only write to the cache: a status-200 upstream answer within the
    size bound, stored under the target URL. *)
Lemma proxyRequest_cache pf request source subpath origin w :
  cache (snd (proxyRequest pf request source subpath origin w)) = cache w
  \/ exists up,
       net_fetch pf (targetUrl_of source subpath) = Returns up /\
       up_status up = 200 /\
       JS.gt_number (contentLength_of up) MAX_FILE_SIZE_BYTES = false /\
       cache (snd (proxyRequest pf request source subpath origin w))
       = <[targetUrl_of source subpath := cacheable up]> (cache w).
Proof.
  destruct (proxyRequest_path pf request source subpath origin w); cbn [snd];
    try (left; reflexivity).
  right. exists up. auto.
Qed.

Lemma ok_of_200 (up : UpstreamResponse) : up_status up = 200 -> ok up = true.
Proof. unfold ok. now intros ->. Qed.

End CacheInvariant.

(** C3, as amended: the cache-aware fetcher writes to the edge cache only
    when the upstream fetch returned a success status and the declared
    payload size did not exceed 100 MiB; a successful upstream answer whose
    Content-Length declares more than 100 MiB yields 413 and is not stored;
    no upstream answer that declares more than 100 MiB is stored, and no
    failed upstream answer is stored. *)
Theorem C3_cache_only_successful_within_bound :
  (forall pf request source subpath origin w,
     cache (snd (proxyRequest pf request source subpath origin w)) <> cache w ->
     exists up,
       net_fetch pf (targetUrl_of source subpath) = Returns up /\
       ok up = true /\
       (forall n, declares_length up n -> n <= MAX_FILE_SIZE_BYTES) /\
       cache (snd (proxyRequest pf request source subpath origin w))
       = <[targetUrl_of source subpath := cacheable up]> (cache w))
  /\
  (forall pf request source subpath origin w up n,
     JS.truthy source = true ->
     isAllowedFile subpath = true ->
     cache w !! targetUrl_of source subpath = None ->
     net_fetch pf (targetUrl_of source subpath) = Returns up ->
     ok up = true ->
     declares_length up n -> MAX_FILE_SIZE_BYTES < n ->
     status (fst (proxyRequest pf request source subpath origin w)) = 413 /\
     has_field "error" (body (fst (proxyRequest pf request source subpath origin w))) /\
     cache (snd (proxyRequest pf request source subpath origin w)) = cache w)
  /\
  (forall pf request source subpath origin w up n,
     net_fetch pf (targetUrl_of source subpath) = Returns up ->
     declares_length up n -> MAX_FILE_SIZE_BYTES < n ->
     cache (snd (proxyRequest pf request source subpath origin w)) = cache w)
  /\
  (forall pf request source subpath origin w up,
     net_fetch pf (targetUrl_of source subpath) = Returns up ->
     ok up = false ->
     cache (snd (proxyRequest pf request source subpath origin w)) = cache w).
Proof.
  split; [|split; [|split]].
  - intros pf request source subpath origin w Hchanged.
    destruct (proxyRequest_cache pf request source subpath origin w)
      as [Hsame | (up & Hfetch & H200 & Hsize & Hcache)]; [contradiction|].
    exists up. repeat split; [exact Hfetch | now apply ok_of_200 | | exact Hcache].
    intros n Hn. apply Z.nlt_ge. intros Hbig.
    rewrite (declared_oversized _ _ Hn Hbig) in Hsize. discriminate.
  - intros pf request source subpath origin w up n Hsrc Hgate Hmiss Hfetch Hok Hn Hbig.
    rewrite (proxyRequest_oversized _ _ _ _ _ _ Hsrc Hgate Hmiss _ Hfetch Hok
               (declared_oversized _ _ Hn Hbig)).
    unfold file_too_large. cbn [fst snd status body].
    split; [reflexivity|]. split; [field_present | reflexivity].
  - intros pf request source subpath origin w up n Hfetch Hn Hbig.
    destruct (proxyRequest_cache pf request source subpath origin w)
      as [Hsame | (up' & Hfetch' & _ & Hsize & _)]; [exact Hsame|].
    assert (up' = up) as -> by congruence.
    rewrite (declared_oversized _ _ Hn Hbig) in Hsize. discriminate.
  - intros pf request source subpath origin w up Hfetch Hok.
    destruct (proxyRequest_cache pf request source subpath origin w)
      as [Hsame | (up' & Hfetch' & H200 & _ & _)]; [exact Hsame|].
    assert (up' = up) as -> by congruence.
    apply ok_of_200 in H200. congruence.
Qed.

Lemma C3_cache_only_successful_within_bound_witness :
  status (fst (proxyRequest (upstream_always oversized_ok)
                 (get_request "/gs/gs.wasm" ∅)
                 (Some "https://cdn.example.com/gs") "/gs.wasm" None fresh_world))
  = 413.
Proof.
  apply (proj1 (proj2 C3_cache_only_successful_within_bound)
           (upstream_always oversized_ok) (get_request "/gs/gs.wasm" ∅)
           (Some "https://cdn.example.com/gs") "/gs.wasm" None fresh_world
           oversized_ok 200000000).
  - reflexivity.
  - reflexivity.
  - reflexivity.
  - reflexivity.
  - reflexivity.
  - exists "200000000". split; [reflexivity|]. split; [discriminate | reflexivity].
  - reflexivity.
Defined.

(** C3 as stated fails for a failed upstream answer that declares more
    than 100 MiB: the success check comes first, so the worker mirrors the
    404 and does not answer 413. *)
Lemma C3_failed_oversized_counterexample :
  declares_length oversized_not_found 200000000 /\
  MAX_FILE_SIZE_BYTES < 200000000 /\
  ok oversized_not_found = false /\
  status (fst (fetch (upstream_always oversized_not_found) (env_configured false) 0
                 (get_request "/gs/gs.wasm" ∅) fresh_world)) = 404 /\
  status (fst (proxyRequest (upstream_always oversized_not_found)
                 (get_request "/gs/gs.wasm" ∅)
                 (Some "https://cdn.example.com/gs") "/gs.wasm" None fresh_world))
  <> 413.
Proof.
  split.
  { exists "200000000". split; [reflexivity|]. split; [discriminate | reflexivity]. }
  split; [reflexivity|]. split; [reflexivity|]. split; [reflexivity|].
  vm_compute. discriminate.
Qed.

(** * Claim C8: an upstream answer without Content-Length *)

(** C8: when the upstream answer carries no Content-Length header, the
    oversize check reads the declared length as 0, so the answer of the
    cache-aware fetcher is never the 413 rejection, whatever the size of the
    body; a successful answer is forwarded in full with status 200, and one
    with status 200 is stored in the cache (when [cache.put] accepts it). *)
Theorem C8_absent_content_length pf request source subpath origin w up :
  JS.truthy source = true ->
  isAllowedFile subpath = true ->
  cache w !! targetUrl_of source subpath = None ->
  net_fetch pf (targetUrl_of source subpath) = Returns up ->
  up_content_length up = None ->
  contentLength_of up = Some 0 /\
  JS.gt_number (contentLength_of up) MAX_FILE_SIZE_BYTES = false /\
  fst (proxyRequest pf request source subpath origin w) <> file_too_large origin /\
  (ok up = true ->
   (up_status up = 200 -> cache_put_error pf request (cacheable up) = None) ->
   status (fst (proxyRequest pf request source subpath origin w)) = 200 /\
   body (fst (proxyRequest pf request source subpath origin w))
   = BodyBytes (up_body up) /\
   headers (fst (proxyRequest pf request source subpath origin w)) !! "Content-Length"
   = Some (byteLength_toString (up_body up))) /\
  (up_status up = 200 ->
   cache_put_error pf request (cacheable up) = None ->
   cache (snd (proxyRequest pf request source subpath origin w))
     !! targetUrl_of source subpath = Some (cacheable up)).
Proof.
  intros Hsrc Hgate Hmiss Hfetch Hlen.
  assert (Hzero : contentLength_of up = Some 0)
    by (unfold contentLength_of; now rewrite Hlen).
  assert (Hsize : JS.gt_number (contentLength_of up) MAX_FILE_SIZE_BYTES = false)
    by now rewrite Hzero.
  split; [exact Hzero|]. split; [exact Hsize|]. split; [|split].
  - destruct (ok up) eqn:Hok.
    + destruct (Z.eq_dec (up_status up) 200) as [H200|H200].
      * destruct (cache_put_error pf request (cacheable up)) as [message|] eqn:Hput.
        -- rewrite (proxyRequest_put_refused _ _ _ _ _ _ Hsrc Hgate Hmiss _ Hfetch
                      Hok Hsize _ H200 Hput). discriminate.
        -- rewrite (proxyRequest_stored _ _ _ _ _ _ Hsrc Hgate Hmiss _ Hfetch
                      Hok Hsize H200 Hput). discriminate.
      * rewrite (proxyRequest_not_stored _ _ _ _ _ _ Hsrc Hgate Hmiss _ Hfetch
                   Hok Hsize H200). discriminate.
    + rewrite (proxyRequest_failed _ _ _ _ _ _ Hsrc Hgate Hmiss _ Hfetch Hok).
      unfold mirrored. destruct (mirror_accepted (up_status up)); discriminate.
  - intros Hok Hput.
    destruct (Z.eq_dec (up_status up) 200) as [H200|H200].
    + rewrite (proxyRequest_stored _ _ _ _ _ _ Hsrc Hgate Hmiss _ Hfetch
                 Hok Hsize H200 (Hput H200)).
      cbn [fst status body headers forward cacheable cached_from].
      now simplify_map_eq.
    + rewrite (proxyRequest_not_stored _ _ _ _ _ _ Hsrc Hgate Hmiss _ Hfetch
                 Hok Hsize H200).
      cbn [fst status body headers forward cacheable cached_from].
      now simplify_map_eq.
  - intros H200 Hput.
    rewrite (proxyRequest_stored _ _ _ _ _ _ Hsrc Hgate Hmiss _ Hfetch
               (ok_of_200 _ H200) Hsize H200 Hput).
    cbn [snd cache set_cache]. apply lookup_insert_eq.
Qed.

Lemma C8_absent_content_length_witness :
  status (fst (proxyRequest (upstream_always (plain_ok None [x00; x61; x73; x6d]))
                 (get_request "/gs/gs.wasm" ∅)
                 (Some "https://cdn.example.com/gs") "/gs.wasm" None fresh_world))
  = 200.
Proof.
  apply (C8_absent_content_length
           (upstream_always (plain_ok None [x00; x61; x73; x6d]))
           (get_request "/gs/gs.wasm" ∅)
           (Some "https://cdn.example.com/gs") "/gs.wasm" None fresh_world
           (plain_ok None [x00; x61; x73; x6d]));
    reflexivity.
Defined.

(** * Claim C10: the status of a served payload *)

(** C10: whenever one of the two fetchers answers with the payload, the
    status is 200; in particular a successful upstream answer with another
    2xx status (206 for one) is forwarded with status 200 and its full
    body. *)
Theorem C10_served_with_status_200 :
  (forall pf request source subpath origin w bytes,
     body (fst (proxyRequest pf request source subpath origin w)) = BodyBytes bytes ->
     status (fst (proxyRequest pf request source subpath origin w)) = 200)
  /\
  (forall pf request source subpath origin w bytes,
     body (fst (proxyLibreOfficeGz pf request source subpath origin w)) = BodyBytes bytes ->
     status (fst (proxyLibreOfficeGz pf request source subpath origin w)) = 200)
  /\
  (forall pf request source subpath origin w up,
     JS.truthy source = true ->
     isAllowedFile subpath = true ->
     cache w !! targetUrl_of source subpath = None ->
     net_fetch pf (targetUrl_of source subpath) = Returns up ->
     ok up = true ->
     JS.gt_number (contentLength_of up) MAX_FILE_SIZE_BYTES = false ->
     up_status up <> 200 ->
     status (fst (proxyRequest pf request source subpath origin w)) = 200 /\
     body (fst (proxyRequest pf request source subpath origin w))
     = BodyBytes (up_body up))
  /\
  (forall pf request source subpath origin w up,
     JS.truthy source = true ->
     net_fetch pf (targetUrl_of source subpath) = Returns up ->
     ok up = true ->
     status (fst (proxyLibreOfficeGz pf request source subpath origin w)) = 200 /\
     body (fst (proxyLibreOfficeGz pf request source subpath origin w))
     = BodyBytes (up_body up)).
Proof.
  split; [|split; [|split]].
  - intros pf request source subpath origin w bytes.
    destruct (proxyRequest_path pf request source subpath origin w);
      cbn [fst]; intros;
      first [ reflexivity | discriminate
            | unfold mirrored in *;
              destruct (mirror_accepted _); discriminate ].
  - intros pf request source subpath origin w bytes.
    destruct (proxyLibreOfficeGz_path pf request source subpath origin w);
      cbn [fst]; intros;
      first [ reflexivity | discriminate
            | unfold mirrored in *;
              destruct (mirror_accepted _); discriminate ].
  - intros pf request source subpath origin w up Hsrc Hgate Hmiss Hfetch Hok Hsize H200.
    rewrite (proxyRequest_not_stored _ _ _ _ _ _ Hsrc Hgate Hmiss _ Hfetch
               Hok Hsize H200).
    split; reflexivity.
  - intros pf request source subpath origin w up Hsrc Hfetch Hok.
    rewrite (proxyLibreOfficeGz_ok _ _ _ _ _ _ Hsrc _ Hfetch Hok).
    split; reflexivity.
Qed.

Lemma C10_served_with_status_200_witness :
  up_status partial_content = 206 /\
  status (fst (proxyRequest (upstream_always partial_content)
                 (get_request "/gs/gs.wasm" ∅)
                 (Some "https://cdn.example.com/gs") "/gs.wasm" None fresh_world))
  = 200 /\
  status (fst (proxyLibreOfficeGz (upstream_always partial_content)
                 (get_request "/libreoffice/soffice.wasm" ∅)
                 (Some "https://cdn.example.com/libreoffice") "/soffice.wasm.gz"
                 None fresh_world))
  = 200.
Proof.
  split; [reflexivity|]. split.
  - apply (proj1 (proj2 (proj2 C10_served_with_status_200))
             (upstream_always partial_content) (get_request "/gs/gs.wasm" ∅)
             (Some "https://cdn.example.com/gs") "/gs.wasm" None fresh_world
             partial_content); first [reflexivity | discriminate].
  - apply (proj2 (proj2 (proj2 C10_served_with_status_200))
             (upstream_always partial_content)
             (get_request "/libreoffice/soffice.wasm" ∅)
             (Some "https://cdn.example.com/libreoffice") "/soffice.wasm.gz"
             None fresh_world partial_content); reflexivity.
Defined.

(** * The fetchers and the rate-limit store *)

Section StoreUntouched.

Lemma proxyRequest_kv pf request source subpath origin w :
  kv (snd (proxyRequest pf request source subpath origin w)) = kv w.
Proof.
  now destruct (proxyRequest_path pf request source subpath origin w).
Qed.

Lemma proxyLibreOfficeGz_kv pf request source subpath origin w :
  kv (snd (proxyLibreOfficeGz pf request source subpath origin w)) = kv w.
Proof.
  now destruct (proxyLibreOfficeGz_path pf request source subpath origin w).
Qed.

(** The dispatcher never writes to the rate-limit store. *)
Lemma route_kv pf env request origin w :
  kv (snd (route pf env request origin w)) = kv w.
Proof.
  unfold route.
  destruct (JS.startsWith (pathname request) "/libreoffice/").
  { destruct (JS.endsWith _ ".wasm" || JS.endsWith _ ".data");
      [apply proxyLibreOfficeGz_kv|].
    destruct (JS.endsWith _ ".gz");
      [apply proxyLibreOfficeGz_kv | apply proxyRequest_kv]. }
  destruct (JS.startsWith (pathname request) "/pymupdf/"); [apply proxyRequest_kv|].
  destruct (JS.startsWith (pathname request) "/gs/"); [apply proxyRequest_kv|].
  destruct (JS.startsWith (pathname request) "/cpdf/"); [apply proxyRequest_kv|].
  now destruct (String.eqb (pathname request) "/"
                || String.eqb (pathname request) "/health").
Qed.

End StoreUntouched.

(** * Claim C4: the rate limiter *)

(** C4: with the durable store bound, for a request that gets to the rate
    limiter (a [GET] or [HEAD] from an admitted origin) the worker reads the
    timestamps stored under the key of the client -- [wasm-ratelimit:]
    followed by the value of [CF-Connecting-IP], or by [unknown] when the
    header is absent or empty -- and keeps those less than 60 seconds old.
    With 100 or more of them left it answers 429 with [Retry-After: 60] and
    changes nothing: no upstream fetch, no write.  Otherwise it stores the
    kept timestamps followed by the current one under that key, with an
    expiry of 120 seconds (twice the window), leaves every other record as it
    was, and hands the request to the dispatcher in that state; the record is
    still there when the dispatcher is done. *)
Theorem C4_rate_limiter pf env now request w (ip : string) :
  RATE_LIMIT_KV env = true ->
  method request = "GET" \/ method request = "HEAD" ->
  isAllowedOrigin (origin_of request) = true ->
  client_address request ip ->
  let key := "wasm-ratelimit:" +:+ ip in
  let kept := filter (fun t => now - t < 60 * 1000) (stored_requests (kv w) key) in
  let record := {| requests := kept ++ [now]; expirationTtl := 120 |} in
  (RATE_LIMIT_MAX_REQUESTS <= Z.of_nat (length kept) ->
   status (fst (fetch pf env now request w)) = 429 /\
   headers (fst (fetch pf env now request w)) !! "Retry-After" = Some "60" /\
   has_field "error" (body (fst (fetch pf env now request w))) /\
   snd (fetch pf env now request w) = w)
  /\
  (Z.of_nat (length kept) < RATE_LIMIT_MAX_REQUESTS ->
   fetch pf env now request w
   = route pf env request (origin_of request) (set_kv w (<[key := record]> (kv w)))
   /\ kv (snd (fetch pf env now request w)) = <[key := record]> (kv w)
   /\ (forall other, other <> key ->
         kv (snd (fetch pf env now request w)) !! other = kv w !! other)
   /\ expirationTtl record = 2 * (RATE_LIMIT_WINDOW_MS / 1000)).
Proof.
  intros Hkv Hmethod Horigin Hip.
  assert (Hkey : rateLimitKey request = "wasm-ratelimit:" +:+ ip).
  { unfold rateLimitKey. cbv zeta.
    destruct Hip as [[-> Hne] | [[-> | ->] ->]]; cbn [JS.or_else];
      [apply String.eqb_neq in Hne; now rewrite Hne | reflexivity | reflexivity]. }
  rewrite <- Hkey. intros key kept record.
  split.
  - intros Hfull.
    rewrite (fetch_over_budget pf _ _ _ _ Hkv Hmethod Horigin Hfull).
    cbn [fst snd status headers body too_many_requests].
    split; [reflexivity|]. split; [now simplify_map_eq|].
    split; [field_present | reflexivity].
  - intros Hroom.
    assert (Hreach : reaches_dispatcher env now request w).
    { split; [exact Hmethod|]. split; [exact Horigin|]. right. exact Hroom. }
    rewrite (fetch_reaches_dispatcher pf _ _ _ _ Hreach).
    unfold counted. rewrite Hkv. fold key. fold (recent now (stored_requests (kv w) key)).
    split; [reflexivity|]. rewrite route_kv. cbn [kv set_kv].
    split; [reflexivity|]. split; [|reflexivity].
    intros other Hother. now apply lookup_insert_ne.
Qed.

Lemma C4_rate_limiter_witness :
  status (fst (fetch (upstream_always (plain_ok None [])) (env_configured true) 2000
                 (request_from "203.0.113.7" "/gs/gs.wasm") busy_client_world)) = 429 /\
  fetched (snd (fetch (upstream_always (plain_ok None [])) (env_configured true) 2000
                  (request_from "203.0.113.7" "/gs/gs.wasm") busy_client_world)) = [].
Proof.
  destruct (C4_rate_limiter (upstream_always (plain_ok None [])) (env_configured true)
              2000 (request_from "203.0.113.7" "/gs/gs.wasm") busy_client_world
              "203.0.113.7") as [Hfull _].
  - reflexivity.
  - now left.
  - reflexivity.
  - left. split; [reflexivity | discriminate].
  - destruct Hfull as (Hstatus & _ & _ & Hworld).
    + vm_compute. discriminate.
    + split; [exact Hstatus | now rewrite Hworld].
Defined.

(** * Claim C9: clients without an address share one budget *)

Section SharedBudget.

Context (env : Env) (Hkv : RATE_LIMIT_KV env = true).

Lemma anonymous_key (request : Request) :
  anonymous request -> rateLimitKey request = unknown_key.
Proof. unfold anonymous, rateLimitKey. now intros ->. Qed.

Lemma recent_all (now : Z) (l : list Z) :
  (forall t, In t l -> now - t < RATE_LIMIT_WINDOW_MS) -> recent now l = l.
Proof.
  unfold recent. induction l as [|t l IH]; intros H; [reflexivity|].
  rewrite filter_cons. destruct (decide (now - t < RATE_LIMIT_WINDOW_MS)) as [_|Hn].
  - f_equal. apply IH. intros t' Ht'. apply H. now right.
  - exfalso. apply Hn, H. now left.
Qed.

(** One address-less request that passes the guards: the shared record
    grows by its timestamp while there is room, and is left alone
    otherwise. *)
Lemma serve_anonymous (a : Arrival) (w : World) :
  anonymous (arr_request a) ->
  passes_guards (arr_request a) ->
  (forall t, In t (stored_requests (kv w) unknown_key) ->
             arr_now a - t < RATE_LIMIT_WINDOW_MS) ->
  stored_requests (kv (snd (serve env a w))) unknown_key
  = if Z.of_nat (length (stored_requests (kv w) unknown_key))
       <? RATE_LIMIT_MAX_REQUESTS
    then (stored_requests (kv w) unknown_key ++ [arr_now a])%list
    else stored_requests (kv w) unknown_key.
Proof.
  intros Hanon [Hmethod Horigin] Hclose. unfold serve.
  pose proof (anonymous_key _ Hanon) as Hkey.
  destruct (Z.ltb_spec (Z.of_nat (length (stored_requests (kv w) unknown_key)))
              RATE_LIMIT_MAX_REQUESTS) as [Hlt | Hge].
  - rewrite fetch_reaches_dispatcher.
    + rewrite route_kv. unfold counted. rewrite Hkv, Hkey, recent_all by exact Hclose.
      unfold stored_requests at 1. cbn [kv set_kv]. now rewrite lookup_insert_eq.
    + split; [exact Hmethod|]. split; [exact Horigin|]. right.
      now rewrite Hkey, recent_all by exact Hclose.
  - rewrite fetch_over_budget; [reflexivity | assumption..|].
    now rewrite Hkey, recent_all by exact Hclose.
Qed.

(** After a run of address-less requests, all within one window of each
    other and of whatever comes next, the shared record holds as many
    timestamps as were there and were served, up to the budget, and all
    of them are still inside the window of what comes next. *)
Lemma serve_all_anonymous (arrivals : list Arrival) (later : list Arrival)
  (w : World) :
  (forall a, In a arrivals -> anonymous (arr_request a) /\ passes_guards (arr_request a)) ->
  (forall a b, In a (arrivals ++ later) -> In b (arrivals ++ later) ->
               arr_now b - arr_now a < RATE_LIMIT_WINDOW_MS) ->
  (forall t b, In t (stored_requests (kv w) unknown_key) ->
               In b (arrivals ++ later) -> arr_now b - t < RATE_LIMIT_WINDOW_MS) ->
  let w' := serve_all env arrivals w in
  Z.min RATE_LIMIT_MAX_REQUESTS
    (Z.of_nat (length (stored_requests (kv w) unknown_key) + length arrivals))
  <= Z.of_nat (length (stored_requests (kv w') unknown_key))
  /\ (forall t b, In t (stored_requests (kv w') unknown_key) ->
                  In b later -> arr_now b - t < RATE_LIMIT_WINDOW_MS).
Proof.
  revert w. induction arrivals as [|a arrivals IH]; intros w Hall Hpair Hold w'.
  - subst w'. cbn [serve_all]. split; [rewrite Nat.add_0_r; lia|].
    intros t b Ht Hb. now apply Hold.
  - subst w'. cbn [serve_all].
    destruct (Hall a (or_introl eq_refl)) as [Hanon Hguard].
    assert (Hstep := serve_anonymous a w Hanon Hguard
                       (fun t Ht => Hold t a Ht (or_introl eq_refl))).
    set (w1 := snd (serve env a w)) in *.
    destruct (IH w1) as [Hlen Hclose].
    + intros b Hb. apply Hall. now right.
    + intros x y Hx Hy. apply Hpair; now right.
    + intros t b Ht Hb. rewrite Hstep in Ht.
      destruct (_ <? _) in Ht.
      * apply in_app_or in Ht as [Ht | [<- | []]].
        -- apply Hold; [exact Ht | now right].
        -- apply Hpair; [now left | now right].
      * apply Hold; [exact Ht | now right].
    + split; [|exact Hclose].
      etransitivity; [|exact Hlen]. rewrite Hstep.
      destruct (Z.ltb_spec (Z.of_nat (length (stored_requests (kv w) unknown_key)))
                  RATE_LIMIT_MAX_REQUESTS) as [Hlt | Hge].
      * rewrite List.length_app. cbn [length]. lia.
      * cbn [length]. lia.
Qed.

End SharedBudget.

(** C9: a request without a [CF-Connecting-IP] header is counted under the
    one key [wasm-ratelimit:unknown].  So the budget is shared: once any 100
    such requests -- whatever their origins, paths and upstreams -- have been
    served within one window, starting from a store with no record under
    that key, the next such request in that window is answered 429. *)
Theorem C9_unknown_clients_share_budget :
  (forall request, anonymous request -> rateLimitKey request = "wasm-ratelimit:unknown")
  /\
  (forall env arrivals next w,
     RATE_LIMIT_KV env = true ->
     kv w !! unknown_key = None ->
     length arrivals = 100%nat ->
     (forall a, In a (arrivals ++ [next]) ->
                anonymous (arr_request a) /\ passes_guards (arr_request a)) ->
     (forall a b, In a (arrivals ++ [next]) -> In b (arrivals ++ [next]) ->
                  arr_now b - arr_now a < RATE_LIMIT_WINDOW_MS) ->
     status (fst (serve env next (serve_all env arrivals w))) = 429).
Proof.
  split; [exact anonymous_key|].
  intros env arrivals next w Hkv Hfresh Hcount Hall Hpair.
  assert (Hempty : stored_requests (kv w) unknown_key = [])
    by (unfold stored_requests; now rewrite Hfresh).
  destruct (serve_all_anonymous env Hkv arrivals [next] w) as [Hlen Hclose].
  - intros a Ha. apply Hall, in_or_app. now left.
  - exact Hpair.
  - intros t b Ht. rewrite Hempty in Ht. destruct Ht.
  - rewrite Hempty, Hcount in Hlen. cbn [length] in Hlen.
    destruct (Hall next) as [Hanon [Hmethod Horigin]];
      [apply in_or_app; right; now left|].
    unfold serve.
    rewrite fetch_over_budget; [reflexivity | assumption..|].
    rewrite (anonymous_key _ Hanon), recent_all
      by (intros t Ht; apply (Hclose t next Ht); now left).
    unfold RATE_LIMIT_MAX_REQUESTS in *. lia.
Qed.

Lemma burst_member (a : Arrival) :
  In a (burst ++ [after_burst]) ->
  (anonymous (arr_request a) /\ passes_guards (arr_request a)) /\
  1000 <= arr_now a <= 30000.
Proof.
  intros [Ha | [<- | []]]%in_app_or.
  - unfold burst in Ha. apply in_map_iff in Ha as (i & <- & Hi%in_seq).
    cbn [arr_request arr_now]. split; [|lia].
    destruct (Nat.even i); (split; [reflexivity | split; [now left | reflexivity]]).
  - split; [|cbn; lia]. split; [reflexivity | split; [now left | reflexivity]].
Qed.

Lemma C9_unknown_clients_share_budget_witness :
  status (fst (serve (env_configured true) after_burst
                 (serve_all (env_configured true) burst fresh_world))) = 429.
Proof.
  apply (proj2 C9_unknown_clients_share_budget).
  - reflexivity.
  - reflexivity.
  - reflexivity.
  - intros a Ha. exact (proj1 (burst_member a Ha)).
  - intros a b Ha Hb.
    pose proof (proj2 (burst_member a Ha)). pose proof (proj2 (burst_member b Hb)).
    unfold RATE_LIMIT_WINDOW_MS. lia.
Defined.

(** * Claims C5 and C6: the compression-preserving fetcher *)

Section Gzip.

Lemma normalizePath_slash (rest : string) :
  normalizePath ("/" +:+ rest) = "/" +:+ rest.
Proof.
  unfold normalizePath.
  now replace (JS.startsWith ("/" +:+ rest) "/") with true
    by (symmetry; apply startsWith_spec; now exists rest).
Qed.

Lemma targetUrl_of_configured (base rest : string) :
  base <> "" ->
  targetUrl_of (Some base) ("/" +:+ rest) = normalizeBase base +:+ "/" +:+ rest.
Proof.
  intros Hbase%String.eqb_neq. unfold targetUrl_of.
  cbn [JS.or_else]. now rewrite Hbase, normalizePath_slash.
Qed.

Lemma wasm_or_data_suffix (rest : string) :
  has_suffix rest ".wasm" \/ has_suffix rest ".data" ->
  JS.endsWith ("/" +:+ rest) ".wasm" || JS.endsWith ("/" +:+ rest) ".data" = true.
Proof.
  intros [[front ->] | [front ->]]; apply orb_true_iff; [left | right];
    apply endsWith_spec; exists ("/" +:+ front); now rewrite !str_app_cons, !str_app_nil.
Qed.

Lemma gz_content_type origin subpath up :
  headers (gz_forward origin subpath up) !! "Content-Type"
  = Some (if JS.includes subpath "soffice.wasm" then "application/wasm"
          else "application/octet-stream").
Proof. unfold gz_forward. cbn [headers]. now simplify_map_eq. Qed.

Lemma gz_content_encoding origin subpath up :
  headers (gz_forward origin subpath up) !! "Content-Encoding" = Some "gzip".
Proof. unfold gz_forward. cbn [headers]. now simplify_map_eq. Qed.

End Gzip.

(** C5, as amended: a [GET] request for [/libreoffice/<rest>] with [<rest>]
    ending in [.wasm] or [.data] that has passed the origin guard and the rate
    limiter, the upstream base being configured, makes the worker fetch
    exactly one upstream URL, the base followed by the subpath and [.gz]; when
    the upstream answers with a success status the response has status 200,
    the upstream bytes as body, [Content-Encoding: gzip], the
    [encodeBody: 'manual'] marker, and for a path ending in [/soffice.wasm]
    the type [application/wasm]. *)
Theorem C5_wasm_and_data_fetch_gz pf env now request w (rest base : string) :
  method request = "GET" ->
  pathname request = "/libreoffice" +:+ "/" +:+ rest ->
  has_suffix rest ".wasm" \/ has_suffix rest ".data" ->
  isAllowedOrigin (origin_of request) = true ->
  within_budget env now request w ->
  LIBREOFFICE_SOURCE env = Some base -> base <> "" ->
  let url := normalizeBase base +:+ "/" +:+ rest +:+ ".gz" in
  fetched (snd (fetch pf env now request w)) = (fetched w ++ [url])%list /\
  (forall up,
     net_fetch pf url = Returns up -> ok up = true ->
     status (fst (fetch pf env now request w)) = 200 /\
     body (fst (fetch pf env now request w)) = BodyBytes (up_body up) /\
     headers (fst (fetch pf env now request w)) !! "Content-Encoding" = Some "gzip" /\
     encodeBody (fst (fetch pf env now request w)) = Some "manual" /\
     (has_suffix ("/" +:+ rest) "/soffice.wasm" ->
      headers (fst (fetch pf env now request w)) !! "Content-Type"
      = Some "application/wasm")).
Proof.
  intros Hmethod Hpath Hext Horigin Hbudget Hsource Hbase url.
  assert (Hreach : reaches_dispatcher env now request w)
    by (split; [now left | now split]).
  rewrite (fetch_reaches_dispatcher pf _ _ _ _ Hreach).
  rewrite (route_libreoffice _ _ _ _ _ _ Hpath), (wasm_or_data_suffix _ Hext), Hsource.
  assert (Hsrc : JS.truthy (Some base) = true)
    by (cbn; now apply negb_true_iff, String.eqb_neq).
  assert (Hurl : targetUrl_of (Some base) (("/" +:+ rest) +:+ ".gz") = url).
  { rewrite str_app_assoc, targetUrl_of_configured by exact Hbase. reflexivity. }
  split.
  - destruct (proxyLibreOfficeGz_path pf request (Some base)
                (("/" +:+ rest) +:+ ".gz") (origin_of request)
                (counted env now request w));
      cbn [snd fetched log_fetch]; rewrite ?Hurl, ?counted_fetched; congruence.
  - intros up Hfetch Hok. rewrite <- Hurl in Hfetch.
    rewrite (proxyLibreOfficeGz_ok _ _ _ _ _ _ Hsrc _ Hfetch Hok). cbn [fst].
    split; [reflexivity|]. split; [reflexivity|].
    split; [apply gz_content_encoding|]. split; [reflexivity|].
    intros [front Hname]. rewrite gz_content_type, Hname.
    replace (JS.includes _ "soffice.wasm") with true; [reflexivity|].
    symmetry. apply includes_spec. exists (front +:+ "/"), ".gz".
    now rewrite !str_app_assoc.
Qed.

Lemma C5_wasm_and_data_fetch_gz_witness :
  fetched (snd (fetch (upstream_always (plain_ok (Some "2") [x1f; x8b]))
                  (env_configured true) 0
                  (get_request "/libreoffice/program/soffice.wasm" ∅) fresh_world))
  = ["https://cdn.example.com/libreoffice/program/soffice.wasm.gz"].
Proof.
  apply (C5_wasm_and_data_fetch_gz
           (upstream_always (plain_ok (Some "2") [x1f; x8b])) (env_configured true) 0
           (get_request "/libreoffice/program/soffice.wasm" ∅) fresh_world
           "program/soffice.wasm" "https://cdn.example.com/libreoffice/").
  - reflexivity.
  - reflexivity.
  - left. now exists "program/soffice".
  - reflexivity.
  - right. vm_compute. reflexivity.
  - reflexivity.
  - discriminate.
Defined.

(** C5 as stated fails where a guard answers first: [GET
    /libreoffice/soffice.wasm] fetches nothing and gets no [Content-Encoding]
    when the upstream base is not configured (503, lines 237-242), when the
    origin is not admitted (403) and when the client is over its budget
    (429). *)
Lemma C5_guards_answer_first_counterexample :
  method (get_request "/libreoffice/soffice.wasm" ∅) = "GET" /\
  (fetched (snd (fetch (upstream_always (plain_ok (Some "2") [x1f; x8b]))
                   env_unconfigured 0
                   (get_request "/libreoffice/soffice.wasm" ∅) fresh_world)) = [] /\
   status (fst (fetch (upstream_always (plain_ok (Some "2") [x1f; x8b]))
                  env_unconfigured 0
                  (get_request "/libreoffice/soffice.wasm" ∅) fresh_world)) = 503 /\
   headers (fst (fetch (upstream_always (plain_ok (Some "2") [x1f; x8b]))
                   env_unconfigured 0
                   (get_request "/libreoffice/soffice.wasm" ∅) fresh_world))
     !! "Content-Encoding" = None) /\
  (method get_from_foreign_origin = "GET" /\
   fetched (snd (fetch (upstream_always (plain_ok (Some "2") [x1f; x8b]))
                   (env_configured true) 0 get_from_foreign_origin fresh_world)) = [] /\
   status (fst (fetch (upstream_always (plain_ok (Some "2") [x1f; x8b]))
                  (env_configured true) 0 get_from_foreign_origin fresh_world)) = 403) /\
  (fetched (snd (fetch (upstream_always (plain_ok (Some "2") [x1f; x8b]))
                   (env_configured true) 2000
                   (get_request "/libreoffice/soffice.wasm" ∅) busy_world)) = [] /\
   status (fst (fetch (upstream_always (plain_ok (Some "2") [x1f; x8b]))
                  (env_configured true) 2000
                  (get_request "/libreoffice/soffice.wasm" ∅) busy_world)) = 429).
Proof. repeat split; vm_compute; reflexivity. Qed.

(** What line 264 does: on a successful upstream answer the
    compression-preserving fetcher emits [Content-Type: application/wasm]
    exactly when the subpath it is given contains the text [soffice.wasm],
    and [application/octet-stream] otherwise. *)
Lemma proxyLibreOfficeGz_content_type pf request source subpath origin w up :
  JS.truthy source = true ->
  net_fetch pf (targetUrl_of source subpath) = Returns up ->
  ok up = true ->
  (contains subpath "soffice.wasm" ->
   headers (fst (proxyLibreOfficeGz pf request source subpath origin w))
     !! "Content-Type" = Some "application/wasm")
  /\
  (~ contains subpath "soffice.wasm" ->
   headers (fst (proxyLibreOfficeGz pf request source subpath origin w))
     !! "Content-Type" = Some "application/octet-stream").
Proof.
  intros Hsrc Hfetch Hok.
  rewrite (proxyLibreOfficeGz_ok _ _ _ _ _ _ Hsrc _ Hfetch Hok). cbn [fst].
  rewrite gz_content_type. split.
  - intros Hin%includes_spec. now rewrite Hin.
  - intros Hout%not_contains_iff. now rewrite Hout.
Qed.

(** C6: the type does not go by the original name.  The comment of line
    262 announces the type of the original file (before [.gz]), and
    [getContentType] gives every [.wasm] file [application/wasm]; line 264
    looks for the text [soffice.wasm] instead.  [GET /libreoffice/other.wasm]
    with the upstream configured and answering 200 is fetched as
    [/other.wasm.gz], whose original name ends in [.wasm], and is served as
    [application/octet-stream]. *)
Theorem C6_other_wasm_served_as_octet_stream :
  original_is_wasm "/other.wasm.gz" /\
  getContentType "/other.wasm" = "application/wasm" /\
  fetched (snd (fetch (upstream_always (plain_ok (Some "2") [x1f; x8b]))
                  (env_configured false) 0
                  (get_request "/libreoffice/other.wasm" ∅) fresh_world))
  = ["https://cdn.example.com/libreoffice/other.wasm.gz"] /\
  status (fst (fetch (upstream_always (plain_ok (Some "2") [x1f; x8b]))
                 (env_configured false) 0
                 (get_request "/libreoffice/other.wasm" ∅) fresh_world)) = 200 /\
  headers (fst (fetch (upstream_always (plain_ok (Some "2") [x1f; x8b]))
                  (env_configured false) 0
                  (get_request "/libreoffice/other.wasm" ∅) fresh_world))
    !! "Content-Type" = Some "application/octet-stream" /\
  headers (fst (fetch (upstream_always (plain_ok (Some "2") [x1f; x8b]))
                  (env_configured false) 0
                  (get_request "/libreoffice/other.wasm" ∅) fresh_world))
    !! "Content-Type" <> Some "application/wasm".
Proof.
  split; [exists "/other.wasm"; split; [reflexivity | now exists "/other"]|].
  split; [reflexivity|]. split; [reflexivity|]. split; [reflexivity|].
  split; [reflexivity|]. vm_compute. discriminate.
Qed.

(** The other direction fails too: a data file in a directory whose name
    contains [soffice.wasm] is served as [application/wasm]. *)
Remark C6_data_served_as_wasm :
  ~ original_is_wasm "/soffice.wasm.d/blob.data.gz" /\
  headers (fst (fetch (upstream_always (plain_ok (Some "2") [x1f; x8b]))
                  (env_configured false) 0
                  (get_request "/libreoffice/soffice.wasm.d/blob.data" ∅) fresh_world))
    !! "Content-Type" = Some "application/wasm".
Proof.
  split; [|reflexivity].
  intros (name & Hname & Hwasm).
  change "/soffice.wasm.d/blob.data.gz"
    with ("/soffice.wasm.d/blob.data" +:+ ".gz") in Hname.
  apply str_app_inv_tail in Hname. subst name.
  apply endsWith_spec in Hwasm. vm_compute in Hwasm. discriminate.
Qed.

(** * Properties of the whole handler *)

Section CorsEverywhere.

Lemma cors_keys (origin : option string) (name : string) :
  ~ has_prefix name "Access-Control-" -> corsHeaders origin !! name = None.
Proof.
  intros Hname. unfold corsHeaders.
  rewrite !lookup_insert_ne; [apply lookup_empty|..];
    intros <-; apply Hname; eexists; reflexivity.
Qed.

Lemma cors_kept (origin : option string) (name value : string)
  (h : gmap string string) :
  ~ has_prefix name "Access-Control-" ->
  corsHeaders origin ⊆ h -> corsHeaders origin ⊆ <[name := value]> h.
Proof. intros Hname Hsub. apply insert_subseteq_r; [now apply cors_keys | exact Hsub]. Qed.

Lemma other_header (rest : string) (a : ascii) :
  a <> "A"%char -> ~ has_prefix (String a rest) "Access-Control-".
Proof. intros Ha [tail H]. rewrite str_app_cons in H. injection H. congruence. Qed.

Lemma cors_in_json_headers origin : corsHeaders origin ⊆ json_headers origin.
Proof. apply cors_kept; [now apply other_header | reflexivity]. Qed.

Lemma cors_in_mirrored pf origin up fields :
  corsHeaders origin ⊆ headers (mirrored pf origin up fields).
Proof.
  unfold mirrored. destruct (mirror_accepted _); apply cors_in_json_headers.
Qed.

Lemma cors_in_forward pf origin url path response :
  corsHeaders origin ⊆ headers (forward pf origin url path response).
Proof.
  unfold forward. cbn [headers].
  repeat (apply cors_kept; [now apply other_header|]). reflexivity.
Qed.

Lemma cors_in_gz_forward origin subpath up :
  corsHeaders origin ⊆ headers (gz_forward origin subpath up).
Proof.
  unfold gz_forward. cbn [headers].
  repeat (apply cors_kept; [now apply other_header|]). reflexivity.
Qed.

Ltac cors_present :=
  lazymatch goal with
  | |- _ ⊆ headers (forward _ _ _ _ _) => apply cors_in_forward
  | |- _ ⊆ headers (gz_forward _ _ _) => apply cors_in_gz_forward
  | |- _ ⊆ headers (mirrored _ _ _ _) => apply cors_in_mirrored
  | |- _ ⊆ headers (json_response _ _ _) => apply cors_in_json_headers
  | |- _ ⊆ headers (forbidden_file_type _) => apply cors_in_json_headers
  | |- _ ⊆ headers (proxy_error _ _) => apply cors_in_json_headers
  | |- _ ⊆ headers (file_too_large _) => apply cors_in_json_headers
  end.

Lemma cors_in_proxyRequest pf request source subpath origin w :
  corsHeaders origin
  ⊆ headers (fst (proxyRequest pf request source subpath origin w)).
Proof.
  destruct (proxyRequest_path pf request source subpath origin w); cbn [fst];
    cors_present.
Qed.

Lemma cors_in_proxyLibreOfficeGz pf request source subpath origin w :
  corsHeaders origin
  ⊆ headers (fst (proxyLibreOfficeGz pf request source subpath origin w)).
Proof.
  destruct (proxyLibreOfficeGz_path pf request source subpath origin w); cbn [fst];
    cors_present.
Qed.

Lemma cors_in_route pf env request origin w :
  corsHeaders origin ⊆ headers (fst (route pf env request origin w)).
Proof.
  unfold route.
  destruct (JS.startsWith (pathname request) "/libreoffice/").
  { destruct (JS.endsWith _ ".wasm" || JS.endsWith _ ".data");
      [apply cors_in_proxyLibreOfficeGz|].
    destruct (JS.endsWith _ ".gz");
      [apply cors_in_proxyLibreOfficeGz | apply cors_in_proxyRequest]. }
  destruct (JS.startsWith (pathname request) "/pymupdf/");
    [apply cors_in_proxyRequest|].
  destruct (JS.startsWith (pathname request) "/gs/"); [apply cors_in_proxyRequest|].
  destruct (JS.startsWith (pathname request) "/cpdf/"); [apply cors_in_proxyRequest|].
  destruct (String.eqb (pathname request) "/" || String.eqb (pathname request) "/health");
    apply cors_in_json_headers.
Qed.

End CorsEverywhere.

(** X1: every answer of the handler -- preflight, refusal, error or
    payload -- carries the five CORS headers of [corsHeaders], computed from
    the request's [Origin]; in particular [Access-Control-Allow-Origin] is
    that origin, or [*] when the request has none. *)
Theorem X1_cors_headers_on_every_answer pf env now request w :
  corsHeaders (origin_of request) ⊆ headers (fst (fetch pf env now request w)) /\
  headers (fst (fetch pf env now request w)) !! "Access-Control-Allow-Origin"
  = Some (JS.or_else (origin_of request) "*").
Proof.
  assert (Hsub : corsHeaders (origin_of request)
                 ⊆ headers (fst (fetch pf env now request w))).
  { unfold fetch. fold (origin_of request).
    destruct (String.eqb (method request) "OPTIONS"); [reflexivity|].
    destruct (isAllowedOrigin (origin_of request)); cbn [negb].
    2:{ cbn [fst headers]. apply map_union_subseteq_l. }
    destruct (negb (String.eqb (method request) "GET")
              && negb (String.eqb (method request) "HEAD")); [reflexivity|].
    destruct (RATE_LIMIT_KV env); [|apply cors_in_route].
    unfold rateLimiter.
    destruct (RATE_LIMIT_MAX_REQUESTS <=? _); [|apply cors_in_route].
    cbn [fst headers].
    apply cors_kept; [now apply other_header | apply cors_in_json_headers]. }
  split; [exact Hsub|].
  eapply lookup_weaken; [|exact Hsub].
  unfold corsHeaders. now simplify_map_eq.
Qed.

(** X2: only a [GET] or [HEAD] from an admitted origin can change the
    state or reach an upstream: for any other request -- a preflight, a
    foreign origin, another method -- the rate-limit store, the cache and the
    log of upstream fetches are exactly what they were. *)
Theorem X2_only_get_and_head_change_state pf env now request w :
  snd (fetch pf env now request w) <> w ->
  (method request = "GET" \/ method request = "HEAD") /\
  isAllowedOrigin (origin_of request) = true.
Proof.
  unfold fetch. fold (origin_of request).
  destruct (String.eqb (method request) "OPTIONS"); [now intros []|].
  destruct (isAllowedOrigin (origin_of request)); [|now intros []].
  cbn [negb].
  destruct (String.eqb_spec (method request) "GET") as [Hget|_];
    [intros _; split; [now left | reflexivity]|].
  destruct (String.eqb_spec (method request) "HEAD") as [Hhead|_];
    [intros _; split; [now right | reflexivity]|].
  now intros [].
Qed.

Lemma X2_only_get_and_head_change_state_witness :
  method (get_request "/gs/gs.js" ∅) = "GET" \/
  method (get_request "/gs/gs.js" ∅) = "HEAD".
Proof.
  apply (X2_only_get_and_head_change_state
           (upstream_always (plain_ok None [])) (env_configured true) 7
           (get_request "/gs/gs.js" ∅) fresh_world).
  vm_compute. discriminate.
Defined.

Section StatusesAndTypes.

Lemma mirrored_status pf origin up fields :
  status (mirrored pf origin up fields) = 500 \/
  status (mirrored pf origin up fields) = up_status up.
Proof. unfold mirrored. destruct (mirror_accepted _); [now right | now left]. Qed.

Lemma proxyRequest_statuses pf request source subpath origin w :
  In (status (fst (proxyRequest pf request source subpath origin w))) own_statuses
  \/ exists up,
       net_fetch pf (targetUrl_of source subpath) = Returns up /\ ok up = false /\
       status (fst (proxyRequest pf request source subpath origin w)) = up_status up.
Proof.
  destruct (proxyRequest_path pf request source subpath origin w); cbn [fst];
    try (left; cbn; tauto).
  destruct (mirrored_status pf origin up
              (failure_fields up (targetUrl_of source subpath))) as [-> | ->];
    [left; cbn; tauto | right; now exists up].
Qed.

Lemma proxyLibreOfficeGz_statuses pf request source subpath origin w :
  In (status (fst (proxyLibreOfficeGz pf request source subpath origin w)))
     own_statuses
  \/ exists up,
       net_fetch pf (targetUrl_of source subpath) = Returns up /\ ok up = false /\
       status (fst (proxyLibreOfficeGz pf request source subpath origin w))
       = up_status up.
Proof.
  destruct (proxyLibreOfficeGz_path pf request source subpath origin w); cbn [fst];
    try (left; cbn; tauto).
  destruct (mirrored_status pf origin up
              (gz_failure_fields up (targetUrl_of source subpath))) as [-> | ->];
    [left; cbn; tauto | right; now exists up].
Qed.

Lemma route_statuses pf env request origin w :
  In (status (fst (route pf env request origin w))) own_statuses
  \/ exists url up,
       net_fetch pf url = Returns up /\ ok up = false /\
       status (fst (route pf env request origin w)) = up_status up.
Proof.
  assert (Hp : forall source subpath,
    In (status (fst (proxyRequest pf request source subpath origin w))) own_statuses
    \/ exists url up,
         net_fetch pf url = Returns up /\ ok up = false /\
         status (fst (proxyRequest pf request source subpath origin w))
         = up_status up).
  { intros source subpath.
    destruct (proxyRequest_statuses pf request source subpath origin w)
      as [H | (up & H)]; [now left | right; eauto]. }
  assert (Hg : forall source subpath,
    In (status (fst (proxyLibreOfficeGz pf request source subpath origin w)))
       own_statuses
    \/ exists url up,
         net_fetch pf url = Returns up /\ ok up = false /\
         status (fst (proxyLibreOfficeGz pf request source subpath origin w))
         = up_status up).
  { intros source subpath.
    destruct (proxyLibreOfficeGz_statuses pf request source subpath origin w)
      as [H | (up & H)]; [now left | right; eauto]. }
  unfold route.
  destruct (JS.startsWith (pathname request) "/libreoffice/").
  { destruct (JS.endsWith _ ".wasm" || JS.endsWith _ ".data"); [apply Hg|].
    destruct (JS.endsWith _ ".gz"); [apply Hg | apply Hp]. }
  destruct (JS.startsWith (pathname request) "/pymupdf/"); [apply Hp|].
  destruct (JS.startsWith (pathname request) "/gs/"); [apply Hp|].
  destruct (JS.startsWith (pathname request) "/cpdf/"); [apply Hp|].
  destruct (String.eqb (pathname request) "/" || String.eqb (pathname request) "/health");
    left; cbn; tauto.
Qed.

End StatusesAndTypes.

(** X3: the status of every answer is one the worker writes itself -- 200,
    204, 403, 404, 405, 413, 429, 500 or 503 -- or it is the status of a
    failed (non-ok) upstream answer that the worker mirrors.  So the worker
    never answers with a success status other than 200 and 204, and never
    with a redirect of its own. *)
Theorem X3_statuses_of_the_handler pf env now request w :
  In (status (fst (fetch pf env now request w))) own_statuses
  \/ exists url up,
       net_fetch pf url = Returns up /\ ok up = false /\
       status (fst (fetch pf env now request w)) = up_status up.
Proof.
  unfold fetch.
  destruct (String.eqb (method request) "OPTIONS"); [left; cbn; tauto|].
  destruct (isAllowedOrigin _); [|left; cbn; tauto]. cbn [negb].
  destruct (negb (String.eqb (method request) "GET")
            && negb (String.eqb (method request) "HEAD")); [left; cbn; tauto|].
  destruct (RATE_LIMIT_KV env); [|apply route_statuses].
  unfold rateLimiter.
  destruct (RATE_LIMIT_MAX_REQUESTS <=? _); [left; cbn; tauto | apply route_statuses].
Qed.

Section Labels.

Lemma content_type_of_key (key : string) :
  In (JS.or_else (assoc contentTypes key) "application/octet-stream") mime_types.
Proof.
  cbn [assoc contentTypes].
  repeat (destruct (String.eqb _ key); [cbn; tauto|]). cbn. tauto.
Qed.

Lemma getContentType_mime (pathname : string) :
  In (getContentType pathname) mime_types.
Proof. apply content_type_of_key. Qed.

Lemma json_headers_type origin :
  json_headers origin !! "Content-Type" = Some "application/json".
Proof. apply lookup_insert_eq. Qed.

Lemma labelled_mirrored pf origin up fields :
  labelled (mirrored pf origin up fields).
Proof.
  unfold mirrored. destruct (mirror_accepted _); apply json_headers_type.
Qed.

Lemma labelled_forward pf origin url path response :
  labelled (forward pf origin url path response).
Proof.
  unfold labelled, forward. cbn [body headers]. split.
  - exists (getContentType path). split; [now simplify_map_eq|].
    apply getContentType_mime.
  - now simplify_map_eq.
Qed.

Lemma labelled_gz_forward origin subpath up :
  labelled (gz_forward origin subpath up).
Proof.
  unfold labelled. cbn [body gz_forward]. split.
  - rewrite gz_content_type. eexists. split; [reflexivity|].
    destruct (JS.includes subpath "soffice.wasm"); cbn; tauto.
  - unfold gz_forward. cbn [headers]. now simplify_map_eq.
Qed.

Ltac label_present :=
  lazymatch goal with
  | |- labelled (forward _ _ _ _ _) => apply labelled_forward
  | |- labelled (gz_forward _ _ _) => apply labelled_gz_forward
  | |- labelled (mirrored _ _ _ _) => apply labelled_mirrored
  | |- labelled (json_response _ _ _) => apply json_headers_type
  | |- labelled (forbidden_file_type _) => apply json_headers_type
  | |- labelled (proxy_error _ _) => apply json_headers_type
  | |- labelled (file_too_large _) => apply json_headers_type
  end.

Lemma labelled_proxyRequest pf request source subpath origin w :
  labelled (fst (proxyRequest pf request source subpath origin w)).
Proof.
  destruct (proxyRequest_path pf request source subpath origin w); cbn [fst];
    label_present.
Qed.

Lemma labelled_proxyLibreOfficeGz pf request source subpath origin w :
  labelled (fst (proxyLibreOfficeGz pf request source subpath origin w)).
Proof.
  destruct (proxyLibreOfficeGz_path pf request source subpath origin w); cbn [fst];
    label_present.
Qed.

Lemma labelled_route pf env request origin w :
  labelled (fst (route pf env request origin w)).
Proof.
  unfold route.
  destruct (JS.startsWith (pathname request) "/libreoffice/").
  { destruct (JS.endsWith _ ".wasm" || JS.endsWith _ ".data");
      [apply labelled_proxyLibreOfficeGz|].
    destruct (JS.endsWith _ ".gz");
      [apply labelled_proxyLibreOfficeGz | apply labelled_proxyRequest]. }
  destruct (JS.startsWith (pathname request) "/pymupdf/");
    [apply labelled_proxyRequest|].
  destruct (JS.startsWith (pathname request) "/gs/"); [apply labelled_proxyRequest|].
  destruct (JS.startsWith (pathname request) "/cpdf/"); [apply labelled_proxyRequest|].
  destruct (String.eqb (pathname request) "/" || String.eqb (pathname request) "/health");
    apply json_headers_type.
Qed.

Lemma labelled_fetch pf env now request w :
  labelled (fst (fetch pf env now request w)).
Proof.
  unfold fetch.
  destruct (String.eqb (method request) "OPTIONS"); [exact I|].
  destruct (isAllowedOrigin _); cbn [negb].
  2:{ unfold labelled. cbn [fst body headers].
      apply lookup_union_Some_raw. right. split; [|apply lookup_singleton_eq].
      apply cors_keys. now apply other_header. }
  destruct (negb (String.eqb (method request) "GET")
            && negb (String.eqb (method request) "HEAD")); [exact I|].
  destruct (RATE_LIMIT_KV env); [|apply labelled_route].
  unfold rateLimiter.
  destruct (RATE_LIMIT_MAX_REQUESTS <=? _); [|apply labelled_route].
  unfold labelled. cbn [fst body headers].
  rewrite lookup_insert_ne by discriminate. apply json_headers_type.
Qed.

End Labels.

(** X4: the headers of every answer agree with its body: a JSON body is
    sent as [Content-Type: application/json]; a payload is sent with a type
    from the content-type table (or [application/octet-stream]) and with a
    [Content-Length] that is the byte length of the body the worker read. *)
Theorem X4_headers_agree_with_body pf env now request w :
  (forall j,
     body (fst (fetch pf env now request w)) = BodyJSON j ->
     headers (fst (fetch pf env now request w)) !! "Content-Type"
     = Some "application/json")
  /\
  (forall bytes,
     body (fst (fetch pf env now request w)) = BodyBytes bytes ->
     (exists t,
        headers (fst (fetch pf env now request w)) !! "Content-Type" = Some t /\
        In t mime_types) /\
     headers (fst (fetch pf env now request w)) !! "Content-Length"
     = Some (pretty (Z.of_nat (length bytes)))).
Proof.
  pose proof (labelled_fetch pf env now request w) as H. unfold labelled in H.
  split.
  - intros j Hbody. now rewrite Hbody in H.
  - intros bytes Hbody. now rewrite Hbody in H.
Qed.

(** * Routing *)

Section RoutingFacts.

Lemma truthy_some (source : option string) :
  JS.truthy source = true -> exists base, source = Some base /\ base <> "".
Proof.
  destruct source as [base|]; [|discriminate]. cbn.
  intros H%negb_true_iff%String.eqb_neq. now exists base.
Qed.

(** The cache-aware fetcher fetches nothing, or the one target URL. *)
Lemma proxyRequest_fetched pf request source subpath origin w :
  fetched (snd (proxyRequest pf request source subpath origin w)) = fetched w
  \/ (JS.truthy source = true /\
      fetched (snd (proxyRequest pf request source subpath origin w))
      = (fetched w ++ [targetUrl_of source subpath])%list).
Proof.
  destruct (JS.truthy source) eqn:Hsrc;
    [|left; now rewrite proxyRequest_unconfigured].
  destruct (proxyRequest_path pf request source subpath origin w); cbn [snd];
    first [ left; reflexivity | right; split; reflexivity ].
Qed.

Lemma proxyLibreOfficeGz_fetched pf request source subpath origin w :
  fetched (snd (proxyLibreOfficeGz pf request source subpath origin w)) = fetched w
  \/ (JS.truthy source = true /\
      fetched (snd (proxyLibreOfficeGz pf request source subpath origin w))
      = (fetched w ++ [targetUrl_of source subpath])%list).
Proof.
  destruct (JS.truthy source) eqn:Hsrc;
    [|left; now rewrite proxyLibreOfficeGz_unconfigured].
  destruct (proxyLibreOfficeGz_path pf request source subpath origin w); cbn [snd];
    first [ left; reflexivity | right; split; reflexivity ].
Qed.

Lemma route_split (path prefix : string) :
  JS.startsWith path (prefix +:+ "/") = true ->
  exists rest, path = prefix +:+ "/" +:+ rest.
Proof.
  intros [rest ->]%startsWith_spec. exists rest. now rewrite str_app_assoc.
Qed.

(** The compression-preserving fetcher does not look at the request. *)
Lemma proxyLibreOfficeGz_any_request pf request request' source subpath origin w :
  proxyLibreOfficeGz pf request' source subpath origin w
  = proxyLibreOfficeGz pf request source subpath origin w.
Proof. reflexivity. Qed.

Lemma gz_suffix_not_special (s : string) :
  JS.endsWith (s +:+ ".gz") ".wasm" = false /\
  JS.endsWith (s +:+ ".gz") ".data" = false /\
  JS.endsWith (s +:+ ".gz") ".gz" = true.
Proof.
  assert (H : has_suffix (s +:+ ".gz") ".gz") by now exists s.
  repeat split.
  - apply (endsWith_longer _ _ _ H); [reflexivity | simpl; lia].
  - apply (endsWith_longer _ _ _ H); [reflexivity | simpl; lia].
  - now apply endsWith_spec.
Qed.

End RoutingFacts.

(** X5: for [/] and [/health] a request that reaches the dispatcher gets
    status 200 and the service description, whose [configured] flags tell for
    each of the four sources whether its base URL is set and non-empty; no
    upstream is contacted and the cache is not touched. *)
Theorem X5_health_reports_configuration pf env now request w :
  pathname request = "/" \/ pathname request = "/health" ->
  reaches_dispatcher env now request w ->
  fst (fetch pf env now request w)
  = json_response 200 (origin_of request) (health_fields env) /\
  In ("configured",
      JObject [("libreoffice", JBool (JS.truthy (LIBREOFFICE_SOURCE env)));
               ("pymupdf", JBool (JS.truthy (PYMUPDF_SOURCE env)));
               ("gs", JBool (JS.truthy (GS_SOURCE env)));
               ("cpdf", JBool (JS.truthy (CPDF_SOURCE env)))])
     (health_fields env) /\
  fetched (snd (fetch pf env now request w)) = fetched w /\
  cache (snd (fetch pf env now request w)) = cache w.
Proof.
  intros Hpath Hreach. rewrite (fetch_reaches_dispatcher pf _ _ _ _ Hreach).
  assert (Hroute : forall w', route pf env request (origin_of request) w'
                   = (json_response 200 (origin_of request) (health_fields env), w')).
  { intros w'. unfold route. now destruct Hpath as [-> | ->]. }
  rewrite Hroute. cbn [fst snd]. rewrite counted_fetched, counted_cache.
  split; [reflexivity|]. split; [|now split]. cbn. tauto.
Qed.

Lemma X5_health_reports_configuration_witness :
  fst (fetch (upstream_down "unreachable") env_unconfigured 0
         (get_request "/health" ∅) fresh_world)
  = json_response 200 None (health_fields env_unconfigured).
Proof.
  refine (proj1 (X5_health_reports_configuration (upstream_down "unreachable")
                   env_unconfigured 0 (get_request "/health" ∅) fresh_world _ _)).
  - now right.
  - split; [now left|]. split; [reflexivity | now left].
Defined.

(** X6: a path outside the four routes that is neither [/] nor [/health]
    gets status 404 with an [error] and a [message], for every request that
    reaches the dispatcher; nothing is fetched. *)
Theorem X6_unknown_path_not_found pf env now request w :
  (forall prefix source, In (prefix, source) proxy_routes ->
     ~ has_prefix (pathname request) (prefix +:+ "/")) ->
  pathname request <> "/" -> pathname request <> "/health" ->
  reaches_dispatcher env now request w ->
  status (fst (fetch pf env now request w)) = 404 /\
  has_field "error" (body (fst (fetch pf env now request w))) /\
  has_field "message" (body (fst (fetch pf env now request w))) /\
  fetched (snd (fetch pf env now request w)) = fetched w /\
  cache (snd (fetch pf env now request w)) = cache w.
Proof.
  intros Hroutes Hroot Hhealth Hreach.
  rewrite (fetch_reaches_dispatcher pf _ _ _ _ Hreach). unfold route.
  assert (Hno : forall prefix source, In (prefix, source) proxy_routes ->
                JS.startsWith (pathname request) (prefix +:+ "/") = false).
  { intros prefix source Hin.
    destruct (JS.startsWith (pathname request) (prefix +:+ "/")) eqn:E; [|reflexivity].
    apply startsWith_spec in E. exfalso. exact (Hroutes prefix source Hin E). }
  pose proof (Hno "/libreoffice" LIBREOFFICE_SOURCE ltac:(cbn; tauto)) as H1.
  pose proof (Hno "/pymupdf" PYMUPDF_SOURCE ltac:(cbn; tauto)) as H2.
  pose proof (Hno "/gs" GS_SOURCE ltac:(cbn; tauto)) as H3.
  pose proof (Hno "/cpdf" CPDF_SOURCE ltac:(cbn; tauto)) as H4.
  change ("/libreoffice" +:+ "/") with "/libreoffice/" in H1.
  change ("/pymupdf" +:+ "/") with "/pymupdf/" in H2.
  change ("/gs" +:+ "/") with "/gs/" in H3.
  change ("/cpdf" +:+ "/") with "/cpdf/" in H4.
  rewrite H1, H2, H3, H4.
  apply String.eqb_neq in Hroot, Hhealth. rewrite Hroot, Hhealth.
  cbn [orb fst snd status body json_response].
  rewrite counted_fetched, counted_cache.
  split; [reflexivity|]. split; [field_present|]. split; [field_present|].
  now split.
Qed.

Lemma X6_unknown_path_not_found_witness :
  status (fst (fetch (upstream_always (plain_ok None [])) (env_configured false) 0
                 (get_request "/gsx/gs.js" ∅) fresh_world)) = 404.
Proof.
  refine (proj1 (X6_unknown_path_not_found (upstream_always (plain_ok None []))
                   (env_configured false) 0 (get_request "/gsx/gs.js" ∅) fresh_world
                   _ _ _ _)).
  - intros prefix source Hin Hpre. apply startsWith_spec in Hpre.
    cbn in Hin. destruct Hin as [E | [E | [E | [E | []]]]];
      injection E as <- _; vm_compute in Hpre; discriminate.
  - discriminate.
  - discriminate.
  - split; [now left|]. split; [reflexivity | now left].
Defined.

Section SingleUpstream.

(** Either a guard answers and the state is left alone, or the dispatcher
    runs. *)
Lemma fetch_guard_or_dispatch pf env now request w :
  snd (fetch pf env now request w) = w \/
  reaches_dispatcher env now request w.
Proof.
  destruct (isAllowedOrigin (origin_of request)) eqn:Ho.
  2:{ left. unfold fetch. fold (origin_of request). rewrite Ho.
      now destruct (String.eqb (method request) "OPTIONS"). }
  assert (Hm : (method request = "GET" \/ method request = "HEAD") \/
               (String.eqb (method request) "GET" = false /\
                String.eqb (method request) "HEAD" = false)).
  { destruct (String.eqb_spec (method request) "GET"); [now left; left|].
    destruct (String.eqb_spec (method request) "HEAD"); [now left; right|].
    now right. }
  destruct Hm as [Hm | [Hget Hhead]].
  - destruct (RATE_LIMIT_KV env) eqn:Hkv.
    2:{ right. split; [exact Hm|]. split; [exact Ho | now left]. }
    destruct (Z.leb_spec RATE_LIMIT_MAX_REQUESTS
                (Z.of_nat (length (recent now
                   (stored_requests (kv w) (rateLimitKey request)))))) as [Hfull | Hfree].
    + left. now rewrite (fetch_over_budget pf _ _ _ _ Hkv Hm Ho Hfull).
    + right. split; [exact Hm|]. split; [exact Ho | now right].
  - left. unfold fetch. fold (origin_of request). rewrite Ho, Hget, Hhead.
    now destruct (String.eqb (method request) "OPTIONS").
Qed.

Lemma suffix_after_prefix (p s t : string) :
  JS.endsWith s t = true -> has_suffix (p +:+ s) t.
Proof.
  intros [front ->]%endsWith_spec. exists (p +:+ front). now rewrite str_app_assoc.
Qed.

Lemma route_fetched pf env request origin w :
  fetched (snd (route pf env request origin w)) = fetched w \/
  exists url, upstream_target env request url /\
    fetched (snd (route pf env request origin w)) = (fetched w ++ [url])%list.
Proof.
  destruct (JS.startsWith (pathname request) "/libreoffice/") eqn:Hlo.
  { destruct (route_split _ "/libreoffice" Hlo) as [rest Hpath].
    rewrite (route_libreoffice pf env request origin w rest Hpath).
    destruct (JS.endsWith ("/" +:+ rest) ".wasm" || JS.endsWith ("/" +:+ rest) ".data")
      eqn:Hgz.
    - destruct (proxyLibreOfficeGz_fetched pf request (LIBREOFFICE_SOURCE env)
                  (("/" +:+ rest) +:+ ".gz") origin w) as [H | [Hsrc H]];
        [now left | right].
      destruct (truthy_some _ Hsrc) as (base & Hbase & Hne).
      exists (normalizeBase base +:+ "/" +:+ rest +:+ ".gz"). split.
      + exists "/libreoffice", LIBREOFFICE_SOURCE, base, rest.
        split; [cbn; tauto|]. split; [exact Hbase|]. split; [exact Hne|].
        split; [exact Hpath|]. right. split; [reflexivity|]. split; [|reflexivity].
        rewrite Hpath. apply orb_true_iff in Hgz as [Hgz | Hgz];
          [left | right]; now apply suffix_after_prefix.
      + rewrite H, Hbase, str_app_assoc. now rewrite targetUrl_of_configured.
    - destruct (JS.endsWith ("/" +:+ rest) ".gz").
      + destruct (proxyLibreOfficeGz_fetched pf request (LIBREOFFICE_SOURCE env)
                    ("/" +:+ rest) origin w) as [H | [Hsrc H]];
          [now left | right].
        destruct (truthy_some _ Hsrc) as (base & Hbase & Hne).
        exists (normalizeBase base +:+ "/" +:+ rest). split.
        * exists "/libreoffice", LIBREOFFICE_SOURCE, base, rest.
          split; [cbn; tauto|]. split; [exact Hbase|]. split; [exact Hne|].
          split; [exact Hpath | now left].
        * rewrite H, Hbase. now rewrite targetUrl_of_configured.
      + destruct (proxyRequest_fetched pf request (LIBREOFFICE_SOURCE env)
                    ("/" +:+ rest) origin w) as [H | [Hsrc H]];
          [now left | right].
        destruct (truthy_some _ Hsrc) as (base & Hbase & Hne).
        exists (normalizeBase base +:+ "/" +:+ rest). split.
        * exists "/libreoffice", LIBREOFFICE_SOURCE, base, rest.
          split; [cbn; tauto|]. split; [exact Hbase|]. split; [exact Hne|].
          split; [exact Hpath | now left].
        * rewrite H, Hbase. now rewrite targetUrl_of_configured. }
  destruct (JS.startsWith (pathname request) "/pymupdf/") eqn:Hpy.
  { destruct (route_split _ "/pymupdf" Hpy) as [rest Hpath].
    rewrite (route_pymupdf pf env request origin w rest Hpath).
    destruct (proxyRequest_fetched pf request (PYMUPDF_SOURCE env)
                ("/" +:+ rest) origin w) as [H | [Hsrc H]];
      [now left | right].
    destruct (truthy_some _ Hsrc) as (base & Hbase & Hne).
    exists (normalizeBase base +:+ "/" +:+ rest). split.
    - exists "/pymupdf", PYMUPDF_SOURCE, base, rest.
      split; [cbn; tauto|]. split; [exact Hbase|]. split; [exact Hne|].
      split; [exact Hpath | now left].
    - rewrite H, Hbase. now rewrite targetUrl_of_configured. }
  destruct (JS.startsWith (pathname request) "/gs/") eqn:Hgs.
  { destruct (route_split _ "/gs" Hgs) as [rest Hpath].
    rewrite (route_gs pf env request origin w rest Hpath).
    destruct (proxyRequest_fetched pf request (GS_SOURCE env)
                ("/" +:+ rest) origin w) as [H | [Hsrc H]];
      [now left | right].
    destruct (truthy_some _ Hsrc) as (base & Hbase & Hne).
    exists (normalizeBase base +:+ "/" +:+ rest). split.
    - exists "/gs", GS_SOURCE, base, rest.
      split; [cbn; tauto|]. split; [exact Hbase|]. split; [exact Hne|].
      split; [exact Hpath | now left].
    - rewrite H, Hbase. now rewrite targetUrl_of_configured. }
  destruct (JS.startsWith (pathname request) "/cpdf/") eqn:Hcp.
  { destruct (route_split _ "/cpdf" Hcp) as [rest Hpath].
    rewrite (route_cpdf pf env request origin w rest Hpath).
    destruct (proxyRequest_fetched pf request (CPDF_SOURCE env)
                ("/" +:+ rest) origin w) as [H | [Hsrc H]];
      [now left | right].
    destruct (truthy_some _ Hsrc) as (base & Hbase & Hne).
    exists (normalizeBase base +:+ "/" +:+ rest). split.
    - exists "/cpdf", CPDF_SOURCE, base, rest.
      split; [cbn; tauto|]. split; [exact Hbase|]. split; [exact Hne|].
      split; [exact Hpath | now left].
    - rewrite H, Hbase. now rewrite targetUrl_of_configured. }
  left. unfold route. rewrite Hlo, Hpy, Hgs, Hcp.
  now destruct (String.eqb (pathname request) "/" || String.eqb (pathname request) "/health").
Qed.

End SingleUpstream.

(** X7: the worker is no open relay.  Handling a request contacts no
    upstream at all, or exactly one, and then the URL is the configured base
    of the route the path falls under (without its trailing slash) followed by
    the rest of the request path -- with [.gz] appended for a [.wasm] or
    [.data] file of the LibreOffice route.  Nothing else of the request
    (headers, method, origin) enters the URL. *)
Theorem X7_one_fetch_from_a_configured_base pf env now request w :
  fetched (snd (fetch pf env now request w)) = fetched w \/
  exists url, upstream_target env request url /\
    fetched (snd (fetch pf env now request w)) = (fetched w ++ [url])%list.
Proof.
  destruct (fetch_guard_or_dispatch pf env now request w) as [H | H].
  - left. now rewrite H.
  - rewrite (fetch_reaches_dispatcher pf _ _ _ _ H).
    destruct (route_fetched pf env request (origin_of request)
                (counted env now request w)) as [Hr | (url & Ht & Hr)].
    + left. now rewrite Hr, counted_fetched.
    + right. exists url. split; [exact Ht|]. now rewrite Hr, counted_fetched.
Qed.

(** X8: under the LibreOffice route a request for [name.wasm] or
    [name.data] is answered exactly as the request for [name.wasm.gz] or
    [name.data.gz] with the same method and headers: same response, same
    upstream fetch, same state afterwards. *)
Theorem X8_rewritten_and_direct_gz_agree pf env now request w rest :
  pathname request = "/libreoffice/" +:+ rest ->
  has_suffix rest ".wasm" \/ has_suffix rest ".data" ->
  fetch pf env now (with_pathname request (pathname request +:+ ".gz")) w
  = fetch pf env now request w.
Proof.
  intros Hpath Hsuffix.
  assert (Hroute : forall origin w',
            route pf env (with_pathname request (pathname request +:+ ".gz")) origin w'
            = route pf env request origin w').
  { intros origin w'.
    rewrite (route_libreoffice pf env request origin w' rest)
      by (rewrite Hpath; now rewrite !str_app_cons, !str_app_nil).
    rewrite (route_libreoffice pf env _ origin w' (rest +:+ ".gz"))
      by (cbn [pathname with_pathname]; rewrite Hpath;
          now rewrite !str_app_cons, !str_app_nil).
    rewrite (wasm_or_data_suffix rest Hsuffix).
    replace ("/" +:+ rest +:+ ".gz") with (("/" +:+ rest) +:+ ".gz")
      by now rewrite str_app_assoc.
    destruct (gz_suffix_not_special ("/" +:+ rest)) as (-> & -> & ->).
    cbn [orb]. apply proxyLibreOfficeGz_any_request. }
  unfold fetch. cbn [method req_headers with_pathname].
  destruct (String.eqb (method request) "OPTIONS"); [reflexivity|].
  destruct (negb (isAllowedOrigin (headers_get (req_headers request) "Origin")));
    [reflexivity|].
  destruct (negb (String.eqb (method request) "GET")
            && negb (String.eqb (method request) "HEAD")); [reflexivity|].
  destruct (RATE_LIMIT_KV env); [|apply Hroute].
  change (rateLimiter (with_pathname request (pathname request +:+ ".gz")))
    with (rateLimiter request).
  destruct (rateLimiter request _ now w) as [[limited|] w']; [reflexivity | apply Hroute].
Qed.

Lemma X8_rewritten_and_direct_gz_agree_witness :
  fetch (upstream_always (plain_ok None [])) (env_configured true) 7
    (with_pathname (get_request "/libreoffice/soffice.wasm" ∅)
       ("/libreoffice/soffice.wasm" +:+ ".gz")) fresh_world
  = fetch (upstream_always (plain_ok None [])) (env_configured true) 7
      (get_request "/libreoffice/soffice.wasm" ∅) fresh_world.
Proof.
  apply (X8_rewritten_and_direct_gz_agree (upstream_always (plain_ok None []))
           (env_configured true) 7 (get_request "/libreoffice/soffice.wasm" ∅)
           fresh_world "soffice.wasm").
  - reflexivity.
  - left. now exists "soffice".
Defined.

(** * The edge cache *)

Section EdgeCache.

(** What the dispatcher does with a path depends on the path and the
    configuration alone: one of the two fetchers with a fixed source and
    subpath, or a fixed answer. *)
Lemma route_cases env request :
  (exists source subpath, forall pf request' origin w,
      pathname request' = pathname request ->
      route pf env request' origin w
      = proxyRequest pf request' source subpath origin w) \/
  (exists source subpath, forall pf request' origin w,
      pathname request' = pathname request ->
      route pf env request' origin w
      = proxyLibreOfficeGz pf request' source subpath origin w) \/
  (exists answer : option string -> Response, forall pf request' origin w,
      pathname request' = pathname request ->
      route pf env request' origin w = (answer origin, w)).
Proof.
  destruct (JS.startsWith (pathname request) "/libreoffice/") eqn:Hlo.
  { destruct (route_split _ "/libreoffice" Hlo) as [rest Hpath].
    destruct (JS.endsWith ("/" +:+ rest) ".wasm" || JS.endsWith ("/" +:+ rest) ".data")
      eqn:Hgz; [|destruct (JS.endsWith ("/" +:+ rest) ".gz") eqn:Hdirect].
    - right. left. exists (LIBREOFFICE_SOURCE env), (("/" +:+ rest) +:+ ".gz").
      intros pf request' origin w Heq.
      rewrite (route_libreoffice pf env request' origin w rest) by congruence.
      now rewrite Hgz.
    - right. left. exists (LIBREOFFICE_SOURCE env), ("/" +:+ rest).
      intros pf request' origin w Heq.
      rewrite (route_libreoffice pf env request' origin w rest) by congruence.
      now rewrite Hgz, Hdirect.
    - left. exists (LIBREOFFICE_SOURCE env), ("/" +:+ rest).
      intros pf request' origin w Heq.
      rewrite (route_libreoffice pf env request' origin w rest) by congruence.
      now rewrite Hgz, Hdirect. }
  destruct (JS.startsWith (pathname request) "/pymupdf/") eqn:Hpy.
  { destruct (route_split _ "/pymupdf" Hpy) as [rest Hpath].
    left. exists (PYMUPDF_SOURCE env), ("/" +:+ rest).
    intros pf request' origin w Heq.
    apply (route_pymupdf pf env request' origin w rest). congruence. }
  destruct (JS.startsWith (pathname request) "/gs/") eqn:Hgs.
  { destruct (route_split _ "/gs" Hgs) as [rest Hpath].
    left. exists (GS_SOURCE env), ("/" +:+ rest).
    intros pf request' origin w Heq.
    apply (route_gs pf env request' origin w rest). congruence. }
  destruct (JS.startsWith (pathname request) "/cpdf/") eqn:Hcp.
  { destruct (route_split _ "/cpdf" Hcp) as [rest Hpath].
    left. exists (CPDF_SOURCE env), ("/" +:+ rest).
    intros pf request' origin w Heq.
    apply (route_cpdf pf env request' origin w rest). congruence. }
  right. right.
  exists (fun origin =>
            if String.eqb (pathname request) "/" || String.eqb (pathname request) "/health"
            then json_response 200 origin (health_fields env)
            else json_response 404 origin
                   [("error", JString "Not Found");
                    ("message",
                     JString "Use /libreoffice/*, /pymupdf/*, /gs/*, or /cpdf/* endpoints")]).
  intros pf request' origin w Heq. unfold route. rewrite Heq, Hlo, Hpy, Hgs, Hcp.
  now destruct (String.eqb (pathname request) "/" || String.eqb (pathname request) "/health").
Qed.

Lemma proxyRequest_cache_grows pf request source subpath origin w :
  cache w ⊆ cache (snd (proxyRequest pf request source subpath origin w)).
Proof.
  destruct (proxyRequest_path pf request source subpath origin w); cbn [snd];
    try reflexivity.
  cbn [cache set_cache]. now apply insert_subseteq.
Qed.

Lemma proxyLibreOfficeGz_cache pf request source subpath origin w :
  cache (snd (proxyLibreOfficeGz pf request source subpath origin w)) = cache w.
Proof.
  now destruct (proxyLibreOfficeGz_path pf request source subpath origin w).
Qed.

Lemma route_cache_grows pf env request origin w :
  cache w ⊆ cache (snd (route pf env request origin w)).
Proof.
  destruct (route_cases env request)
    as [(source & subpath & H) | [(source & subpath & H) | (answer & H)]];
    rewrite (H pf request origin w eq_refl).
  - apply proxyRequest_cache_grows.
  - now rewrite proxyLibreOfficeGz_cache.
  - reflexivity.
Qed.

Lemma fetch_cache_grows pf env now request w :
  cache w ⊆ cache (snd (fetch pf env now request w)).
Proof.
  destruct (fetch_guard_or_dispatch pf env now request w) as [H | H].
  - now rewrite H.
  - rewrite (fetch_reaches_dispatcher pf _ _ _ _ H).
    rewrite <- (counted_cache env now request w) at 1.
    apply route_cache_grows.
Qed.

(** The compression-preserving fetcher behaves the same whatever the cache
    holds. *)
Lemma proxyLibreOfficeGz_without_cache pf request source subpath origin w c :
  fst (proxyLibreOfficeGz pf request source subpath origin (set_cache w c))
  = fst (proxyLibreOfficeGz pf request source subpath origin w).
Proof.
  destruct (proxyLibreOfficeGz_path pf request source subpath origin w);
    destruct (proxyLibreOfficeGz_path pf request source subpath origin
                (set_cache w c));
    cbn [fst]; congruence.
Qed.

End EdgeCache.

(** X9: the worker only ever adds to the edge cache: whatever requests
    are served, under whatever upstream behaviour, every entry the cache held
    before is still there afterwards with the same content. *)
Theorem X9_cache_entries_are_kept env arrivals w :
  cache w ⊆ cache (serve_all env arrivals w).
Proof.
  revert w. induction arrivals as [|a arrivals IH]; intros w; [reflexivity|].
  cbn [serve_all]. etransitivity; [|apply IH].
  unfold serve. apply fetch_cache_grows.
Qed.

(** X10: a plain [GET] -- no [Range], no conditional header -- that made
    the worker store an upstream answer is, when it is repeated with the same
    method, path and headers and reaches the dispatcher again, answered with
    status 200 and the same body without contacting the upstream, whatever
    the upstream does by then, as long as the cache still holds what was
    stored. *)
Theorem X10_stored_answer_is_served_again pf pf' env now now' request w w' :
  plain_get request ->
  cache (snd (fetch pf env now request w)) <> cache w ->
  cache (snd (fetch pf env now request w)) ⊆ cache w' ->
  reaches_dispatcher env now' request w' ->
  status (fst (fetch pf' env now' request w')) = 200 /\
  body (fst (fetch pf' env now' request w'))
  = body (fst (fetch pf env now request w)) /\
  fetched (snd (fetch pf' env now' request w')) = fetched w'.
Proof.
  intros _ Hnew Hkept Hreach'.
  destruct (fetch_guard_or_dispatch pf env now request w) as [H | Hreach];
    [now rewrite H in Hnew|].
  rewrite (fetch_reaches_dispatcher pf _ _ _ _ Hreach) in Hnew, Hkept |- *.
  rewrite (fetch_reaches_dispatcher pf' _ _ _ _ Hreach').
  destruct (route_cases env request)
    as [(source & subpath & H) | [(source & subpath & H) | (answer & H)]].
  2:{ rewrite (H pf request _ _ eq_refl) in Hnew.
      now rewrite proxyLibreOfficeGz_cache, counted_cache in Hnew. }
  2:{ rewrite (H pf request _ _ eq_refl) in Hnew. cbn [snd] in Hnew.
      now rewrite counted_cache in Hnew. }
  rewrite (H pf request _ _ eq_refl) in Hnew, Hkept |- *.
  rewrite (H pf' request _ _ eq_refl).
  destruct (JS.truthy source) eqn:Hsrc.
  2:{ rewrite proxyRequest_unconfigured in Hnew by exact Hsrc.
      cbn [snd] in Hnew. now rewrite counted_cache in Hnew. }
  destruct (isAllowedFile subpath) eqn:Hgate.
  2:{ rewrite proxyRequest_forbidden in Hnew by assumption.
      cbn [snd] in Hnew. now rewrite counted_cache in Hnew. }
  revert Hnew Hkept.
  destruct (proxyRequest_path pf request source subpath (origin_of request)
              (counted env now request w)); cbn [fst snd cache set_cache log_fetch];
    rewrite ?counted_cache; intros Hnew Hkept; try (now contradiction Hnew).
  assert (Hhit : cache (counted env now' request w')
                 !! targetUrl_of source subpath = Some (cacheable up)).
  { rewrite counted_cache. eapply lookup_weaken; [|exact Hkept].
    apply lookup_insert_eq. }
  rewrite (proxyRequest_hit _ _ _ _ _ _ Hsrc Hgate _ Hhit). cbn [fst snd].
  split; [reflexivity|]. split; [reflexivity|]. apply counted_fetched.
Qed.

Lemma X10_stored_answer_is_served_again_witness :
  status (fst (fetch (upstream_down "unreachable") (env_configured false) 9
                 (get_request "/gs/gs.js" ∅)
                 (snd (fetch (upstream_always (plain_ok None [])) (env_configured false) 7
                         (get_request "/gs/gs.js" ∅) fresh_world)))) = 200.
Proof.
  refine (proj1 (X10_stored_answer_is_served_again
                   (upstream_always (plain_ok None [])) (upstream_down "unreachable")
                   (env_configured false) 7 9
                   (get_request "/gs/gs.js" ∅)
                   fresh_world
                   (snd (fetch (upstream_always (plain_ok None [])) (env_configured false) 7
                           (get_request "/gs/gs.js" ∅) fresh_world))
                   _ _ _ _)).
  - split; [reflexivity|]. intros name _. reflexivity.
  - intros H. apply (f_equal (fun c => c !! "https://cdn.example.com/gs/gs.js")) in H.
    vm_compute in H. discriminate.
  - reflexivity.
  - split; [now left|]. split; [reflexivity | now left].
Defined.

(** X11: the [.wasm], [.data] and [.gz] files of the LibreOffice route
    never go through the edge cache: the answer is the same whatever the cache
    holds, and the cache is left as it was. *)
Theorem X11_gz_files_bypass_the_cache pf env now request w rest :
  pathname request = "/libreoffice/" +:+ rest ->
  has_suffix rest ".wasm" \/ has_suffix rest ".data" \/ has_suffix rest ".gz" ->
  cache (snd (fetch pf env now request w)) = cache w /\
  forall c, fst (fetch pf env now request (set_cache w c))
            = fst (fetch pf env now request w).
Proof.
  intros Hpath Hsuffix.
  assert (Hroute : exists subpath, forall origin w',
            route pf env request origin w'
            = proxyLibreOfficeGz pf request (LIBREOFFICE_SOURCE env) subpath origin w').
  { assert (Hp : pathname request = "/libreoffice" +:+ "/" +:+ rest)
      by (rewrite Hpath; now rewrite !str_app_cons, !str_app_nil).
    destruct (JS.endsWith ("/" +:+ rest) ".wasm" || JS.endsWith ("/" +:+ rest) ".data")
      eqn:Hgz.
    - exists (("/" +:+ rest) +:+ ".gz"). intros origin w'.
      rewrite (route_libreoffice pf env request origin w' rest Hp). now rewrite Hgz.
    - exists ("/" +:+ rest). intros origin w'.
      rewrite (route_libreoffice pf env request origin w' rest Hp). rewrite Hgz.
      destruct Hsuffix as [Hs | [Hs | [front ->]]];
        [now rewrite wasm_or_data_suffix in Hgz by now left
        |now rewrite wasm_or_data_suffix in Hgz by now right|].
      replace (JS.endsWith ("/" +:+ front +:+ ".gz") ".gz") with true; [reflexivity|].
      symmetry. apply endsWith_spec. exists ("/" +:+ front).
      now rewrite str_app_assoc. }
  destruct Hroute as [subpath Hroute]. split.
  - destruct (fetch_guard_or_dispatch pf env now request w) as [H | H].
    + now rewrite H.
    + rewrite (fetch_reaches_dispatcher pf _ _ _ _ H), Hroute.
      now rewrite proxyLibreOfficeGz_cache, counted_cache.
  - intros c. unfold fetch.
    destruct (String.eqb (method request) "OPTIONS"); [reflexivity|].
    destruct (negb (isAllowedOrigin (headers_get (req_headers request) "Origin")));
      [reflexivity|].
    destruct (negb (String.eqb (method request) "GET")
              && negb (String.eqb (method request) "HEAD")); [reflexivity|].
    destruct (RATE_LIMIT_KV env);
      [|rewrite !Hroute; apply proxyLibreOfficeGz_without_cache].
    unfold rateLimiter. cbn [kv set_cache].
    destruct (RATE_LIMIT_MAX_REQUESTS <=? _); [reflexivity|].
    rewrite !Hroute.
    apply (proxyLibreOfficeGz_without_cache pf request (LIBREOFFICE_SOURCE env) subpath
             _ (set_kv w _) c).
Qed.

Lemma X11_gz_files_bypass_the_cache_witness :
  cache (snd (fetch (upstream_always (plain_ok None [])) (env_configured false) 7
                (get_request "/libreoffice/soffice.wasm" ∅) fresh_world))
  = cache fresh_world.
Proof.
  refine (proj1 (X11_gz_files_bypass_the_cache
                   (upstream_always (plain_ok None [])) (env_configured false) 7
                   (get_request "/libreoffice/soffice.wasm" ∅) fresh_world
                   "soffice.wasm" _ _)).
  - reflexivity.
  - left. now exists "soffice".
Defined.

(** X12: when the upstream cannot be reached (the fetch throws), a request
    that made the worker fetch is answered with status 500 and a JSON body
    whose [error] is [Proxy error] and whose [message] is the message of the
    exception; nothing is stored in the cache. *)
Theorem X12_unreachable_upstream_is_a_proxy_error pf env now request w message :
  (forall url, net_fetch pf url = Throws message) ->
  fetched (snd (fetch pf env now request w)) <> fetched w ->
  fst (fetch pf env now request w)
  = json_response 500 (origin_of request)
      [("error", JString "Proxy error"); ("message", JString message)] /\
  cache (snd (fetch pf env now request w)) = cache w.
Proof.
  intros Hdown Hfetched.
  destruct (fetch_guard_or_dispatch pf env now request w) as [H | Hreach];
    [now rewrite H in Hfetched|].
  rewrite (fetch_reaches_dispatcher pf _ _ _ _ Hreach) in Hfetched |- *.
  destruct (route_cases env request)
    as [(source & subpath & H) | [(source & subpath & H) | (answer & H)]];
    rewrite (H pf request _ _ eq_refl) in Hfetched |- *.
  - destruct (JS.truthy source) eqn:Hsrc.
    2:{ rewrite proxyRequest_unconfigured in Hfetched by exact Hsrc.
        cbn [snd] in Hfetched. now rewrite counted_fetched in Hfetched. }
    destruct (isAllowedFile subpath) eqn:Hgate.
    2:{ rewrite proxyRequest_forbidden in Hfetched by assumption.
        cbn [snd] in Hfetched. now rewrite counted_fetched in Hfetched. }
    destruct (cache (counted env now request w) !! targetUrl_of source subpath)
      as [hit|] eqn:Hcache.
    { rewrite (proxyRequest_hit _ _ _ _ _ _ Hsrc Hgate _ Hcache) in Hfetched.
      cbn [snd] in Hfetched. now rewrite counted_fetched in Hfetched. }
    rewrite (proxyRequest_throws _ _ _ _ _ _ Hsrc Hgate Hcache _ (Hdown _)).
    cbn [fst snd cache log_fetch]. split; [reflexivity | apply counted_cache].
  - destruct (JS.truthy source) eqn:Hsrc.
    2:{ rewrite proxyLibreOfficeGz_unconfigured in Hfetched by exact Hsrc.
        cbn [snd] in Hfetched. now rewrite counted_fetched in Hfetched. }
    rewrite (proxyLibreOfficeGz_throws _ _ _ _ _ _ Hsrc _ (Hdown _)).
    cbn [fst snd cache log_fetch]. split; [reflexivity | apply counted_cache].
  - cbn [snd] in Hfetched. now rewrite counted_fetched in Hfetched.
Qed.

Lemma X12_unreachable_upstream_is_a_proxy_error_witness :
  fst (fetch (upstream_down "unreachable") (env_configured false) 7
         (get_request "/gs/gs.js" ∅) fresh_world)
  = json_response 500 None
      [("error", JString "Proxy error"); ("message", JString "unreachable")].
Proof.
  refine (proj1 (X12_unreachable_upstream_is_a_proxy_error
                   (upstream_down "unreachable") (env_configured false) 7
                   (get_request "/gs/gs.js" ∅) fresh_world "unreachable" _ _)).
  - reflexivity.
  - vm_compute. intros H. apply (f_equal (@length _)) in H. discriminate.
Defined.

(** * The rate-limit store *)

Section RateLimitStore.

Lemma recent_none (now : Z) (l : list Z) :
  (forall t, In t l -> RATE_LIMIT_WINDOW_MS <= now - t) -> recent now l = [].
Proof.
  unfold recent. induction l as [|t l IH]; intros H; [reflexivity|].
  rewrite filter_cons. destruct (decide (now - t < RATE_LIMIT_WINDOW_MS)) as [Hin|_].
  - exfalso. specialize (H t (or_introl eq_refl)). lia.
  - apply IH. intros t' Ht'. apply H. now right.
Qed.

Lemma rateLimitKey_inj (request request' : Request) :
  rateLimitKey request = rateLimitKey request' ->
  JS.or_else (headers_get (req_headers request) "CF-Connecting-IP") "unknown"
  = JS.or_else (headers_get (req_headers request') "CF-Connecting-IP") "unknown".
Proof.
  unfold rateLimitKey. cbv zeta. intros H.
  rewrite !str_app_cons, !str_app_nil in H. congruence.
Qed.

(** Only the record of the requesting client is written. *)
Lemma fetch_other_keys pf env now request w key :
  key <> rateLimitKey request ->
  kv (snd (fetch pf env now request w)) !! key = kv w !! key.
Proof.
  intros Hkey. destruct (fetch_guard_or_dispatch pf env now request w) as [H | H].
  - now rewrite H.
  - rewrite (fetch_reaches_dispatcher pf _ _ _ _ H), route_kv. unfold counted.
    destruct (RATE_LIMIT_KV env); [|reflexivity].
    cbn [kv set_kv]. now apply lookup_insert_ne.
Qed.

Lemma fetch_bounded pf env now request w :
  bounded_store (kv w) -> bounded_store (kv (snd (fetch pf env now request w))).
Proof.
  intros Hb. destruct (fetch_guard_or_dispatch pf env now request w) as [H | H].
  - now rewrite H.
  - rewrite (fetch_reaches_dispatcher pf _ _ _ _ H), route_kv.
    destruct H as (_ & _ & Hbudget). unfold counted.
    destruct (RATE_LIMIT_KV env) eqn:Hkv; [|exact Hb].
    destruct Hbudget as [Hoff | Hfree]; [congruence|].
    cbn [kv set_kv]. intros key record.
    destruct (decide (key = rateLimitKey request)) as [-> | Hne].
    + rewrite lookup_insert_eq. intros [= <-]. cbn [requests].
      rewrite List.length_app. cbn [length]. lia.
    + rewrite lookup_insert_ne by congruence. apply Hb.
Qed.

End RateLimitStore.

(** X13: no record of the rate-limit store ever holds more than 100
    timestamps: if that is so before, it is so after any sequence of requests
    (the limiter drops the expired timestamps before it appends, and appends
    only below the budget). *)
Theorem X13_records_stay_within_the_budget env arrivals w :
  bounded_store (kv w) -> bounded_store (kv (serve_all env arrivals w)).
Proof.
  revert w. induction arrivals as [|a arrivals IH]; intros w Hb; [exact Hb|].
  cbn [serve_all]. apply IH. unfold serve. now apply fetch_bounded.
Qed.

Lemma X13_records_stay_within_the_budget_witness :
  bounded_store (kv (serve_all (env_configured true) (burst ++ [after_burst])%list
                       fresh_world)).
Proof.
  apply (X13_records_stay_within_the_budget (env_configured true)
           (burst ++ [after_burst])%list fresh_world).
  intros key record H. cbn [kv fresh_world] in H. rewrite lookup_empty in H.
  discriminate.
Defined.

(** X14: a client comes back into its budget by waiting: when every
    timestamp stored for the client is at least 60 seconds old, its [GET] or
    [HEAD] from an admitted origin is dispatched -- however many timestamps the
    record holds -- and the record is replaced by the single timestamp of this
    request, with a time to live of 120 seconds. *)
Theorem X14_budget_returns_after_the_window pf env now request w :
  RATE_LIMIT_KV env = true ->
  passes_guards request ->
  (forall t, In t (stored_requests (kv w) (rateLimitKey request)) ->
             RATE_LIMIT_WINDOW_MS <= now - t) ->
  fetch pf env now request w
  = route pf env request (origin_of request)
      (set_kv w (<[rateLimitKey request :=
                     {| requests := [now]; expirationTtl := 120 |}]> (kv w))).
Proof.
  intros Hkv [Hm Ho] Hold. pose proof (recent_none now _ Hold) as Hnone.
  rewrite (fetch_reaches_dispatcher pf env now request w).
  - unfold counted. now rewrite Hkv, Hnone.
  - split; [exact Hm|]. split; [exact Ho|]. right. now rewrite Hnone.
Qed.

Lemma X14_budget_returns_after_the_window_witness :
  fetch (upstream_always (plain_ok None [])) (env_configured true) 70000
    (get_request "/health" ∅) busy_world
  = route (upstream_always (plain_ok None [])) (env_configured true)
      (get_request "/health" ∅) (origin_of (get_request "/health" ∅))
      (set_kv busy_world
         (<[rateLimitKey (get_request "/health" ∅) :=
              {| requests := [70000]; expirationTtl := 120 |}]> (kv busy_world))).
Proof.
  apply (X14_budget_returns_after_the_window (upstream_always (plain_ok None []))
           (env_configured true) 70000 (get_request "/health" ∅) busy_world).
  - reflexivity.
  - split; [now left | reflexivity].
  - intros t Ht.
    assert (E : stored_requests (kv busy_world) (rateLimitKey (get_request "/health" ∅))
                = replicate 100 1000) by (vm_compute; reflexivity).
    rewrite E in Ht. apply list_elem_of_In, elem_of_replicate_inv in Ht. subst t.
    unfold RATE_LIMIT_WINDOW_MS. lia.
Defined.

(** X15: clients are counted apart: a request from one client address
    leaves the record of every client with another address (or with none)
    untouched, so it never uses up their budget. *)
Theorem X15_clients_are_counted_apart pf env now now' request request' w :
  JS.or_else (headers_get (req_headers request) "CF-Connecting-IP") "unknown"
  <> JS.or_else (headers_get (req_headers request') "CF-Connecting-IP") "unknown" ->
  kv (snd (fetch pf env now request w)) !! rateLimitKey request'
  = kv w !! rateLimitKey request' /\
  (within_budget env now' request' (snd (fetch pf env now request w))
   <-> within_budget env now' request' w).
Proof.
  intros Hip.
  assert (Hkey : kv (snd (fetch pf env now request w)) !! rateLimitKey request'
                 = kv w !! rateLimitKey request').
  { apply fetch_other_keys. intros H. apply Hip. symmetry.
    now apply rateLimitKey_inj. }
  split; [exact Hkey|]. unfold within_budget, stored_requests. now rewrite Hkey.
Qed.

Lemma X15_clients_are_counted_apart_witness :
  kv (snd (fetch (upstream_always (plain_ok None [])) (env_configured true) 7
             (request_from "203.0.113.7" "/gs/gs.js") busy_world))
  !! rateLimitKey (get_request "/health" ∅)
  = kv busy_world !! rateLimitKey (get_request "/health" ∅).
Proof.
  refine (proj1 (X15_clients_are_counted_apart (upstream_always (plain_ok None []))
                   (env_configured true) 7 8
                   (request_from "203.0.113.7" "/gs/gs.js") (get_request "/health" ∅)
                   busy_world _)).
  vm_compute. discriminate.
Defined.

(** X16: without the [RATE_LIMIT_KV] binding the handler keeps no record
    of its clients and does not look at the clock: the store is left as it
    was and the outcome is the same at any time. *)
Theorem X16_no_binding_no_rate_limit pf env now now' request w :
  RATE_LIMIT_KV env = false ->
  kv (snd (fetch pf env now request w)) = kv w /\
  fetch pf env now' request w = fetch pf env now request w.
Proof.
  intros Hkv. split.
  - destruct (fetch_guard_or_dispatch pf env now request w) as [H | H].
    + now rewrite H.
    + rewrite (fetch_reaches_dispatcher pf _ _ _ _ H), route_kv.
      unfold counted. now rewrite Hkv.
  - unfold fetch. now rewrite Hkv.
Qed.

Lemma X16_no_binding_no_rate_limit_witness :
  kv (snd (fetch (upstream_always (plain_ok None [])) (env_configured false) 7
             (get_request "/gs/gs.js" ∅) busy_world))
  = kv busy_world.
Proof.
  refine (proj1 (X16_no_binding_no_rate_limit (upstream_always (plain_ok None []))
                   (env_configured false) 7 8 (get_request "/gs/gs.js" ∅)
                   busy_world _)).
  reflexivity.
Defined.

(** * Extensions and content types *)

Section Extensions.

Lemma lower_ascii_dot (a : ascii) :
  Ascii.eqb (JS.lower_ascii a) "." = Ascii.eqb a ".".
Proof. destruct a as [[] [] [] [] [] [] [] []]; reflexivity. Qed.

Lemma includes_toLowerCase_dot (s : string) :
  JS.includes (JS.toLowerCase s) "." = JS.includes s ".".
Proof.
  induction s as [|a s IH]; [reflexivity|].
  cbn [JS.toLowerCase]. now rewrite !includes_dot_cons, lower_ascii_dot, IH.
Qed.

(** The extension is the lowercased text from the last dot, or the whole
    lowercased path when there is no dot ([lastIndexOf] gives -1 and
    [substring(-1)] the whole string). *)
Lemma extension_text_cases (p : string) :
  (exists front e, p = front +:+ "." +:+ e /\ JS.includes e "." = false /\
                   extension_text p = "." +:+ JS.toLowerCase e) \/
  (JS.includes p "." = false /\ extension_text p = JS.toLowerCase p).
Proof.
  destruct (JS.includes p ".") eqn:Hdot.
  - left. destruct (last_dot_split p Hdot) as (front & e & -> & He).
    exists front, e. split; [reflexivity|]. split; [exact He|].
    unfold extension_text. now rewrite extension_from_last_dot, toLowerCase_dot.
  - right. split; [reflexivity|].
    unfold extension_text, JS.lastIndexOf.
    now rewrite lastIndexOf_from_absent.
Qed.

Lemma extension_one_dot (p : string) :
  JS.includes (JS.drop 1 (extension_text p)) "." = false.
Proof.
  destruct (extension_text_cases p) as [(front & e & _ & He & ->) | [Hno ->]].
  - rewrite str_app_cons, str_app_nil. cbn [JS.drop].
    now rewrite includes_toLowerCase_dot.
  - rewrite <- includes_toLowerCase_dot in Hno.
    destruct (JS.toLowerCase p) as [|a s]; [reflexivity|].
    rewrite includes_dot_cons in Hno. now apply orb_false_iff in Hno as [_ Hs].
Qed.

Lemma isAllowedFile_by_extension (p : string) :
  isAllowedFile p
  = if list_includes ALLOWED_EXTENSIONS (extension_text p) then true
    else if (negb (JS.includes p ".") || JS.endsWith p "/")%bool then true
    else false.
Proof. reflexivity. Qed.

Lemma getContentType_by_extension (p : string) :
  getContentType p
  = JS.or_else (assoc contentTypes (extension_text p)) "application/octet-stream".
Proof. reflexivity. Qed.

Lemma toLowerCase_split (p x y : string) :
  JS.toLowerCase p = x +:+ y ->
  exists a b, p = a +:+ b /\ JS.toLowerCase a = x /\ JS.toLowerCase b = y.
Proof.
  revert p. induction x as [|c x IH]; intros p H.
  - exists "", p. now rewrite str_app_nil in *.
  - rewrite str_app_cons in H. destruct p as [|d p]; [discriminate|].
    cbn [JS.toLowerCase] in H. injection H as Hd Hp.
    destruct (IH p Hp) as (a & b & -> & Ha & Hb).
    exists (String d a), b. rewrite str_app_cons. cbn [JS.toLowerCase].
    now rewrite Hd, Ha.
Qed.

(** A path whose lowercased name ends with a single-dot extension has that
    extension. *)
Lemma suffix_extension (p ext : string) :
  JS.startsWith ext "." = true ->
  JS.includes (JS.drop 1 ext) "." = false ->
  has_suffix (JS.toLowerCase p) ext ->
  extension_text p = ext.
Proof.
  intros [e ->]%startsWith_spec He [front H].
  rewrite str_app_cons, str_app_nil in He. cbn [JS.drop] in He.
  destruct (toLowerCase_split _ _ _ H) as (a & b & -> & _ & Hb).
  rewrite str_app_cons, str_app_nil in Hb.
  destruct b as [|c e0]; [discriminate|].
  cbn [JS.toLowerCase] in Hb. injection Hb as Hc He0.
  assert (c = "."%char) as ->.
  { apply Ascii.eqb_eq. rewrite <- lower_ascii_dot, Hc. reflexivity. }
  replace (a +:+ String "." e0) with (a +:+ "." +:+ e0) by reflexivity.
  unfold extension_text. rewrite extension_from_last_dot, toLowerCase_dot.
  - now rewrite He0.
  - now rewrite <- includes_toLowerCase_dot, He0.
Qed.

Lemma no_type_without_dot (key : string) :
  JS.includes key "." = false -> assoc contentTypes key = None.
Proof.
  intros H. cbn [assoc contentTypes].
  repeat match goal with
         | |- context [String.eqb ?k key] =>
             destruct (String.eqb_spec k key) as [E | _];
             [rewrite <- E in H; vm_compute in H; discriminate|]
         end.
  reflexivity.
Qed.

End Extensions.

(** X17: the file-type gate in effect: a path is admitted exactly when
    its extension (the lowercased text from the last dot) is one of the eleven
    single-dot entries of the allow-list, or it has no dot, or it ends in a
    slash.  The entries [.asm.js] and [.worker.js] never decide: no extension
    holds two dots (such files pass through [.js]). *)
Theorem X17_gate_decides_by_single_dot_extensions (p : string) :
  (isAllowedFile p = true <->
   In (extension_text p) effective_extensions \/
   ~ contains p "." \/ has_suffix p "/") /\
  extension_text p <> ".asm.js" /\ extension_text p <> ".worker.js".
Proof.
  pose proof (extension_one_dot p) as Hone.
  assert (Hdead : extension_text p <> ".asm.js" /\ extension_text p <> ".worker.js").
  { split; intros E; rewrite E in Hone; vm_compute in Hone; discriminate. }
  split; [|exact Hdead]. destruct Hdead as [Hasm Hworker].
  rewrite isAllowedFile_by_extension.
  destruct (list_includes ALLOWED_EXTENSIONS (extension_text p)) eqn:Hext.
  - split; [intros _ | reflexivity]. left.
    apply list_includes_spec in Hext. unfold ALLOWED_EXTENSIONS in Hext.
    unfold effective_extensions. cbn [In] in Hext |- *.
    repeat (destruct Hext as [E | Hext]; [first [tauto | congruence]|]).
    contradiction.
  - assert (Hnot : ~ In (extension_text p) effective_extensions).
    { intros Hin. apply not_true_iff_false in Hext. apply Hext.
      apply list_includes_spec. unfold effective_extensions in Hin.
      unfold ALLOWED_EXTENSIONS. cbn [In] in Hin |- *. tauto. }
    destruct (JS.includes p ".") eqn:Hdot; cbn [negb orb].
    + destruct (JS.endsWith p "/") eqn:Hslash.
      * split; [intros _ | reflexivity]. right. right. now apply endsWith_spec.
      * split; [discriminate|]. intros [Hin | [Hno | Hs]].
        -- contradiction.
        -- exfalso. apply Hno. now apply includes_spec.
        -- apply endsWith_spec in Hs. congruence.
    + split; [intros _ | reflexivity]. right. left. now apply not_contains_iff.
Qed.

(** X18: the content type goes by the extension, whatever the case of the
    letters: a path whose lowercased name ends with a key of the table is
    served with that key's type -- and every such path passes the file-type
    gate. *)
Theorem X18_content_type_by_extension (p ext type : string) :
  In (ext, type) contentTypes ->
  has_suffix (JS.toLowerCase p) ext ->
  getContentType p = type /\ isAllowedFile p = true.
Proof.
  intros Hin Hsuf.
  assert (Hkey : JS.startsWith ext "." = true /\
                 JS.includes (JS.drop 1 ext) "." = false /\
                 assoc contentTypes ext = Some type /\
                 type <> "" /\
                 list_includes ALLOWED_EXTENSIONS ext = true).
  { unfold contentTypes in Hin. cbn [In] in Hin.
    repeat (destruct Hin as [[= <- <-] | Hin];
            [repeat split; discriminate|]).
    contradiction. }
  destruct Hkey as (Hdot & Hone & Htype & Hne & Hok).
  rewrite getContentType_by_extension, isAllowedFile_by_extension.
  rewrite (suffix_extension p ext Hdot Hone Hsuf), Htype, Hok.
  split; [|reflexivity]. cbn [JS.or_else].
  apply String.eqb_neq in Hne. now rewrite Hne.
Qed.

Lemma X18_content_type_by_extension_witness :
  getContentType "/pymupdf/Module.WASM" = "application/wasm" /\
  isAllowedFile "/pymupdf/Module.WASM" = true.
Proof.
  apply (X18_content_type_by_extension "/pymupdf/Module.WASM" ".wasm"
           "application/wasm").
  - unfold contentTypes. cbn [In]. tauto.
  - now exists "/pymupdf/module".
Defined.

(** X19: a path that begins with a slash -- as every path the fetchers
    hand on does -- and has no dot passes the file-type gate and is served as
    [application/octet-stream]. *)
Theorem X19_extensionless_path_is_octet_stream (p : string) :
  has_prefix p "/" ->
  ~ contains p "." ->
  isAllowedFile p = true /\ getContentType p = "application/octet-stream".
Proof.
  intros _ Hno. split.
  - apply isAllowedFile_spec. now right; left.
  - apply not_contains_iff in Hno.
    destruct (extension_text_cases p) as [(front & e & -> & _) | [_ E]].
    + exfalso. apply not_contains_iff in Hno. apply Hno. now exists front, e.
    + rewrite getContentType_by_extension, E, no_type_without_dot;
        [reflexivity | now rewrite includes_toLowerCase_dot].
Qed.

Lemma X19_extensionless_path_is_octet_stream_witness :
  isAllowedFile "/gs/LICENSE" = true /\
  getContentType "/gs/LICENSE" = "application/octet-stream".
Proof.
  apply (X19_extensionless_path_is_octet_stream "/gs/LICENSE").
  - now exists "gs/LICENSE".
  - apply not_contains_iff. reflexivity.
Defined.

(** * Origins and base URLs *)

Section OriginsAndBases.

Lemma slice_0_minus1_slash (b : string) : JS.slice_0_minus1 (b +:+ "/") = b.
Proof.
  induction b as [|a b IH]; [reflexivity|].
  rewrite str_app_cons. cbn [JS.slice_0_minus1]. rewrite IH.
  destruct b; reflexivity.
Qed.

Lemma normalizeBase_slash (b : string) :
  ~ has_suffix b "/" -> normalizeBase (b +:+ "/") = normalizeBase b.
Proof.
  intros Hno. unfold normalizeBase.
  rewrite endsWith_intro, slice_0_minus1_slash.
  destruct (JS.endsWith b "/") eqn:E; [|reflexivity].
  now apply endsWith_spec in E.
Qed.

Lemma or_else_empty (s : string) : JS.or_else (Some s) "" = s.
Proof. cbn [JS.or_else]. now destruct (String.eqb_spec s ""). Qed.

Lemma targetUrl_of_slash (b subpath : string) :
  ~ has_suffix b "/" ->
  targetUrl_of (Some (b +:+ "/")) subpath = targetUrl_of (Some b) subpath.
Proof.
  intros Hno. unfold targetUrl_of. now rewrite !or_else_empty, normalizeBase_slash.
Qed.

Lemma truthy_slash (b : string) :
  b <> "" -> JS.truthy (Some (b +:+ "/")) = true /\ JS.truthy (Some b) = true.
Proof.
  destruct b as [|a b]; [congruence|]. intros _. now rewrite str_app_cons.
Qed.

End OriginsAndBases.

(** X20: the origin guard matches by prefix: every origin that begins
    with an allow-listed origin is admitted, whatever follows (a port, a path,
    or more letters of a longer host name). *)
Theorem X20_origin_guard_matches_by_prefix (allowed rest : string) :
  In allowed ALLOWED_ORIGINS ->
  isAllowedOrigin (Some (allowed +:+ rest)) = true.
Proof.
  intros Hin. unfold isAllowedOrigin.
  assert (Hne : String.eqb (allowed +:+ rest) "" = false).
  { unfold ALLOWED_ORIGINS in Hin. cbn [In] in Hin.
    destruct Hin as [<- | [<- | [<- | []]]]; now rewrite str_app_cons. }
  cbn [JS.truthy JS.or_else]. rewrite Hne. cbn [negb].
  apply existsb_exists. exists allowed. split; [exact Hin|].
  apply startsWith_spec. exists rest.
  unfold ALLOWED_ORIGINS in Hin. cbn [In] in Hin.
  destruct Hin as [<- | [<- | [<- | []]]]; reflexivity.
Qed.

Lemma X20_origin_guard_matches_by_prefix_witness :
  isAllowedOrigin (Some ("https://bentopdf.com" +:+ ".example.org")) = true.
Proof.
  apply (X20_origin_guard_matches_by_prefix "https://bentopdf.com" ".example.org").
  unfold ALLOWED_ORIGINS. cbn [In]. tauto.
Defined.

(** X21: one trailing slash of a configured base URL makes no difference:
    both fetchers behave the same for the base with and without it. *)
Theorem X21_trailing_slash_of_the_base_is_ignored
  pf request (b subpath : string) origin w :
  b <> "" -> ~ has_suffix b "/" ->
  proxyRequest pf request (Some (b +:+ "/")) subpath origin w
  = proxyRequest pf request (Some b) subpath origin w /\
  proxyLibreOfficeGz pf request (Some (b +:+ "/")) subpath origin w
  = proxyLibreOfficeGz pf request (Some b) subpath origin w.
Proof.
  intros Hne Hno. destruct (truthy_slash b Hne) as [Hs Hb].
  pose proof (targetUrl_of_slash b subpath Hno) as Hurl.
  unfold proxyRequest, proxyLibreOfficeGz. now rewrite Hs, Hb, Hurl.
Qed.

Lemma X21_trailing_slash_of_the_base_is_ignored_witness :
  proxyRequest (upstream_always (plain_ok None [])) (get_request "/gs/gs.js" ∅)
    (Some ("https://cdn.example.com/gs" +:+ "/")) "/gs.js" None fresh_world
  = proxyRequest (upstream_always (plain_ok None [])) (get_request "/gs/gs.js" ∅)
      (Some "https://cdn.example.com/gs") "/gs.js" None fresh_world.
Proof.
  refine (proj1 (X21_trailing_slash_of_the_base_is_ignored
                   (upstream_always (plain_ok None [])) (get_request "/gs/gs.js" ∅)
                   "https://cdn.example.com/gs" "/gs.js" None fresh_world _ _)).
  - discriminate.
  - intros H. apply endsWith_spec in H. discriminate.
Defined.

(** * The declared length *)

Section DeclaredLength.

Lemma digit_value_char (d : N) :
  (d < 10)%N -> JS.digit_value (pretty_N_char d) = Some (Z.of_N d).
Proof.
  intros H.
  assert (d = 0 \/ d = 1 \/ d = 2 \/ d = 3 \/ d = 4 \/ d = 5 \/ d = 6 \/ d = 7
          \/ d = 8 \/ d = 9)%N as Hd by lia.
  repeat (destruct Hd as [-> | Hd]; [reflexivity|]). now subst d.
Qed.

(** The decimal printer writes digits that read back as the number. *)
Lemma digits_value_pretty (x : N) (s : string) :
  digits_value (pretty_N_go x s) 0 = digits_value s (Z.of_N x).
Proof.
  revert s. induction (N.lt_wf_0 x) as [x _ IH]. intros s.
  destruct (N.eq_dec x 0%N) as [-> | Hx]; [now rewrite pretty_N_go_0|].
  rewrite pretty_N_go_step by lia.
  rewrite IH by (apply N.div_lt; lia).
  cbn [digits_value].
  rewrite digit_value_char by (apply N.mod_lt; lia).
  f_equal. pose proof (N.div_mod x 10%N ltac:(lia)) as Hdiv. lia.
Qed.

Lemma parseInt_pretty (n : nat) :
  JS.parseInt (pretty (Z.of_nat n)) = Some (Z.of_nat n).
Proof.
  destruct (Z.of_nat n) as [|p|p] eqn:E; [reflexivity| |lia].
  assert (Hdigits : digits_value (pretty (Z.pos p)) 0 = Some (Z.pos p)).
  { unfold pretty, pretty_Z, pretty_positive, pretty, pretty_N.
    destruct (decide (N.pos p = 0%N)) as [Hz|_]; [discriminate Hz|].
    now rewrite digits_value_pretty. }
  apply parseInt_decimal; [|exact Hdigits].
  intros Hempty. rewrite Hempty in Hdigits. discriminate Hdigits.
Qed.

End DeclaredLength.

(** X22: whenever the worker sends a payload, the [Content-Length] it
    writes is a decimal number that [parseInt] -- the reading the worker
    applies to an upstream's [Content-Length] -- reads back as the number of
    bytes of the body. *)
Theorem X22_declared_length_reads_back pf env now request w bytes :
  body (fst (fetch pf env now request w)) = BodyBytes bytes ->
  exists s,
    headers (fst (fetch pf env now request w)) !! "Content-Length" = Some s /\
    JS.parseInt s = Some (Z.of_nat (length bytes)).
Proof.
  intros Hbody. pose proof (labelled_fetch pf env now request w) as H.
  unfold labelled in H. rewrite Hbody in H. destruct H as [_ Hlen].
  exists (byteLength_toString bytes). split; [exact Hlen|].
  apply parseInt_pretty.
Qed.

Lemma X22_declared_length_reads_back_witness :
  exists s,
    headers (fst (fetch (upstream_always partial_content) (env_configured false) 7
                    (get_request "/gs/gs.wasm" ∅) fresh_world))
    !! "Content-Length" = Some s /\
    JS.parseInt s = Some (Z.of_nat (length [x00; x61])).
Proof.
  apply (X22_declared_length_reads_back (upstream_always partial_content)
           (env_configured false) 7 (get_request "/gs/gs.wasm" ∅) fresh_world
           [x00; x61]).
  reflexivity.
Defined.

(** * What is asked of an upstream *)

Section AdmittedPaths.

Lemma includes_dot_app (a b : string) :
  JS.includes (a +:+ b) "." = JS.includes a "." || JS.includes b ".".
Proof.
  induction a as [|x a IH]; [now rewrite str_app_nil|].
  rewrite str_app_cons, !includes_dot_cons, IH. now rewrite orb_assoc.
Qed.

Lemma toLowerCase_app (a b : string) :
  JS.toLowerCase (a +:+ b) = JS.toLowerCase a +:+ JS.toLowerCase b.
Proof.
  induction a as [|x a IH]; [now rewrite !str_app_nil|].
  rewrite str_app_cons. cbn [JS.toLowerCase]. now rewrite IH, str_app_cons.
Qed.

(** The gate decides the same for a path under a route prefix (which has no
    dot) as for the rest of the path. *)
Lemma isAllowedFile_under_prefix (prefix s : string) :
  JS.includes prefix "." = false ->
  isAllowedFile s = true -> isAllowedFile (prefix +:+ s) = true.
Proof.
  intros Hprefix. rewrite !isAllowedFile_spec.
  intros [(front & e & -> & He & Hin) | [Hno | [front ->]]].
  - left. exists (prefix +:+ front), e. now rewrite str_app_assoc.
  - right. left. apply not_contains_iff. apply not_contains_iff in Hno.
    now rewrite includes_dot_app, Hprefix, Hno.
  - right. right. exists (prefix +:+ front). now rewrite str_app_assoc.
Qed.

Lemma allowed_by_suffix (p ext : string) :
  In ext effective_extensions -> has_suffix p ext -> isAllowedFile p = true.
Proof.
  intros Hin [front ->].
  assert (Hkey : JS.startsWith ext "." = true /\
                 JS.includes (JS.drop 1 ext) "." = false /\
                 JS.toLowerCase ext = ext /\
                 list_includes ALLOWED_EXTENSIONS ext = true).
  { unfold effective_extensions in Hin. cbn [In] in Hin.
    repeat (destruct Hin as [<- | Hin]; [repeat split|]). contradiction. }
  destruct Hkey as (Hdot & Hone & Hlow & Hok).
  rewrite isAllowedFile_by_extension, (suffix_extension _ ext Hdot Hone), Hok;
    [reflexivity|].
  exists (JS.toLowerCase front). now rewrite toLowerCase_app, Hlow.
Qed.

Lemma proxyRequest_fetch_admitted pf request source subpath origin w :
  fetched (snd (proxyRequest pf request source subpath origin w)) <> fetched w ->
  isAllowedFile subpath = true.
Proof.
  intros H. destruct (JS.truthy source) eqn:Hsrc.
  2:{ now rewrite proxyRequest_unconfigured in H by exact Hsrc. }
  destruct (isAllowedFile subpath) eqn:Hgate; [reflexivity|].
  now rewrite proxyRequest_forbidden in H by assumption.
Qed.

Lemma route_fetch_admitted pf env request origin w :
  fetched (snd (route pf env request origin w)) <> fetched w ->
  isAllowedFile (pathname request) = true.
Proof.
  destruct (JS.startsWith (pathname request) "/libreoffice/") eqn:Hlo.
  { destruct (route_split _ "/libreoffice" Hlo) as [rest Hpath].
    rewrite (route_libreoffice pf env request origin w rest Hpath), Hpath.
    destruct (JS.endsWith ("/" +:+ rest) ".wasm") eqn:Hwasm.
    { intros _. apply (allowed_by_suffix _ ".wasm").
      - unfold effective_extensions. cbn [In]. tauto.
      - now apply suffix_after_prefix. }
    destruct (JS.endsWith ("/" +:+ rest) ".data") eqn:Hdata.
    { intros _. apply (allowed_by_suffix _ ".data").
      - unfold effective_extensions. cbn [In]. tauto.
      - now apply suffix_after_prefix. }
    cbn [orb].
    destruct (JS.endsWith ("/" +:+ rest) ".gz") eqn:Hgz.
    { intros _. apply (allowed_by_suffix _ ".gz").
      - unfold effective_extensions. cbn [In]. tauto.
      - now apply suffix_after_prefix. }
    intros H%proxyRequest_fetch_admitted.
    now apply isAllowedFile_under_prefix. }
  destruct (JS.startsWith (pathname request) "/pymupdf/") eqn:Hpy.
  { destruct (route_split _ "/pymupdf" Hpy) as [rest Hpath].
    rewrite (route_pymupdf pf env request origin w rest Hpath), Hpath.
    intros H%proxyRequest_fetch_admitted.
    now apply isAllowedFile_under_prefix. }
  destruct (JS.startsWith (pathname request) "/gs/") eqn:Hgs.
  { destruct (route_split _ "/gs" Hgs) as [rest Hpath].
    rewrite (route_gs pf env request origin w rest Hpath), Hpath.
    intros H%proxyRequest_fetch_admitted.
    now apply isAllowedFile_under_prefix. }
  destruct (JS.startsWith (pathname request) "/cpdf/") eqn:Hcp.
  { destruct (route_split _ "/cpdf" Hcp) as [rest Hpath].
    rewrite (route_cpdf pf env request origin w rest Hpath), Hpath.
    intros H%proxyRequest_fetch_admitted.
    now apply isAllowedFile_under_prefix. }
  unfold route. rewrite Hlo, Hpy, Hgs, Hcp.
  now destruct (String.eqb (pathname request) "/" || String.eqb (pathname request) "/health").
Qed.

End AdmittedPaths.

(** X23: an upstream is contacted only for a request path that the
    file-type gate admits -- also on the LibreOffice [.wasm], [.data] and
    [.gz] paths, where the handler does not call the gate. *)
Theorem X23_only_admitted_paths_are_fetched pf env now request w :
  fetched (snd (fetch pf env now request w)) <> fetched w ->
  isAllowedFile (pathname request) = true.
Proof.
  intros H. destruct (fetch_guard_or_dispatch pf env now request w) as [E | Hreach];
    [now rewrite E in H|].
  rewrite (fetch_reaches_dispatcher pf _ _ _ _ Hreach) in H.
  apply (route_fetch_admitted pf env request (origin_of request)
           (counted env now request w)).
  now rewrite counted_fetched.
Qed.

Lemma X23_only_admitted_paths_are_fetched_witness :
  isAllowedFile (pathname (get_request "/libreoffice/soffice.data" ∅)) = true.
Proof.
  apply (X23_only_admitted_paths_are_fetched (upstream_always (plain_ok None []))
           (env_configured true) 7 (get_request "/libreoffice/soffice.data" ∅)
           fresh_world).
  vm_compute. intros H. apply (f_equal (@length _)) in H. discriminate.
Defined.

(** X24: the expiry of a record goes unnoticed.  Records are written with
    a time to live of 120 seconds, twice the window: once every timestamp of
    the client's record is at least 120 seconds old, the handler answers and
    leaves the state exactly as if the store had already dropped the
    record. *)
Theorem X24_expired_record_goes_unnoticed pf env now request w :
  RATE_LIMIT_KV env = true ->
  passes_guards request ->
  (forall t, In t (stored_requests (kv w) (rateLimitKey request)) ->
             120 * 1000 <= now - t) ->
  fetch pf env now request (set_kv w (delete (rateLimitKey request) (kv w)))
  = fetch pf env now request w.
Proof.
  intros Hkv [Hm Ho] Hold.
  assert (Hnone : recent now (stored_requests (kv w) (rateLimitKey request)) = []).
  { apply recent_none. intros t Ht. specialize (Hold t Ht).
    unfold RATE_LIMIT_WINDOW_MS. lia. }
  assert (Hgone : stored_requests (delete (rateLimitKey request) (kv w))
                    (rateLimitKey request) = []).
  { unfold stored_requests. now rewrite lookup_delete_eq. }
  rewrite (fetch_reaches_dispatcher pf env now request w).
  2:{ split; [exact Hm|]. split; [exact Ho|]. right. now rewrite Hnone. }
  rewrite (fetch_reaches_dispatcher pf env now request (set_kv w _)).
  2:{ split; [exact Hm|]. split; [exact Ho|]. right. cbn [kv set_kv].
      now rewrite Hgone. }
  f_equal. unfold counted. rewrite Hkv. cbn [kv set_kv].
  rewrite Hgone, Hnone. unfold set_kv. cbn [kv cache fetched].
  now rewrite insert_delete_eq.
Qed.

Lemma X24_expired_record_goes_unnoticed_witness :
  fetch (upstream_always (plain_ok None [])) (env_configured true) 130000
    (get_request "/health" ∅)
    (set_kv busy_world (delete (rateLimitKey (get_request "/health" ∅)) (kv busy_world)))
  = fetch (upstream_always (plain_ok None [])) (env_configured true) 130000
      (get_request "/health" ∅) busy_world.
Proof.
  apply (X24_expired_record_goes_unnoticed (upstream_always (plain_ok None []))
           (env_configured true) 130000 (get_request "/health" ∅) busy_world).
  - reflexivity.
  - split; [now left | reflexivity].
  - intros t Ht.
    assert (E : stored_requests (kv busy_world) (rateLimitKey (get_request "/health" ∅))
                = replicate 100 1000) by (vm_compute; reflexivity).
    rewrite E in Ht. apply list_elem_of_In, elem_of_replicate_inv in Ht. subst t.
    lia.
Defined.

(** * The budget of a client over time *)

Section SlidingWindow.

Lemma dispatches_spec env now request w :
  dispatches env now request w = true <-> reaches_dispatcher env now request w.
Proof.
  unfold dispatches, reaches_dispatcher, within_budget.
  rewrite !andb_true_iff, !orb_true_iff, !String.eqb_eq, negb_true_iff, Z.ltb_lt.
  tauto.
Qed.

Lemma filter_length_le (P Q : Z -> Prop) `{!forall t, Decision (P t)}
  `{!forall t, Decision (Q t)} (l : list Z) :
  (forall t, In t l -> P t -> Q t) ->
  (length (filter P l) <= length (filter Q l))%nat.
Proof.
  induction l as [|t l IH]; intros Himp; [reflexivity|].
  rewrite !filter_cons.
  assert (IH' : (length (filter P l) <= length (filter Q l))%nat)
    by (apply IH; intros t' Ht'; apply Himp; now right).
  destruct (decide (P t)) as [Hp|_], (decide (Q t)) as [_|Hq]; cbn [length]; try lia.
  exfalso. apply Hq, Himp; [now left | exact Hp].
Qed.

(** Filtering for a later time what was kept at an earlier time loses
    nothing of what the later time keeps. *)
Lemma recent_recent (now now' : Z) (l : list Z) :
  now <= now' -> recent now' (recent now l) = recent now' l.
Proof.
  intros Hle. unfold recent. induction l as [|t l IH]; [reflexivity|].
  rewrite !filter_cons.
  destruct (decide (now - t < RATE_LIMIT_WINDOW_MS)) as [Hin|Hout].
  - rewrite filter_cons. now rewrite IH.
  - rewrite IH. destruct (decide (now' - t < RATE_LIMIT_WINDOW_MS)); [lia | reflexivity].
Qed.

Lemma recent_app (now : Z) (l l' : list Z) :
  recent now (l ++ l')%list = (recent now l ++ recent now l')%list.
Proof. unfold recent. apply filter_app. Qed.

Lemma in_window_app (T : Z) (l l' : list Z) :
  in_window T (l ++ l')%list = (in_window T l ++ in_window T l')%list.
Proof. unfold in_window. apply filter_app. Qed.

(** What a request does to the record kept under [key]. *)
Lemma stored_after_fetch pf env now request w key :
  RATE_LIMIT_KV env = true ->
  stored_requests (kv (snd (fetch pf env now request w))) key
  = if dispatches env now request w && String.eqb (rateLimitKey request) key
    then (recent now (stored_requests (kv w) key) ++ [now])%list
    else stored_requests (kv w) key.
Proof.
  intros Hkv. destruct (String.eqb_spec (rateLimitKey request) key) as [<- | Hne].
  - rewrite andb_true_r. destruct (dispatches env now request w) eqn:Hd.
    + apply dispatches_spec in Hd.
      rewrite (fetch_reaches_dispatcher pf _ _ _ _ Hd), route_kv.
      unfold counted. rewrite Hkv. cbn [kv set_kv].
      unfold stored_requests at 1. now rewrite lookup_insert_eq.
    + destruct (fetch_guard_or_dispatch pf env now request w) as [-> | Hreach];
        [reflexivity|].
      apply dispatches_spec in Hreach. congruence.
  - rewrite andb_false_r. unfold stored_requests.
    rewrite fetch_other_keys by congruence. reflexivity.
Qed.

(** The invariant of a run: the record agrees with the dispatched times
    [D] on every window still to come, and no window holds more than the
    budget. *)
Lemma window_invariant env key :
  RATE_LIMIT_KV env = true ->
  forall arrivals w D last,
    clock_from last arrivals = true ->
    (forall t, In t D -> t <= last) ->
    (forall now, last <= now ->
       recent now (stored_requests (kv w) key) = recent now D) ->
    (forall T, Z.of_nat (length (in_window T D)) <= RATE_LIMIT_MAX_REQUESTS) ->
    forall T,
      Z.of_nat (length (in_window T (D ++ dispatched_at env key arrivals w)%list))
      <= RATE_LIMIT_MAX_REQUESTS.
Proof.
  intros Hkv. induction arrivals as [|a arrivals IH];
    intros w D last Hclock Hlast Hrec Hbound T.
  - cbn [dispatched_at]. rewrite app_nil_r. apply Hbound.
  - cbn [clock_from] in Hclock. apply andb_true_iff in Hclock as [Hnow Hclock].
    apply Z.leb_le in Hnow. cbn [dispatched_at].
    pose proof (stored_after_fetch (arr_platform a) env (arr_now a) (arr_request a)
                  w key Hkv) as Hstored.
    fold (serve env a w) in Hstored.
    destruct (dispatches env (arr_now a) (arr_request a) w
              && String.eqb (rateLimitKey (arr_request a)) key) eqn:Hd.
    + rewrite List.app_assoc.
      apply andb_true_iff in Hd as [Hd Hkey]. apply String.eqb_eq in Hkey.
      apply dispatches_spec in Hd. destruct Hd as (_ & _ & [Hoff | Hfree]);
        [congruence|].
      rewrite Hkey, (Hrec (arr_now a) Hnow) in Hfree.
      apply (IH (snd (serve env a w)) (D ++ [arr_now a])%list (arr_now a) Hclock).
      * intros t [Ht | [<- | []]]%in_app_iff; [specialize (Hlast t Ht)|]; lia.
      * intros now' Hnow'. rewrite Hstored, !recent_app.
        rewrite recent_recent by exact Hnow'.
        rewrite Hrec by lia. reflexivity.
      * intros T'. rewrite in_window_app, List.length_app.
        destruct (Z.lt_ge_cases T' (arr_now a)) as [Hbefore | Hafter].
        -- replace (in_window T' [arr_now a]) with (@nil Z).
           ++ cbn [length]. specialize (Hbound T'). lia.
           ++ unfold in_window. rewrite filter_cons, filter_nil.
              destruct (decide _) as [[_ Hle]|_]; [lia | reflexivity].
        -- assert (Hsub : (length (in_window T' D)
                           <= length (recent (arr_now a) D))%nat).
           { apply filter_length_le. intros t Ht [Hlow _].
             specialize (Hlast t Ht). lia. }
           assert (Hone : (length (in_window T' [arr_now a]) <= 1)%nat).
           { unfold in_window. rewrite filter_cons, filter_nil.
             destruct (decide _); cbn [length]; lia. }
           lia.
    + cbn [app]. apply (IH (snd (serve env a w)) D (arr_now a) Hclock).
      * intros t Ht. specialize (Hlast t Ht). lia.
      * intros now' Hnow'. rewrite Hstored. apply Hrec. lia.
      * exact Hbound.
Qed.

End SlidingWindow.

Section LetThrough.

Lemma no_retry_after_json origin :
  json_headers origin !! "Retry-After" = None.
Proof. unfold json_headers, corsHeaders. now simplify_map_eq. Qed.

Lemma not_rate_limited (r : Response) :
  headers r !! "Retry-After" = None -> rate_limited r = false.
Proof.
  intros H. unfold rate_limited. rewrite H.
  rewrite bool_decide_eq_false_2 by discriminate. apply andb_false_r.
Qed.

Lemma no_retry_after_mirrored pf origin up fields :
  headers (mirrored pf origin up fields) !! "Retry-After" = None.
Proof.
  unfold mirrored. destruct (mirror_accepted (up_status up));
    apply no_retry_after_json.
Qed.

Lemma no_retry_after_forward pf origin url path hit :
  headers (forward pf origin url path hit) !! "Retry-After" = None.
Proof. unfold forward, corsHeaders. cbn [headers]. now simplify_map_eq. Qed.

Lemma no_retry_after_gz_forward origin subpath up :
  headers (gz_forward origin subpath up) !! "Retry-After" = None.
Proof. unfold gz_forward, corsHeaders. cbn [headers]. now simplify_map_eq. Qed.

Ltac no_retry_after :=
  lazymatch goal with
  | |- headers (forward _ _ _ _ _) !! _ = None => apply no_retry_after_forward
  | |- headers (gz_forward _ _ _) !! _ = None => apply no_retry_after_gz_forward
  | |- headers (mirrored _ _ _ _) !! _ = None => apply no_retry_after_mirrored
  | |- headers (json_response _ _ _) !! _ = None => apply no_retry_after_json
  | |- headers (forbidden_file_type _) !! _ = None => apply no_retry_after_json
  | |- headers (proxy_error _ _) !! _ = None => apply no_retry_after_json
  | |- headers (file_too_large _) !! _ = None => apply no_retry_after_json
  end.

Lemma no_retry_after_proxyRequest pf request source subpath origin w :
  headers (fst (proxyRequest pf request source subpath origin w)) !! "Retry-After"
  = None.
Proof.
  destruct (proxyRequest_path pf request source subpath origin w); cbn [fst];
    no_retry_after.
Qed.

Lemma no_retry_after_proxyLibreOfficeGz pf request source subpath origin w :
  headers (fst (proxyLibreOfficeGz pf request source subpath origin w))
    !! "Retry-After" = None.
Proof.
  destruct (proxyLibreOfficeGz_path pf request source subpath origin w); cbn [fst];
    no_retry_after.
Qed.

(** The dispatcher never answers with the refusal of the rate limiter,
    not even when it mirrors a 429 of the upstream. *)
Lemma route_not_rate_limited pf env request origin w :
  rate_limited (fst (route pf env request origin w)) = false.
Proof.
  apply not_rate_limited. unfold route.
  destruct (JS.startsWith (pathname request) "/libreoffice/").
  { destruct (JS.endsWith _ ".wasm" || JS.endsWith _ ".data");
      [apply no_retry_after_proxyLibreOfficeGz|].
    destruct (JS.endsWith _ ".gz");
      [apply no_retry_after_proxyLibreOfficeGz | apply no_retry_after_proxyRequest]. }
  destruct (JS.startsWith (pathname request) "/pymupdf/");
    [apply no_retry_after_proxyRequest|].
  destruct (JS.startsWith (pathname request) "/gs/");
    [apply no_retry_after_proxyRequest|].
  destruct (JS.startsWith (pathname request) "/cpdf/");
    [apply no_retry_after_proxyRequest|].
  destruct (String.eqb (pathname request) "/" || String.eqb (pathname request) "/health");
    apply no_retry_after_json.
Qed.

Lemma client_key request ip :
  client_address request ip <-> rateLimitKey request = "wasm-ratelimit:" +:+ ip.
Proof.
  unfold client_address, rateLimitKey. cbv zeta.
  destruct (headers_get (req_headers request) "CF-Connecting-IP") as [x|];
    cbn [JS.or_else]; [destruct (String.eqb_spec x "") as [-> | Hx]|];
    (split; [intros [[H Hne] | [H ->]]
            | intros H; rewrite !str_app_cons, !str_app_nil in H;
              injection H as <-]).
  all: try congruence; try reflexivity.
  - right. split; [now right | reflexivity].
  - destruct H as [H | H]; congruence.
  - left. now split.
  - right. split; [now left | reflexivity].
Qed.

(** With the rate limiter bound, a request is let through exactly when it
    reaches the dispatcher. *)
Lemma let_through_dispatches pf env now request w :
  RATE_LIMIT_KV env = true ->
  bool_decide (passes_guards request)
  && negb (rate_limited (fst (fetch pf env now request w)))
  = dispatches env now request w.
Proof.
  intros Hkv. destruct (decide (passes_guards request)) as [[Hm Ho] | Hno].
  - rewrite bool_decide_eq_true_2 by now split. cbn [andb].
    destruct (Z.leb_spec RATE_LIMIT_MAX_REQUESTS
                (Z.of_nat (length (recent now
                   (stored_requests (kv w) (rateLimitKey request)))))) as [Hfull | Hfree].
    + rewrite (fetch_over_budget pf _ _ _ _ Hkv Hm Ho Hfull). cbn [fst].
      replace (rate_limited (too_many_requests (origin_of request))) with true
        by (unfold rate_limited, too_many_requests; cbn [status headers];
            now rewrite lookup_insert_eq, bool_decide_eq_true_2).
      symmetry. apply not_true_iff_false. intros Hd%dispatches_spec.
      destruct Hd as (_ & _ & [Hoff | Hlt]); [congruence | lia].
    + assert (Hreach : reaches_dispatcher env now request w)
        by (split; [exact Hm|]; split; [exact Ho | now right]).
      rewrite (fetch_reaches_dispatcher pf _ _ _ _ Hreach), route_not_rate_limited.
      symmetry. now apply dispatches_spec.
  - rewrite bool_decide_eq_false_2 by exact Hno. cbn [andb].
    symmetry. apply not_true_iff_false. intros Hd%dispatches_spec.
    apply Hno. destruct Hd as (Hm & Ho & _). now split.
Qed.

Lemma let_through_dispatched env ip arrivals w :
  RATE_LIMIT_KV env = true ->
  let_through env ip arrivals w
  = dispatched_at env ("wasm-ratelimit:" +:+ ip) arrivals w.
Proof.
  intros Hkv. revert w. induction arrivals as [|a arrivals IH]; intros w;
    [reflexivity|].
  cbn [let_through dispatched_at]. rewrite IH. f_equal.
  rewrite <- (let_through_dispatches (arr_platform a) env (arr_now a) (arr_request a)
                w Hkv).
  fold (serve env a w).
  replace (String.eqb (rateLimitKey (arr_request a)) ("wasm-ratelimit:" +:+ ip))
    with (bool_decide (client_address (arr_request a) ip)).
  - now destruct (bool_decide (client_address (arr_request a) ip)),
      (bool_decide (passes_guards (arr_request a))),
      (rate_limited (fst (serve env a w))).
  - destruct (decide (client_address (arr_request a) ip)) as [Hc | Hc].
    + rewrite bool_decide_eq_true_2 by exact Hc. apply client_key in Hc.
      symmetry. now apply String.eqb_eq.
    + rewrite bool_decide_eq_false_2 by exact Hc.
      symmetry. apply String.eqb_neq. intros Hk. now apply Hc, client_key.
Qed.

End LetThrough.

(** X25: the budget holds over time.  With the rate limiter bound and a
    clock that does not run backwards, starting from a store without
    timestamps for the client at [ip], among the requests of that client that
    get to the rate limiter the handler answers at most 100 in any window of
    60 seconds with anything but the refusal (429 with [Retry-After: 60]) --
    whatever else is served in between and whatever the upstreams do. *)
Theorem X25_at_most_100_let_through_per_window env ip arrivals w t0 T :
  RATE_LIMIT_KV env = true ->
  clock_from t0 arrivals = true ->
  stored_requests (kv w) ("wasm-ratelimit:" +:+ ip) = [] ->
  Z.of_nat (length (in_window T (let_through env ip arrivals w))) <= 100.
Proof.
  intros Hkv Hclock Hfresh. rewrite let_through_dispatched by exact Hkv.
  apply (window_invariant env ("wasm-ratelimit:" +:+ ip) Hkv arrivals w [] t0 Hclock).
  - intros t [].
  - intros now _. now rewrite Hfresh.
  - intros T'. unfold RATE_LIMIT_MAX_REQUESTS. cbn. lia.
Qed.

Lemma X25_at_most_100_let_through_per_window_witness :
  Z.of_nat (length (in_window 30000
                      (let_through (env_configured true) "unknown"
                         (burst ++ [after_burst])%list fresh_world)))
  <= 100.
Proof.
  apply (X25_at_most_100_let_through_per_window (env_configured true) "unknown"
           (burst ++ [after_burst])%list fresh_world 0 30000).
  - reflexivity.
  - vm_compute. reflexivity.
  - reflexivity.
Defined.

(** In that run the hundred requests of the burst are let through and the
    one after it is refused. *)
Example burst_let_through :
  length (let_through (env_configured true) "unknown" burst fresh_world) = 100%nat /\
  let_through (env_configured true) "unknown" [after_burst]
    (serve_all (env_configured true) burst fresh_world) = [].
Proof. split; vm_compute; reflexivity. Qed.

(** * Claim C2: which error body in which case *)

Section ErrorBodies.

(** The errors of the cache-aware fetcher: everything but the payload has
    an [error] and a [message], except the mirrored upstream failure. *)
Lemma proxyRequest_error_cases pf request source subpath origin w :
  status (fst (proxyRequest pf request source subpath origin w)) = 200 \/
  (has_field "error" (body (fst (proxyRequest pf request source subpath origin w))) /\
   has_field "message" (body (fst (proxyRequest pf request source subpath origin w)))) \/
  (exists up,
     net_fetch pf (targetUrl_of source subpath) = Returns up /\ ok up = false /\
     status (fst (proxyRequest pf request source subpath origin w)) = up_status up /\
     body (fst (proxyRequest pf request source subpath origin w))
     = BodyJSON (JObject (failure_fields up (targetUrl_of source subpath)))).
Proof.
  destruct (proxyRequest_path pf request source subpath origin w) as
    [ | | | | up ? ? ? | | | | ]; cbn [fst];
    try (left; reflexivity);
    try (right; left; unfold forbidden_file_type, proxy_error, file_too_large;
         split; field_present).
  unfold mirrored. destruct (mirror_accepted (up_status up)).
  - right. right. exists up. cbn [status body]. auto.
  - right. left. unfold proxy_error. split; field_present.
Qed.

(** The errors of the compression-preserving fetcher: besides the mirrored
    upstream failure, the 503 of the unconfigured source has no [message]
    either. *)
Lemma proxyLibreOfficeGz_error_cases pf request source subpath origin w :
  status (fst (proxyLibreOfficeGz pf request source subpath origin w)) = 200 \/
  (has_field "error" (body (fst (proxyLibreOfficeGz pf request source subpath origin w))) /\
   has_field "message"
     (body (fst (proxyLibreOfficeGz pf request source subpath origin w)))) \/
  (exists up,
     net_fetch pf (targetUrl_of source subpath) = Returns up /\ ok up = false /\
     status (fst (proxyLibreOfficeGz pf request source subpath origin w)) = up_status up /\
     body (fst (proxyLibreOfficeGz pf request source subpath origin w))
     = BodyJSON (JObject (gz_failure_fields up (targetUrl_of source subpath)))) \/
  (JS.truthy source = false /\
   status (fst (proxyLibreOfficeGz pf request source subpath origin w)) = 503 /\
   body (fst (proxyLibreOfficeGz pf request source subpath origin w))
   = BodyJSON (JObject [("error", JString "Source not configured")])).
Proof.
  destruct (proxyLibreOfficeGz_path pf request source subpath origin w) as
    [ Hsrc | | up ? ? ? | ]; cbn [fst].
  - right. right. right. now split.
  - right. left. unfold proxy_error. split; field_present.
  - unfold mirrored. destruct (mirror_accepted (up_status up)).
    + right. right. left. exists up. cbn [status body]. auto.
    + right. left. unfold proxy_error. split; field_present.
  - left. reflexivity.
Qed.

(** A path of the compression-preserving route is handed to that fetcher,
    whatever the rest of the request. *)
Lemma gz_route_dispatch request :
  gz_route request ->
  exists subpath, forall pf env origin w,
    route pf env request origin w
    = proxyLibreOfficeGz pf request (LIBREOFFICE_SOURCE env) subpath origin w.
Proof.
  intros (rest & Hpath & Hsuffix).
  assert (Hp : pathname request = "/libreoffice" +:+ "/" +:+ rest)
    by (rewrite Hpath; now rewrite !str_app_cons, !str_app_nil).
  destruct (JS.endsWith ("/" +:+ rest) ".wasm" || JS.endsWith ("/" +:+ rest) ".data")
    eqn:Hgz.
  - exists (("/" +:+ rest) +:+ ".gz"). intros pf env origin w.
    rewrite (route_libreoffice pf env request origin w rest Hp). now rewrite Hgz.
  - exists ("/" +:+ rest). intros pf env origin w.
    rewrite (route_libreoffice pf env request origin w rest Hp). rewrite Hgz.
    apply orb_false_iff in Hgz as [Hwasm Hdata].
    destruct Hsuffix as [Hs | [Hs | Hs]]; apply endsWith_spec in Hs;
      [congruence | congruence | now rewrite Hs].
Qed.

Lemma not_gz_route_elsewhere request :
  JS.startsWith (pathname request) "/libreoffice/" = false -> ~ gz_route request.
Proof.
  intros Hlo (rest & Hpath & _).
  assert (JS.startsWith (pathname request) "/libreoffice/" = true)
    by (apply startsWith_spec; now exists rest).
  congruence.
Qed.

Lemma not_gz_route_other_suffix request rest :
  pathname request = "/libreoffice" +:+ "/" +:+ rest ->
  JS.endsWith ("/" +:+ rest) ".wasm" || JS.endsWith ("/" +:+ rest) ".data" = false ->
  JS.endsWith ("/" +:+ rest) ".gz" = false ->
  ~ gz_route request.
Proof.
  intros Hp Hgz Hdirect (rest' & Hpath & Hsuffix).
  rewrite Hp in Hpath. rewrite !str_app_cons, !str_app_nil in Hpath.
  injection Hpath as <-.
  apply orb_false_iff in Hgz as [Hwasm Hdata].
  destruct Hsuffix as [Hs | [Hs | Hs]]; apply endsWith_spec in Hs; congruence.
Qed.

Lemma gz_route_suffix request rest :
  pathname request = "/libreoffice" +:+ "/" +:+ rest ->
  JS.endsWith ("/" +:+ rest) ".wasm" || JS.endsWith ("/" +:+ rest) ".data" = true \/
  JS.endsWith ("/" +:+ rest) ".gz" = true ->
  gz_route request.
Proof.
  intros Hp H. exists rest. split.
  - rewrite Hp. now rewrite !str_app_cons, !str_app_nil.
  - destruct H as [[H | H]%orb_true_iff | H]; apply endsWith_spec in H; tauto.
Qed.

(** The answers of the dispatcher, case by case. *)
Lemma route_error_cases pf env request origin w :
  status (fst (route pf env request origin w)) = 200 \/
  (has_field "error" (body (fst (route pf env request origin w))) /\
   has_field "message" (body (fst (route pf env request origin w)))) \/
  (~ gz_route request /\ exists url up,
     net_fetch pf url = Returns up /\ ok up = false /\
     status (fst (route pf env request origin w)) = up_status up /\
     body (fst (route pf env request origin w))
     = BodyJSON (JObject (failure_fields up url))) \/
  (gz_route request /\ exists url up,
     net_fetch pf url = Returns up /\ ok up = false /\
     status (fst (route pf env request origin w)) = up_status up /\
     body (fst (route pf env request origin w))
     = BodyJSON (JObject (gz_failure_fields up url))) \/
  (gz_route request /\ JS.truthy (LIBREOFFICE_SOURCE env) = false /\
   status (fst (route pf env request origin w)) = 503 /\
   body (fst (route pf env request origin w))
   = BodyJSON (JObject [("error", JString "Source not configured")])).
Proof.
  assert (Hcache_aware : forall source subpath,
    ~ gz_route request ->
    route pf env request origin w = proxyRequest pf request source subpath origin w ->
    status (fst (route pf env request origin w)) = 200 \/
    (has_field "error" (body (fst (route pf env request origin w))) /\
     has_field "message" (body (fst (route pf env request origin w)))) \/
    (~ gz_route request /\ exists url up,
       net_fetch pf url = Returns up /\ ok up = false /\
       status (fst (route pf env request origin w)) = up_status up /\
       body (fst (route pf env request origin w))
       = BodyJSON (JObject (failure_fields up url))) \/
    (gz_route request /\ exists url up,
       net_fetch pf url = Returns up /\ ok up = false /\
       status (fst (route pf env request origin w)) = up_status up /\
       body (fst (route pf env request origin w))
       = BodyJSON (JObject (gz_failure_fields up url))) \/
    (gz_route request /\ JS.truthy (LIBREOFFICE_SOURCE env) = false /\
     status (fst (route pf env request origin w)) = 503 /\
     body (fst (route pf env request origin w))
     = BodyJSON (JObject [("error", JString "Source not configured")]))).
  { intros source subpath Hnot ->.
    destruct (proxyRequest_error_cases pf request source subpath origin w)
      as [H | [H | (up & H)]].
    - now left.
    - right. now left.
    - right. right. left. split; [exact Hnot|].
      now exists (targetUrl_of source subpath), up. }
  destruct (JS.startsWith (pathname request) "/libreoffice/") eqn:Hlo.
  { destruct (route_split _ "/libreoffice" Hlo) as [rest Hpath].
    destruct (JS.endsWith ("/" +:+ rest) ".wasm" || JS.endsWith ("/" +:+ rest) ".data")
      eqn:Hgz; [|destruct (JS.endsWith ("/" +:+ rest) ".gz") eqn:Hdirect].
    3:{ apply (Hcache_aware (LIBREOFFICE_SOURCE env) ("/" +:+ rest)).
        - now apply (not_gz_route_other_suffix request rest).
        - rewrite (route_libreoffice pf env request origin w rest Hpath).
          now rewrite Hgz, Hdirect. }
    all: assert (Hroute : gz_route request)
           by (apply (gz_route_suffix request rest Hpath); auto).
    all: destruct (gz_route_dispatch request Hroute) as [subpath ->].
    all: destruct (proxyLibreOfficeGz_error_cases pf request (LIBREOFFICE_SOURCE env)
                     subpath origin w) as [H | [H | [(up & H) | H]]].
    all: first [ now left
               | right; now left
               | right; right; right; left; split; [exact Hroute|];
                 now exists (targetUrl_of (LIBREOFFICE_SOURCE env) subpath), up
               | right; right; right; right; now split ]. }
  pose proof (not_gz_route_elsewhere request Hlo) as Hnot.
  destruct (JS.startsWith (pathname request) "/pymupdf/") eqn:Hpy.
  { destruct (route_split _ "/pymupdf" Hpy) as [rest Hpath].
    apply (Hcache_aware (PYMUPDF_SOURCE env) ("/" +:+ rest) Hnot).
    apply (route_pymupdf pf env request origin w rest Hpath). }
  destruct (JS.startsWith (pathname request) "/gs/") eqn:Hgs.
  { destruct (route_split _ "/gs" Hgs) as [rest Hpath].
    apply (Hcache_aware (GS_SOURCE env) ("/" +:+ rest) Hnot).
    apply (route_gs pf env request origin w rest Hpath). }
  destruct (JS.startsWith (pathname request) "/cpdf/") eqn:Hcp.
  { destruct (route_split _ "/cpdf" Hcp) as [rest Hpath].
    apply (Hcache_aware (CPDF_SOURCE env) ("/" +:+ rest) Hnot).
    apply (route_cpdf pf env request origin w rest Hpath). }
  unfold route. rewrite Hlo, Hpy, Hgs, Hcp.
  destruct (String.eqb (pathname request) "/" || String.eqb (pathname request) "/health").
  - left. reflexivity.
  - right. left. cbn [fst]. split; field_present.
Qed.

End ErrorBodies.

Ltac by_route :=
  lazymatch goal with
  | |- 400 <= status (fst (route ?pf ?env ?request ?origin ?w)) -> _ =>
      let H := fresh "H" in
      let E := fresh "E" in
      intros H;
      destruct (route_error_cases pf env request origin w) as [E | E];
      [rewrite E in H; lia | right; exact E]
  end.

(** C2, as amended, case by case.

    (1) Every answer of the handler with a status of 400 or more is one of
    five: the plain text "Method not allowed" with status 405, for a method
    that is neither [GET] nor [HEAD]; a JSON body with an [error] and a
    [message]; on a path of the cache-aware fetcher, the mirror of a failed
    upstream answer, with exactly [error], [status], [statusText] and
    [targetUrl]; on a path of the compression-preserving fetcher, that
    mirror with exactly [error], [status] and [targetUrl]; or, on such a
    path with the source not configured, the 503 whose body is [error]
    alone.

    (2), (3) A failed upstream fetch whose status [new Response] accepts is
    mirrored by either fetcher: the upstream status, the fields above, and
    no [message] (nor [statusText] from the compression-preserving
    fetcher).

    (4) A request that reaches the dispatcher on a path of the
    compression-preserving fetcher with the source not configured gets the
    503 whose body is [error] alone. *)
Theorem C2_error_bodies :
  (forall pf env now request w,
     400 <= status (fst (fetch pf env now request w)) ->
     (method request <> "GET" /\ method request <> "HEAD" /\
      status (fst (fetch pf env now request w)) = 405 /\
      body (fst (fetch pf env now request w)) = BodyText "Method not allowed")
     \/
     (has_field "error" (body (fst (fetch pf env now request w))) /\
      has_field "message" (body (fst (fetch pf env now request w))))
     \/
     (~ gz_route request /\ exists url up,
        net_fetch pf url = Returns up /\ ok up = false /\
        status (fst (fetch pf env now request w)) = up_status up /\
        body (fst (fetch pf env now request w))
        = BodyJSON (JObject
            [("error", JString "Failed to fetch resource");
             ("status", JNumber (up_status up));
             ("statusText", JString (up_statusText up));
             ("targetUrl", JString url)]))
     \/
     (gz_route request /\ exists url up,
        net_fetch pf url = Returns up /\ ok up = false /\
        status (fst (fetch pf env now request w)) = up_status up /\
        body (fst (fetch pf env now request w))
        = BodyJSON (JObject
            [("error", JString "Failed to fetch");
             ("status", JNumber (up_status up));
             ("targetUrl", JString url)]))
     \/
     (gz_route request /\ JS.truthy (LIBREOFFICE_SOURCE env) = false /\
      status (fst (fetch pf env now request w)) = 503 /\
      body (fst (fetch pf env now request w))
      = BodyJSON (JObject [("error", JString "Source not configured")])))
  /\
  (forall pf request source subpath origin w up,
     JS.truthy source = true ->
     isAllowedFile subpath = true ->
     cache w !! targetUrl_of source subpath = None ->
     net_fetch pf (targetUrl_of source subpath) = Returns up ->
     ok up = false ->
     mirror_accepted (up_status up) = true ->
     let r := fst (proxyRequest pf request source subpath origin w) in
     status r = up_status up /\
     has_field "error" (body r) /\ has_field "status" (body r) /\
     has_field "statusText" (body r) /\ has_field "targetUrl" (body r) /\
     ~ has_field "message" (body r))
  /\
  (forall pf request source subpath origin w up,
     JS.truthy source = true ->
     net_fetch pf (targetUrl_of source subpath) = Returns up ->
     ok up = false ->
     mirror_accepted (up_status up) = true ->
     let r := fst (proxyLibreOfficeGz pf request source subpath origin w) in
     status r = up_status up /\
     has_field "error" (body r) /\ has_field "status" (body r) /\
     has_field "targetUrl" (body r) /\
     ~ has_field "message" (body r) /\ ~ has_field "statusText" (body r))
  /\
  (forall pf env now request w,
     reaches_dispatcher env now request w ->
     gz_route request ->
     JS.truthy (LIBREOFFICE_SOURCE env) = false ->
     status (fst (fetch pf env now request w)) = 503 /\
     body (fst (fetch pf env now request w))
     = BodyJSON (JObject [("error", JString "Source not configured")]) /\
     ~ has_field "message" (body (fst (fetch pf env now request w)))).
Proof.
  split; [|split; [|split]].
  - intros pf env now request w. unfold fetch.
    destruct (String.eqb (method request) "OPTIONS"); [cbn; lia|].
    destruct (isAllowedOrigin _).
    2:{ intros _. right. left. cbn [fst body]. split; field_present. }
    cbn [negb].
    destruct (String.eqb_spec (method request) "GET") as [Hget | Hget];
      [|destruct (String.eqb_spec (method request) "HEAD") as [Hhead | Hhead]];
      cbn [negb andb].
    3:{ intros _. left. repeat split; assumption. }
    all: destruct (RATE_LIMIT_KV env); [|by_route].
    all: unfold rateLimiter; destruct (RATE_LIMIT_MAX_REQUESTS <=? _); [|by_route].
    all: intros _; right; left; cbn [fst body]; split; field_present.
  - intros pf request source subpath origin w up Hsrc Hgate Hmiss Hfetch Hok Hacc r.
    subst r. rewrite (proxyRequest_failed _ _ _ _ _ _ Hsrc Hgate Hmiss _ Hfetch Hok).
    unfold mirrored. rewrite Hacc. cbn [fst status body].
    split; [reflexivity|]. repeat (split; [field_present|]). field_absent.
  - intros pf request source subpath origin w up Hsrc Hfetch Hok Hacc r.
    subst r. rewrite (proxyLibreOfficeGz_failed _ _ _ _ _ _ Hsrc _ Hfetch Hok).
    unfold mirrored. rewrite Hacc. cbn [fst status body].
    split; [reflexivity|]. repeat (split; [field_present|]). split; field_absent.
  - intros pf env now request w Hreach Hgz Hsrc.
    rewrite (fetch_reaches_dispatcher pf _ _ _ _ Hreach).
    destruct (gz_route_dispatch request Hgz) as [subpath ->].
    rewrite proxyLibreOfficeGz_unconfigured by exact Hsrc. cbn [fst status body json_response].
    split; [reflexivity|]. split; [reflexivity|]. field_absent.
Qed.

Lemma C2_error_bodies_witness :
  status (fst (fetch (upstream_always (plain_ok None [])) env_unconfigured 0
                 (get_request "/libreoffice/soffice.wasm" ∅) fresh_world)) = 503 /\
  body (fst (fetch (upstream_always (plain_ok None [])) env_unconfigured 0
               (get_request "/libreoffice/soffice.wasm" ∅) fresh_world))
  = BodyJSON (JObject [("error", JString "Source not configured")]) /\
  ~ has_field "message"
      (body (fst (fetch (upstream_always (plain_ok None [])) env_unconfigured 0
                    (get_request "/libreoffice/soffice.wasm" ∅) fresh_world))).
Proof.
  apply (proj2 (proj2 (proj2 C2_error_bodies))
           (upstream_always (plain_ok None [])) env_unconfigured 0
           (get_request "/libreoffice/soffice.wasm" ∅) fresh_world).
  - split; [now left|]. split; [reflexivity | now left].
  - exists "soffice.wasm". split; [reflexivity|]. left. now exists "/soffice".
  - reflexivity.
Defined.
